(** * Internship-tracker backend: the request handlers of [server.js]

    The server is one Express application whose routes forward each request to
    a remote data store (PostgREST tables) or object store through the
    [supabase] client, and wrap the outcome in the envelope
    [{success, data, error}].

    The embedding follows the source:
    - JSON values and objects ([req.body], table rows, response bodies);
    - the awaited client calls as the nodes of a small exception/IO monad
      [prog]: a handler is the tree of the calls it awaits, each continued by
      what the handler does with the [{data, error}] it gets back;
    - [try { ... } catch (err) { res.status(500)... }] as [try_catch];
    - a reference model [Store] of the external store, used where a property
      speaks about the rows a table holds before and after a request. *)

From Stdlib Require Import ZArith String Ascii List Bool DecimalString DecimalZ.
From stdpp Require Import gmap strings list fin_maps.

Set Warnings "-register-all".
Local Open Scope string_scope.
Local Open Scope Z_scope.

(** ** JSON values *)

(** A parsed JSON value.  JavaScript's [undefined] is not a JSON value: a
    field that may be [undefined] is an [option value].  Numbers are the
    integers (the counters, identifiers and totals the API carries). *)
Inductive value :=
| VNull
| VBool (b : bool)
| VNum (n : Z)
| VStr (s : string)
| VArr (l : list value)
| VObj (o : gmap string value).

Abbreviation obj := (gmap string value).

(** JavaScript truthiness ([!x] is [negb (truthy x)]): [undefined], [null],
    [false], [0] and the empty string are falsy, everything else is truthy. *)
Definition truthy (x : option value) : bool :=
  match x with
  | None => false
  | Some VNull => false
  | Some (VBool b) => b
  | Some (VNum n) => negb (n =? 0)
  | Some (VStr s) => negb (String.eqb s "")
  | Some (VArr _) => true
  | Some (VObj _) => true
  end.

(** [x || d] with a defined right operand. *)
Definition js_or (x : option value) (d : value) : value :=
  match x with
  | Some v => if truthy x then v else d
  | None => d
  end.

(** Truthiness of a query-string parameter (a string or [undefined]). *)
Definition truthy_str (x : option string) : bool :=
  match x with
  | None => false
  | Some s => negb (String.eqb s "")
  end.

(** Decimal rendering of an integer, as a template literal renders it. *)
Definition string_of_Z (n : Z) : string :=
  NilZero.string_of_int (Z.to_int n).

(** [String(v)], the conversion a template literal applies to [${v}]. *)
Fixpoint ToString (v : value) : string :=
  match v with
  | VNull => "null"
  | VBool true => "true"
  | VBool false => "false"
  | VNum n => string_of_Z n
  | VStr s => s
  | VArr l =>
      (fix join (l : list value) : string :=
         match l with
         | [] => ""
         | x :: xs =>
             let e := match x with VNull => "" | _ => ToString x end in
             match xs with
             | [] => e
             | _ => e ++ "," ++ join xs
             end
         end) l
  | VObj _ => "[object Object]"
  end.

(** An object literal whose fields may be [undefined].  The client sends the
    literal through [JSON.stringify], which drops the [undefined] fields. *)
Fixpoint object (fields : list (string * option value)) : obj :=
  match fields with
  | [] => ∅
  | (k, Some v) :: rest => <[k := v]> (object rest)
  | (k, None) :: rest => object rest
  end.

(** ** Requests, responses, the envelope *)

(** What a handler reads of a request besides the route parameters, which the
    [route] carries: the query string ([req.query], each parameter a string)
    and the JSON body as [express.json()] parsed it ([req.body], an
    object). *)
Record request := {
  query : gmap string string;
  body : obj
}.

(** An error object: a store error [{code, message}] or a JavaScript
    exception (whose [code] is absent, here the empty string). *)
Record Err := { err_code : string; err_message : string }.

(** What a handler calls without awaiting while it serves one request:
    [Date.now()], [new Date().toISOString()], [Buffer.from(x, "base64")]
    (which throws or yields the bytes), and the client's
    [storage.from(bucket).getPublicUrl(path)], computed locally. *)
Record env := {
  Date_now : Z;
  toISOString : string;
  Buffer_from : option value -> Err + list Byte.byte;
  getPublicUrl : string -> string -> string
}.

Record response := { status : Z; json : value }.

Definition envelope (success : bool) (data : value) (error : value) : value :=
  VObj (<["success" := VBool success]>
        (<["data" := data]> (<["error" := error]> ∅))).

(** [res.json({success: true, data, error: null})]: status 200 by default. *)
Definition res_ok (data : value) : response :=
  {| status := 200; json := envelope true data VNull |}.

(** [res.status(400).json({success: false, data: null, error: msg})]. *)
Definition res_400 (msg : string) : response :=
  {| status := 400; json := envelope false VNull (VStr msg) |}.

(** The body of every [catch (err)] block. *)
Definition catch_block (err : Err) : response :=
  {| status := 500; json := envelope false VNull (VStr (err_message err)) |}.

(** ** Client calls *)

(** The conditions of the builder chain: [.eq], [.in], [.gte], [.lte].  The
    compared value is whatever the handler passes, possibly [undefined]. *)
Inductive cond :=
| c_eq (col : string) (v : option value)
| c_in (col : string) (vs : list (option value))
| c_gte (col : string) (v : option value)
| c_lte (col : string) (v : option value).

(** One awaited call of the client, with everything the builder chain fixed:
    - [QSelect t cols conds order single] is
      [from(t).select(cols)] followed by the conditions, [.order(col,
      {ascending})] when [order] is given and [.single()] when [single];
    - [QInsert t p] is [from(t).insert(p).select().single()];
    - [QUpdate t p c] is [from(t).update(p)] under condition [c] followed by
      [.select().single()];
    - [QDelete t c] is [from(t).delete()] under condition [c];
    - [QUpload b path bytes contentType upsert] is
      [storage.from(b).upload(path, bytes, {contentType, upsert})]. *)
Inductive call :=
| QSelect (table cols : string) (conds : list cond)
          (order : option (string * bool)) (single : bool)
| QInsert (table : string) (payload : obj)
| QUpdate (table : string) (payload : obj) (c : cond)
| QDelete (table : string) (c : cond)
| QUpload (bucket path : string) (bytes : list Byte.byte)
          (contentType : string) (upsert : bool).

(** The [{data, error}] a call resolves to.  The client reports a failure in
    [error] and does not reject the promise, so an awaited call always
    yields such a pair. *)
Record result := { data : value; error : option Err }.

(** ** Handler programs *)

Inductive prog (A : Type) :=
| Ret (a : A)
| Throw (e : Err)
| Await (c : call) (k : result -> prog A).
Arguments Ret {A} a.
Arguments Throw {A} e.
Arguments Await {A} c k.

Notation "'let*' x ':=' 'await' c 'in' k" := (Await c (fun x => k))
  (at level 10, x name, c at level 100, k at level 200,
   format "'let*'  x  ':='  'await'  c  'in'  '/' k").

Section Run.
Context {S : Type} (backend : S -> call -> result * S).

(** Runs a program against a backend: the outcome (a thrown error or a
    value), the backend's final state, and the calls issued, in order, each
    with the result it got. *)
Fixpoint run {A} (p : prog A) (s : S) : (Err + A) * S * list (call * result) :=
  match p with
  | Ret a => (inr a, s, [])
  | Throw e => (inl e, s, [])
  | Await c k =>
      let '(r, s1) := backend s c in
      let '(o, s2, tr) := run (k r) s1 in
      (o, s2, (c, r) :: tr)
  end.

(** [try { p } catch (err) { res.status(500).json(...) }]. *)
Definition try_catch (p : prog response) (s : S)
  : response * S * list (call * result) :=
  let '(o, s', tr) := run p s in
  (match o with inl err => catch_block err | inr r => r end, s', tr).
End Run.

(** ** The handlers

    Each definition is the [try] block of one [app.METHOD(path, ...)]
    registration; [console.log]/[console.error] are left out.  Handlers that
    are textual copies of one another up to the table name, the ordering
    column or the message share one definition taking those as arguments. *)

(** [if (error) throw error; res.json({success: true, data: data, error: null})]. *)
Definition throw_or_json (r : result) : prog response :=
  match error r with
  | Some e => Throw e
  | None => Ret (res_ok (data r))
  end.

(** [v.k] for a value that is not [null]. *)
Definition get_field (v : value) (k : string) : option value :=
  match v with
  | VObj o => o !! k
  | _ => None
  end.

(** [String(x)] of a possibly undefined value. *)
Definition to_str (x : option value) : string :=
  match x with
  | Some v => ToString v
  | None => "undefined"
  end.

Definition is_undefined (x : option value) : bool :=
  match x with
  | None => true
  | Some _ => false
  end.

Definition TypeError (msg : string) : Err :=
  {| err_code := ""; err_message := msg |}.

(** [GET /]. *)
Definition get_health (rt : env) : prog response :=
  Ret {| status := 200;
         json := VObj (<["success" := VBool true]>
                       (<["message" := VStr "Internship Preparation Tracker API"]>
                        (<["timestamp" := VStr (toISOString rt)]> ∅))) |}.

(** [GET /todos], [/habits], [/courses], [/certificates], [/projects],
    [/skills]: the rows of one profile, ordered. *)
Definition list_by_profile (table col : string) (ascending : bool)
    (req : request) : prog response :=
  let profile := query req !! "profile" in
  if negb (truthy_str profile) then
    Ret (res_400 "Profile parameter is required")
  else
    let* r := await QSelect table "*" [c_eq "profile" (VStr <$> profile)]
                (Some (col, ascending)) false in
    throw_or_json r.

(** [GET /daily-logs/piyush], [/daily-logs/shruti], [/cp-ratings],
    [/contest-logs], [/blind75], [/resume-sections], [/case-studies],
    [/guesstimates], [/case-competitions]: all rows, ordered. *)
Definition list_all (table col : string) (ascending : bool) : prog response :=
  let* r := await QSelect table "*" [] (Some (col, ascending)) false in
  throw_or_json r.

(** [PUT /<resource>/:id]. *)
Definition update_by_id (table : string) (id : string) (req : request)
    : prog response :=
  let updates := body req in
  let* r := await QUpdate table updates (c_eq "id" (Some (VStr id))) in
  throw_or_json r.

(** [DELETE /<resource>/:id], except for habits. *)
Definition delete_by_id (table : string) (id : string) : prog response :=
  let* r := await QDelete table (c_eq "id" (Some (VStr id))) in
  match error r with
  | Some e => Throw e
  | None => Ret (res_ok (VObj {[ "id" := VStr id ]}))
  end.

(** [POST /todos]. *)
Definition post_todos (req : request) : prog response :=
  let profile := body req !! "profile" in
  let content := body req !! "content" in
  if negb (truthy profile) || negb (truthy content) then
    Ret (res_400 "Profile and content are required")
  else
    let* r := await QInsert "todos"
                (object [("profile", profile); ("content", content)]) in
    throw_or_json r.

(** [POST /habits]. *)
Definition post_habits (req : request) : prog response :=
  let profile := body req !! "profile" in
  let name := body req !! "name" in
  let sort_order := body req !! "sort_order" in
  if negb (truthy profile) || negb (truthy name) then
    Ret (res_400 "Profile and name are required")
  else
    let* r := await QInsert "habits"
                (object [("profile", profile); ("name", name);
                         ("sort_order", Some (js_or sort_order (VNum 0)))]) in
    throw_or_json r.

(** [DELETE /habits/:id]: the result of the first call is not looked at. *)
Definition delete_habits_id (id : string) : prog response :=
  let* _ := await QDelete "habit_entries" (c_eq "habit_id" (Some (VStr id))) in
  let* r := await QDelete "habits" (c_eq "id" (Some (VStr id))) in
  match error r with
  | Some e => Throw e
  | None => Ret (res_ok (VObj {[ "id" := VStr id ]}))
  end.

(** [habits.map((h) => h.id)]. *)
Definition map_id (habits : value) : Err + list (option value) :=
  match habits with
  | VArr l =>
      (fix go (l : list value) : Err + list (option value) :=
         match l with
         | [] => inr []
         | VNull :: _ =>
             inl (TypeError "Cannot read properties of null (reading 'id')")
         | h :: rest =>
             match go rest with
             | inl e => inl e
             | inr ids => inr (get_field h "id" :: ids)
             end
         end) l
  | VNull => inl (TypeError "Cannot read properties of null (reading 'map')")
  | _ => inl (TypeError "habits.map is not a function")
  end.

(** [GET /habit-entries]. *)
Definition get_habit_entries (req : request) : prog response :=
  let profile := query req !! "profile" in
  let from := query req !! "from" in
  let to := query req !! "to" in
  if negb (truthy_str profile) then
    Ret (res_400 "Profile parameter is required")
  else
    let* hr := await QSelect "habits" "id" [c_eq "profile" (VStr <$> profile)]
                 None false in
    match error hr with
    | Some habitsError => Throw habitsError
    | None =>
        match map_id (data hr) with
        | inl e => Throw e
        | inr habitIds =>
            if (length habitIds =? 0)%nat then Ret (res_ok (VArr []))
            else
              let* r := await QSelect "habit_entries" "*"
                    ([c_in "habit_id" habitIds]
                     ++ (if truthy_str from
                         then [c_gte "date" (VStr <$> from)] else [])
                     ++ (if truthy_str to
                         then [c_lte "date" (VStr <$> to)] else []))
                    (Some ("date", false)) false in
              throw_or_json r
        end
    end.

(** [POST /habit-entries]. *)
Definition post_habit_entries (req : request) : prog response :=
  let habit_id := body req !! "habit_id" in
  let date := body req !! "date" in
  let completed := body req !! "completed" in
  if negb (truthy habit_id) || negb (truthy date) then
    Ret (res_400 "habit_id and date are required")
  else
    let* r := await QInsert "habit_entries"
                (object [("habit_id", habit_id); ("date", date);
                         ("completed", Some (js_or completed (VBool false)))]) in
    throw_or_json r.

(** [GET /daily-logs/piyush/:date] and [GET /daily-logs/shruti/:date]. *)
Definition get_daily_log_by_date (table : string) (date : string)
    : prog response :=
  let* r := await QSelect table "*" [c_eq "date" (Some (VStr date))] None true in
  match error r with
  | Some e =>
      if String.eqb (err_code e) "PGRST116" then Ret (res_ok VNull)
      else Throw e
  | None => Ret (res_ok (data r))
  end.

(** [POST /daily-logs/piyush]. *)
Definition post_daily_logs_piyush (req : request) : prog response :=
  let date := body req !! "date" in
  let dsa_questions_solved := body req !! "dsa_questions_solved" in
  let notes := body req !! "notes" in
  if negb (truthy date) then Ret (res_400 "Date is required")
  else
    let* r := await QInsert "daily_logs_piyush"
                (object [("date", date);
                         ("dsa_questions_solved",
                          Some (js_or dsa_questions_solved (VNum 0)));
                         ("notes", notes)]) in
    throw_or_json r.

(** [POST /daily-logs/shruti]. *)
Definition post_daily_logs_shruti (req : request) : prog response :=
  let date := body req !! "date" in
  let python_questions_solved := body req !! "python_questions_solved" in
  let sql_questions_solved := body req !! "sql_questions_solved" in
  let notes := body req !! "notes" in
  if negb (truthy date) then Ret (res_400 "Date is required")
  else
    let* r := await QInsert "daily_logs_shruti"
                (object [("date", date);
                         ("python_questions_solved",
                          Some (js_or python_questions_solved (VNum 0)));
                         ("sql_questions_solved",
                          Some (js_or sql_questions_solved (VNum 0)));
                         ("notes", notes)]) in
    throw_or_json r.

(** [PUT /cp-ratings/:platform]: read, then update or insert.  The error of
    the read is not looked at. *)
Definition put_cp_ratings_platform (rt : env) (platform : string)
    (req : request) : prog response :=
  let rating := body req !! "rating" in
  if is_undefined rating then Ret (res_400 "Rating is required")
  else
    let* ex := await QSelect "cp_ratings" "*"
                 [c_eq "platform" (Some (VStr platform))] None true in
    let existing := data ex in
    if truthy (Some existing) then
      let* r := await QUpdate "cp_ratings"
                  (object [("rating", rating);
                           ("updated_at", Some (VStr (toISOString rt)))])
                  (c_eq "platform" (Some (VStr platform))) in
      throw_or_json r
    else
      let* r := await QInsert "cp_ratings"
                  (object [("platform", Some (VStr platform));
                           ("rating", rating)]) in
      throw_or_json r.

(** [POST /contest-logs]. *)
Definition post_contest_logs (req : request) : prog response :=
  let platform := body req !! "platform" in
  let contest_name := body req !! "contest_name" in
  let date := body req !! "date" in
  let problems_solved := body req !! "problems_solved" in
  let total_problems := body req !! "total_problems" in
  let notes := body req !! "notes" in
  if negb (truthy platform) || negb (truthy contest_name) || negb (truthy date)
  then Ret (res_400 "Platform, contest_name, and date are required")
  else
    let* r := await QInsert "contest_logs"
                (object [("platform", platform);
                         ("contest_name", contest_name);
                         ("date", date);
                         ("problems_solved",
                          Some (js_or problems_solved (VNum 0)));
                         ("total_problems",
                          Some (js_or total_problems (VNum 0)));
                         ("notes", notes)]) in
    throw_or_json r.

(** The row [GET /a2z-progress] creates when there is none. *)
Definition a2z_defaults : obj :=
  object [("easy_total", Some (VNum 0)); ("easy_solved", Some (VNum 0));
          ("medium_total", Some (VNum 0)); ("medium_solved", Some (VNum 0));
          ("hard_total", Some (VNum 0)); ("hard_solved", Some (VNum 0))].

(** [GET /a2z-progress]. *)
Definition get_a2z_progress : prog response :=
  let* r := await QSelect "a2z_progress" "*" [] None true in
  match error r with
  | Some e =>
      if String.eqb (err_code e) "PGRST116" then
        let* ins := await QInsert "a2z_progress" a2z_defaults in
        match error ins with
        | Some insertError => Throw insertError
        | None => Ret (res_ok (data ins))
        end
      else Throw e
  | None => Ret (res_ok (data r))
  end.

(** [PUT /a2z-progress]: the error of the read is not looked at. *)
Definition put_a2z_progress (req : request) : prog response :=
  let updates := body req in
  let* ex := await QSelect "a2z_progress" "*" [] None true in
  let existing := data ex in
  if negb (truthy (Some existing)) then
    let* r := await QInsert "a2z_progress" updates in
    throw_or_json r
  else
    let* r := await QUpdate "a2z_progress" updates
                (c_eq "id" (get_field existing "id")) in
    throw_or_json r.

(** [POST /blind75]. *)
Definition post_blind75 (req : request) : prog response :=
  let question_name := body req !! "question_name" in
  let solution_link := body req !! "solution_link" in
  let completed := body req !! "completed" in
  if negb (truthy question_name) then
    Ret (res_400 "Question name is required")
  else
    let* r := await QInsert "blind75"
                (object [("question_name", question_name);
                         ("solution_link", solution_link);
                         ("completed", Some (js_or completed (VBool false)))]) in
    throw_or_json r.

(** [POST /courses]. *)
Definition post_courses (req : request) : prog response :=
  let profile := body req !! "profile" in
  let course_name := body req !! "course_name" in
  let platform := body req !! "platform" in
  let total_content := body req !! "total_content" in
  let completed_content := body req !! "completed_content" in
  if negb (truthy profile) || negb (truthy course_name)
     || negb (truthy platform)
  then Ret (res_400 "Profile, course_name, and platform are required")
  else
    let* r := await QInsert "courses"
                (object [("profile", profile);
                         ("course_name", course_name);
                         ("platform", platform);
                         ("total_content",
                          Some (js_or total_content (VNum 100)));
                         ("completed_content",
                          Some (js_or completed_content (VNum 0)))]) in
    throw_or_json r.

(** [POST /certificates]. *)
Definition post_certificates (req : request) : prog response :=
  let profile := body req !! "profile" in
  let title := body req !! "title" in
  let issuer := body req !! "issuer" in
  let date := body req !! "date" in
  let file_url := body req !! "file_url" in
  if negb (truthy profile) || negb (truthy title) || negb (truthy issuer)
     || negb (truthy date)
  then Ret (res_400 "Profile, title, issuer, and date are required")
  else
    let* r := await QInsert "certificates"
                (object [("profile", profile); ("title", title);
                         ("issuer", issuer); ("date", date);
                         ("file_url", file_url)]) in
    throw_or_json r.

(** [POST /projects]. *)
Definition post_projects (req : request) : prog response :=
  let profile := body req !! "profile" in
  let project_name := body req !! "project_name" in
  let description := body req !! "description" in
  let notes := body req !! "notes" in
  if negb (truthy profile) || negb (truthy project_name) then
    Ret (res_400 "Profile and project_name are required")
  else
    let* r := await QInsert "projects"
                (object [("profile", profile);
                         ("project_name", project_name);
                         ("description", description);
                         ("notes", notes)]) in
    throw_or_json r.

(** [POST /skills]. *)
Definition post_skills (req : request) : prog response :=
  let profile := body req !! "profile" in
  let skill_name := body req !! "skill_name" in
  let notes := body req !! "notes" in
  if negb (truthy profile) || negb (truthy skill_name) then
    Ret (res_400 "Profile and skill_name are required")
  else
    let* r := await QInsert "skills"
                (object [("profile", profile); ("skill_name", skill_name);
                         ("notes", notes)]) in
    throw_or_json r.

(** [POST /case-studies]. *)
Definition post_case_studies (req : request) : prog response :=
  let title := body req !! "title" in
  let notes := body req !! "notes" in
  let date := body req !! "date" in
  if negb (truthy title) || negb (truthy date) then
    Ret (res_400 "Title and date are required")
  else
    let* r := await QInsert "case_studies"
                (object [("title", title); ("notes", notes);
                         ("date", date)]) in
    throw_or_json r.

(** [POST /guesstimates]. *)
Definition post_guesstimates (req : request) : prog response :=
  let topic := body req !! "topic" in
  let learnings := body req !! "learnings" in
  let notes := body req !! "notes" in
  if negb (truthy topic) then Ret (res_400 "Topic is required")
  else
    let* r := await QInsert "guesstimates"
                (object [("topic", topic); ("learnings", learnings);
                         ("notes", notes)]) in
    throw_or_json r.

(** [POST /case-competitions]. *)
Definition post_case_competitions (req : request) : prog response :=
  let competition_name := body req !! "competition_name" in
  let notes := body req !! "notes" in
  let document_url := body req !! "document_url" in
  if negb (truthy competition_name) then
    Ret (res_400 "Competition name is required")
  else
    let* r := await QInsert "case_competitions"
                (object [("competition_name", competition_name);
                         ("notes", notes);
                         ("document_url", document_url)]) in
    throw_or_json r.

(** The tail of both upload handlers, after the upload call resolved:
    [if (error) throw error], then the public URL and the response with
    [file_url: publicUrl, path: data.path]. *)
Definition upload_response (rt : env) (bucket uniqueFileName : string)
    (r : result) : prog response :=
  match error r with
  | Some e => Throw e
  | None =>
      let publicUrl := getPublicUrl rt bucket uniqueFileName in
      match data r with
      | VNull =>
          Throw (TypeError "Cannot read properties of null (reading 'path')")
      | d =>
          Ret (res_ok (VObj (object [("file_url", Some (VStr publicUrl));
                                     ("path", get_field d "path")])))
      end
  end.

(** [POST /upload/certificate]. *)
Definition post_upload_certificate (rt : env) (req : request)
    : prog response :=
  let fileName := body req !! "fileName" in
  let fileBase64 := body req !! "fileBase64" in
  let profile := body req !! "profile" in
  if negb (truthy fileName) || negb (truthy fileBase64)
     || negb (truthy profile)
  then Ret (res_400 "fileName, fileBase64, and profile are required")
  else
    match Buffer_from rt fileBase64 with
    | inl e => Throw e
    | inr fileBuffer =>
        let timestamp := Date_now rt in
        let uniqueFileName :=
          to_str profile ++ "/certificates/" ++ string_of_Z timestamp
          ++ "-" ++ to_str fileName in
        let* r := await QUpload "certificates" uniqueFileName fileBuffer
                    "application/pdf" false in
        upload_response rt "certificates" uniqueFileName r
    end.

(** [POST /upload/case-competition-doc]. *)
Definition post_upload_case_competition_doc (rt : env) (req : request)
    : prog response :=
  let fileName := body req !! "fileName" in
  let fileBase64 := body req !! "fileBase64" in
  if negb (truthy fileName) || negb (truthy fileBase64) then
    Ret (res_400 "fileName and fileBase64 are required")
  else
    match Buffer_from rt fileBase64 with
    | inl e => Throw e
    | inr fileBuffer =>
        let timestamp := Date_now rt in
        let uniqueFileName :=
          "case-competitions/" ++ string_of_Z timestamp
          ++ "-" ++ to_str fileName in
        let* r := await QUpload "documents" uniqueFileName fileBuffer
                    "application/pdf" false in
        upload_response rt "documents" uniqueFileName r
    end.

(** ** Routing *)

(** The routes the application registers, each with its path parameters. *)
Inductive route :=
| GET_root
| GET_todos | POST_todos | PUT_todos (id : string) | DELETE_todos (id : string)
| GET_habits | POST_habits | PUT_habits (id : string)
| DELETE_habits (id : string)
| GET_habit_entries | POST_habit_entries | PUT_habit_entries (id : string)
| GET_daily_logs_piyush | GET_daily_logs_piyush_date (date : string)
| POST_daily_logs_piyush | PUT_daily_logs_piyush (id : string)
| DELETE_daily_logs_piyush (id : string)
| GET_daily_logs_shruti | GET_daily_logs_shruti_date (date : string)
| POST_daily_logs_shruti | PUT_daily_logs_shruti (id : string)
| DELETE_daily_logs_shruti (id : string)
| GET_cp_ratings | PUT_cp_ratings (platform : string)
| GET_contest_logs | POST_contest_logs | PUT_contest_logs (id : string)
| DELETE_contest_logs (id : string)
| GET_a2z_progress | PUT_a2z_progress
| GET_blind75 | POST_blind75 | PUT_blind75 (id : string)
| DELETE_blind75 (id : string)
| GET_courses | POST_courses | PUT_courses (id : string)
| DELETE_courses (id : string)
| GET_certificates | POST_certificates | DELETE_certificates (id : string)
| GET_resume_sections | PUT_resume_sections (id : string)
| GET_projects | POST_projects | PUT_projects (id : string)
| DELETE_projects (id : string)
| GET_skills | POST_skills | PUT_skills (id : string)
| DELETE_skills (id : string)
| GET_case_studies | POST_case_studies | PUT_case_studies (id : string)
| DELETE_case_studies (id : string)
| GET_guesstimates | POST_guesstimates | PUT_guesstimates (id : string)
| DELETE_guesstimates (id : string)
| GET_case_competitions | POST_case_competitions
| PUT_case_competitions (id : string) | DELETE_case_competitions (id : string)
| POST_upload_certificate | POST_upload_case_competition_doc.

(** The [try] block registered for each route. *)
Definition handler (rt : env) (e : route) (req : request) : prog response :=
  match e with
  | GET_root => get_health rt
  | GET_todos => list_by_profile "todos" "created_at" false req
  | POST_todos => post_todos req
  | PUT_todos id => update_by_id "todos" id req
  | DELETE_todos id => delete_by_id "todos" id
  | GET_habits => list_by_profile "habits" "sort_order" true req
  | POST_habits => post_habits req
  | PUT_habits id => update_by_id "habits" id req
  | DELETE_habits id => delete_habits_id id
  | GET_habit_entries => get_habit_entries req
  | POST_habit_entries => post_habit_entries req
  | PUT_habit_entries id => update_by_id "habit_entries" id req
  | GET_daily_logs_piyush => list_all "daily_logs_piyush" "date" false
  | GET_daily_logs_piyush_date date =>
      get_daily_log_by_date "daily_logs_piyush" date
  | POST_daily_logs_piyush => post_daily_logs_piyush req
  | PUT_daily_logs_piyush id => update_by_id "daily_logs_piyush" id req
  | DELETE_daily_logs_piyush id => delete_by_id "daily_logs_piyush" id
  | GET_daily_logs_shruti => list_all "daily_logs_shruti" "date" false
  | GET_daily_logs_shruti_date date =>
      get_daily_log_by_date "daily_logs_shruti" date
  | POST_daily_logs_shruti => post_daily_logs_shruti req
  | PUT_daily_logs_shruti id => update_by_id "daily_logs_shruti" id req
  | DELETE_daily_logs_shruti id => delete_by_id "daily_logs_shruti" id
  | GET_cp_ratings => list_all "cp_ratings" "platform" true
  | PUT_cp_ratings platform => put_cp_ratings_platform rt platform req
  | GET_contest_logs => list_all "contest_logs" "date" false
  | POST_contest_logs => post_contest_logs req
  | PUT_contest_logs id => update_by_id "contest_logs" id req
  | DELETE_contest_logs id => delete_by_id "contest_logs" id
  | GET_a2z_progress => get_a2z_progress
  | PUT_a2z_progress => put_a2z_progress req
  | GET_blind75 => list_all "blind75" "question_name" true
  | POST_blind75 => post_blind75 req
  | PUT_blind75 id => update_by_id "blind75" id req
  | DELETE_blind75 id => delete_by_id "blind75" id
  | GET_courses => list_by_profile "courses" "course_name" true req
  | POST_courses => post_courses req
  | PUT_courses id => update_by_id "courses" id req
  | DELETE_courses id => delete_by_id "courses" id
  | GET_certificates => list_by_profile "certificates" "date" false req
  | POST_certificates => post_certificates req
  | DELETE_certificates id => delete_by_id "certificates" id
  | GET_resume_sections => list_all "resume_sections" "sort_order" true
  | PUT_resume_sections id => update_by_id "resume_sections" id req
  | GET_projects => list_by_profile "projects" "project_name" true req
  | POST_projects => post_projects req
  | PUT_projects id => update_by_id "projects" id req
  | DELETE_projects id => delete_by_id "projects" id
  | GET_skills => list_by_profile "skills" "skill_name" true req
  | POST_skills => post_skills req
  | PUT_skills id => update_by_id "skills" id req
  | DELETE_skills id => delete_by_id "skills" id
  | GET_case_studies => list_all "case_studies" "date" false
  | POST_case_studies => post_case_studies req
  | PUT_case_studies id => update_by_id "case_studies" id req
  | DELETE_case_studies id => delete_by_id "case_studies" id
  | GET_guesstimates => list_all "guesstimates" "topic" true
  | POST_guesstimates => post_guesstimates req
  | PUT_guesstimates id => update_by_id "guesstimates" id req
  | DELETE_guesstimates id => delete_by_id "guesstimates" id
  | GET_case_competitions =>
      list_all "case_competitions" "competition_name" true
  | POST_case_competitions => post_case_competitions req
  | PUT_case_competitions id => update_by_id "case_competitions" id req
  | DELETE_case_competitions id => delete_by_id "case_competitions" id
  | POST_upload_certificate => post_upload_certificate rt req
  | POST_upload_case_competition_doc =>
      post_upload_case_competition_doc rt req
  end.

(** Serving one request: the handler's [try] block under its [catch]. *)
Definition serve {S : Type} (backend : S -> call -> result * S)
    (rt : env) (e : route) (req : request) (s : S)
    : response * S * list (call * result) :=
  try_catch backend (handler rt e req) s.

(** ** A reference model of the external stores

    The data store and the object store are not part of the program; the
    handlers only see the [{data, error}] their calls resolve to.  [Store]
    fixes the contract the handlers rely on (one table per name, rows as JSON
    objects, PostgREST's behaviour for the five calls), so that properties
    about the rows a table holds can be stated.  A store also carries a script
    of [faults]: the next call takes the head of the script and, when it is an
    error, fails with it and changes nothing. *)
Module Store.

Record t := {
  tables : gmap string (list obj);
  objects : gmap string (gmap string (list Byte.byte));
  next_id : Z;
  clock : Z;
  faults : list (option Err)
}.

Definition rows (s : t) (table : string) : list obj :=
  default [] (tables s !! table).

Definition set_rows (s : t) (table : string) (l : list obj) : t :=
  {| tables := <[table := l]> (tables s); objects := objects s;
     next_id := next_id s; clock := clock s; faults := faults s |}.

Definition set_faults (s : t) (f : list (option Err)) : t :=
  {| tables := tables s; objects := objects s;
     next_id := next_id s; clock := clock s; faults := f |}.

(** The text PostgREST compares a column value by; [null] and structured
    values match no condition. *)
Definition text_of (v : value) : option string :=
  match v with
  | VStr s => Some s
  | VNum n => Some (string_of_Z n)
  | VBool true => Some "true"
  | VBool false => Some "false"
  | _ => None
  end.

Definition col_text (r : obj) (col : string) : option string :=
  r !! col ≫= text_of.

(** Does row [r] satisfy the condition?  The client sends the compared
    value as text. *)
Definition holds (c : cond) (r : obj) : bool :=
  match c with
  | c_eq col v =>
      match col_text r col with
      | Some x => String.eqb x (to_str v)
      | None => false
      end
  | c_in col vs =>
      match col_text r col with
      | Some x => existsb (fun v => String.eqb x (to_str v)) vs
      | None => false
      end
  | c_gte col v =>
      match col_text r col with
      | Some x => String.leb (to_str v) x
      | None => false
      end
  | c_lte col v =>
      match col_text r col with
      | Some x => String.leb x (to_str v)
      | None => false
      end
  end.

Definition holds_all (cs : list cond) (r : obj) : bool :=
  forallb (fun c => holds c r) cs.

(** Ordering on a column: integers by value, anything else by its text,
    rows without a comparable value last. *)
Definition col_leb (col : string) (a b : obj) : bool :=
  match a !! col, b !! col with
  | Some (VNum x), Some (VNum y) => x <=? y
  | _, _ =>
      match col_text a col, col_text b col with
      | Some x, Some y => String.leb x y
      | Some _, None => true
      | None, Some _ => false
      | None, None => true
      end
  end.

Fixpoint insert_sorted (leb : obj -> obj -> bool) (x : obj) (l : list obj)
    : list obj :=
  match l with
  | [] => [x]
  | y :: ys => if leb x y then x :: l else y :: insert_sorted leb x ys
  end.

Definition sort (leb : obj -> obj -> bool) (l : list obj) : list obj :=
  foldr (insert_sorted leb) [] l.

Definition ordered (order : option (string * bool)) (l : list obj)
    : list obj :=
  match order with
  | None => l
  | Some (col, true) => sort (col_leb col) l
  | Some (col, false) => sort (fun a b => col_leb col b a) l
  end.

(** [select("*")] keeps the row, [select(col)] keeps one column. *)
Definition project (cols : string) (r : obj) : obj :=
  if String.eqb cols "*" then r
  else match r !! cols with
       | Some v => {[ cols := v ]}
       | None => ∅
       end.

Definition ok (d : value) : result := {| data := d; error := None |}.
Definition fail (e : Err) : result := {| data := VNull; error := Some e |}.

(** What [.single()] answers unless exactly one row comes back. *)
Definition PGRST116 : Err :=
  {| err_code := "PGRST116";
     err_message := "JSON object requested, multiple (or no) rows returned" |}.

Definition already_exists : Err :=
  {| err_code := ""; err_message := "The resource already exists" |}.

(** The row an insert stores: the payload, with [id] and [created_at]
    filled in by the store. *)
Definition new_row (s : t) (payload : obj) : obj :=
  payload ∪ (<["id" := VNum (next_id s)]>
             (<["created_at" := VNum (clock s)]> ∅)).

(** A call that reaches the store. *)
Definition exec (s : t) (c : call) : result * t :=
  match c with
  | QSelect table cols conds order single =>
      let found :=
        map (project cols)
            (ordered order (List.filter (holds_all conds) (rows s table))) in
      if single then
        match found with
        | [r] => (ok (VObj r), s)
        | _ => (fail PGRST116, s)
        end
      else (ok (VArr (map VObj found)), s)
  | QInsert table payload =>
      let r := new_row s payload in
      (ok (VObj r),
       {| tables := <[table := (rows s table ++ [r])%list]> (tables s);
          objects := objects s;
          next_id := next_id s + 1; clock := clock s + 1;
          faults := faults s |})
  | QUpdate table payload c =>
      match List.filter (holds c) (rows s table) with
      | [r] =>
          (ok (VObj (payload ∪ r)),
           set_rows s table
             (map (fun x => if holds c x then payload ∪ x else x)
                  (rows s table)))
      | _ => (fail PGRST116, s)
      end
  | QDelete table c =>
      (ok VNull,
       set_rows s table
         (List.filter (fun x => negb (holds c x)) (rows s table)))
  | QUpload bucket path bytes contentType upsert =>
      let b := default ∅ (objects s !! bucket) in
      match b !! path with
      | Some _ =>
          if upsert then
            (ok (VObj (object [("path", Some (VStr path))])),
             {| tables := tables s;
                objects := <[bucket := <[path := bytes]> b]> (objects s);
                next_id := next_id s; clock := clock s;
                faults := faults s |})
          else (fail already_exists, s)
      | None =>
          (ok (VObj (object [("path", Some (VStr path))])),
           {| tables := tables s;
              objects := <[bucket := <[path := bytes]> b]> (objects s);
              next_id := next_id s; clock := clock s;
              faults := faults s |})
      end
  end.

(** One call against the store, under the fault script. *)
Definition step (s : t) (c : call) : result * t :=
  match faults s with
  | Some e :: rest => (fail e, set_faults s rest)
  | None :: rest => exec (set_faults s rest) c
  | [] => exec s c
  end.

(** A store with the given tables, no stored object and no fault ahead. *)
Definition init (tbls : gmap string (list obj)) : t :=
  {| tables := tbls; objects := ∅; next_id := 1; clock := 0; faults := [] |}.

End Store.

(** ** Observations on one served request *)

Definition resp_of {S} (x : response * S * list (call * result)) : response :=
  x.1.1.
Definition state_of {S} (x : response * S * list (call * result)) : S :=
  x.1.2.
Definition trace_of {S} (x : response * S * list (call * result))
    : list (call * result) :=
  x.2.

(** The calls issued, in order. *)
Definition calls_of {S} (x : response * S * list (call * result))
    : list call :=
  map fst (trace_of x).

(** Every issued call resolved without an error. *)
Definition all_succeeded (tr : list (call * result)) : Prop :=
  Forall (fun cr => error cr.2 = None) tr.

(** [{ id }] in a response. *)
Definition id_object (id : string) : value := VObj {[ "id" := VStr id ]}.

(** ** Which route is of which kind *)

(** The table and [:id] of the fourteen [PUT /<resource>/:id] routes. *)
Definition update_route (e : route) : option (string * string) :=
  match e with
  | PUT_todos id => Some ("todos", id)
  | PUT_habits id => Some ("habits", id)
  | PUT_habit_entries id => Some ("habit_entries", id)
  | PUT_daily_logs_piyush id => Some ("daily_logs_piyush", id)
  | PUT_daily_logs_shruti id => Some ("daily_logs_shruti", id)
  | PUT_contest_logs id => Some ("contest_logs", id)
  | PUT_blind75 id => Some ("blind75", id)
  | PUT_courses id => Some ("courses", id)
  | PUT_resume_sections id => Some ("resume_sections", id)
  | PUT_projects id => Some ("projects", id)
  | PUT_skills id => Some ("skills", id)
  | PUT_case_studies id => Some ("case_studies", id)
  | PUT_guesstimates id => Some ("guesstimates", id)
  | PUT_case_competitions id => Some ("case_competitions", id)
  | _ => None
  end.

(** The table and [:id] of the thirteen [DELETE /<resource>/:id] routes. *)
Definition delete_route (e : route) : option (string * string) :=
  match e with
  | DELETE_todos id => Some ("todos", id)
  | DELETE_habits id => Some ("habits", id)
  | DELETE_daily_logs_piyush id => Some ("daily_logs_piyush", id)
  | DELETE_daily_logs_shruti id => Some ("daily_logs_shruti", id)
  | DELETE_contest_logs id => Some ("contest_logs", id)
  | DELETE_blind75 id => Some ("blind75", id)
  | DELETE_courses id => Some ("courses", id)
  | DELETE_certificates id => Some ("certificates", id)
  | DELETE_projects id => Some ("projects", id)
  | DELETE_skills id => Some ("skills", id)
  | DELETE_case_studies id => Some ("case_studies", id)
  | DELETE_guesstimates id => Some ("guesstimates", id)
  | DELETE_case_competitions id => Some ("case_competitions", id)
  | _ => None
  end.

(** The table and date of the two fetch-by-date routes. *)
Definition daily_log_route (e : route) : option (string * string) :=
  match e with
  | GET_daily_logs_piyush_date date => Some ("daily_logs_piyush", date)
  | GET_daily_logs_shruti_date date => Some ("daily_logs_shruti", date)
  | _ => None
  end.

(** The table of the fourteen create routes. *)
Definition create_route (e : route) : option string :=
  match e with
  | POST_todos => Some "todos"
  | POST_habits => Some "habits"
  | POST_habit_entries => Some "habit_entries"
  | POST_daily_logs_piyush => Some "daily_logs_piyush"
  | POST_daily_logs_shruti => Some "daily_logs_shruti"
  | POST_contest_logs => Some "contest_logs"
  | POST_blind75 => Some "blind75"
  | POST_courses => Some "courses"
  | POST_certificates => Some "certificates"
  | POST_projects => Some "projects"
  | POST_skills => Some "skills"
  | POST_case_studies => Some "case_studies"
  | POST_guesstimates => Some "guesstimates"
  | POST_case_competitions => Some "case_competitions"
  | _ => None
  end.

(** The body fields a route requires (section 6 of the specification, and
    the two upload routes). *)
Definition required_fields (e : route) : list string :=
  match e with
  | POST_todos => ["profile"; "content"]
  | POST_habits => ["profile"; "name"]
  | POST_habit_entries => ["habit_id"; "date"]
  | POST_daily_logs_piyush => ["date"]
  | POST_daily_logs_shruti => ["date"]
  | POST_contest_logs => ["platform"; "contest_name"; "date"]
  | POST_blind75 => ["question_name"]
  | POST_courses => ["profile"; "course_name"; "platform"]
  | POST_certificates => ["profile"; "title"; "issuer"; "date"]
  | POST_projects => ["profile"; "project_name"]
  | POST_skills => ["profile"; "skill_name"]
  | POST_case_studies => ["title"; "date"]
  | POST_guesstimates => ["topic"]
  | POST_case_competitions => ["competition_name"]
  | POST_upload_certificate => ["fileName"; "fileBase64"; "profile"]
  | POST_upload_case_competition_doc => ["fileName"; "fileBase64"]
  | _ => []
  end.

(** The optional body fields a create route reads besides the required
    ones. *)
Definition optional_fields (e : route) : list string :=
  match e with
  | POST_habits => ["sort_order"]
  | POST_habit_entries => ["completed"]
  | POST_daily_logs_piyush => ["dsa_questions_solved"; "notes"]
  | POST_daily_logs_shruti =>
      ["python_questions_solved"; "sql_questions_solved"; "notes"]
  | POST_contest_logs => ["problems_solved"; "total_problems"; "notes"]
  | POST_blind75 => ["solution_link"; "completed"]
  | POST_courses => ["total_content"; "completed_content"]
  | POST_certificates => ["file_url"]
  | POST_projects => ["description"; "notes"]
  | POST_skills => ["notes"]
  | POST_case_studies => ["notes"]
  | POST_guesstimates => ["learnings"; "notes"]
  | POST_case_competitions => ["notes"; "document_url"]
  | _ => []
  end.

(** The routes that list the rows of one profile ([?profile=...]). *)
Definition needs_profile (e : route) : bool :=
  match e with
  | GET_todos | GET_habits | GET_habit_entries | GET_courses
  | GET_certificates | GET_projects | GET_skills => true
  | _ => false
  end.

(** A request fails validation: a required query parameter or body field is
    missing or falsy, or, for the rating upsert, [rating] is undefined. *)
Definition validation_fails (e : route) (req : request) : bool :=
  if needs_profile e then negb (truthy_str (query req !! "profile"))
  else match e with
       | PUT_cp_ratings _ => is_undefined (body req !! "rating")
       | _ => existsb (fun f => negb (truthy (body req !! f)))
                      (required_fields e)
       end.


(** ** Definitions used by the statements below *)

(** Two store states hold the same data (they may differ in the fault
    script). *)
Definition same_data (s0 s : Store.t) : Prop :=
  Store.tables s0 = Store.tables s /\ Store.objects s0 = Store.objects s
  /\ Store.next_id s0 = Store.next_id s /\ Store.clock s0 = Store.clock s.

(** The first defined binding of [k] in the fields of an object literal. *)
Fixpoint assoc (k : string) (fields : list (string * option value))
    : option value :=
  match fields with
  | [] => None
  | (k', o) :: rest =>
      if String.eqb k' k then
        match o with
        | Some v => Some v
        | None => assoc k rest
        end
      else assoc k rest
  end.

(** The optional create fields whose default the specification documents:
    route, table, field, default. *)
Definition documented_defaults : list (route * string * string * value) :=
  [(POST_habit_entries, "habit_entries", "completed", VBool false);
   (POST_habits, "habits", "sort_order", VNum 0);
   (POST_courses, "courses", "total_content", VNum 100);
   (POST_courses, "courses", "completed_content", VNum 0)].

(** The string holds no ['/']. *)
Fixpoint no_slash (s : string) : bool :=
  match s with
  | EmptyString => true
  | String c s' => negb (Ascii.eqb c "/") && no_slash s'
  end.

(** The bucket of the two upload routes. *)
Definition upload_route (e : route) : option string :=
  match e with
  | POST_upload_certificate => Some "certificates"
  | POST_upload_case_competition_doc => Some "documents"
  | _ => None
  end.

(** The namespace prefix of an upload: the supplied profile plus
    ["certificates"], or the fixed ["case-competitions"]. *)
Definition upload_prefix (e : route) (req : request) : string :=
  match e with
  | POST_upload_certificate => to_str (body req !! "profile") ++ "/certificates/"
  | _ => "case-competitions/"
  end.

(** The storage path the specification describes: prefix, millisecond
    timestamp, hyphen, original file name. *)
Definition upload_path (e : route) (rt : env) (req : request) : string :=
  upload_prefix e req ++ string_of_Z (Date_now rt) ++ "-"
  ++ to_str (body req !! "fileName").

(** The object stored in a bucket under a path, if any. *)
Definition stored (s : Store.t) (bucket path : string)
    : option (list Byte.byte) :=
  Store.objects s !! bucket ≫= fun b => b !! path.

(** The condition [platform = p] of the rating upsert. *)
Definition platform_is (p : string) : cond := c_eq "platform" (Some (VStr p)).

(** No two rows of the list are rows of the same platform. *)
Definition unique_platforms (l : list obj) : Prop :=
  forall p, (length (List.filter (Store.holds (platform_is p)) l) <= 1)%nat.

(** A single writer: the requests are served one after the other, each on
    the store the previous one left. *)
Fixpoint serve_all (reqs : list (env * route * request)) (s : Store.t)
    : Store.t :=
  match reqs with
  | [] => s
  | (rt, e, req) :: rest =>
      serve_all rest (state_of (serve Store.step rt e req s))
  end.

(** The call does not write to [table]. *)
Definition call_spares (table : string) (c : call) : Prop :=
  match c with
  | QInsert t _ | QUpdate t _ _ | QDelete t _ => t <> table
  | QSelect _ _ _ _ _ | QUpload _ _ _ _ _ => True
  end.

(** No call the program may issue writes to [table]. *)
Inductive spares (table : string) : prog response -> Prop :=
| spares_ret r : spares table (Ret r)
| spares_throw e : spares table (Throw e)
| spares_await c k :
    call_spares table c -> (forall r, spares table (k r)) ->
    spares table (Await c k).

(** The calls whose [error] the handler does not look at: the first delete
    of the habit deletion and the initial read of the two upserts. *)
Definition error_ignored (e : route) (c : call) : bool :=
  match e, c with
  | DELETE_habits _, QDelete t _ => String.eqb t "habit_entries"
  | PUT_cp_ratings _, QSelect _ _ _ _ _ => true
  | PUT_a2z_progress, QSelect _ _ _ _ _ => true
  | _, _ => false
  end.

(** The single-row reads whose "no row" error the handler translates. *)
Definition no_row_translated (e : route) (c : call) : bool :=
  match e, c with
  | GET_daily_logs_piyush_date _, QSelect _ _ _ _ _ => true
  | GET_daily_logs_shruti_date _, QSelect _ _ _ _ _ => true
  | GET_a2z_progress, QSelect _ _ _ _ _ => true
  | _, _ => false
  end.

(** An error the handler of [e] has to turn into a 500: the error of a call
    it looks at, other than a translated "no row". *)
Definition fatal (e : route) (c : call) (err : Err) : Prop :=
  error_ignored e c = false
  /\ (no_row_translated e c = true -> err_code err <> "PGRST116").

(** The program throws every fatal error a call resolves to. *)
Inductive checks_errors (e : route) : prog response -> Prop :=
| ce_ret r : checks_errors e (Ret r)
| ce_throw err : checks_errors e (Throw err)
| ce_await c k :
    (forall r, checks_errors e (k r)) ->
    (forall r err, error r = Some err -> fatal e c err -> k r = Throw err) ->
    checks_errors e (Await c k).

(** The program never issues a call it has issued before ([seen]). *)
Inductive calls_fresh : list call -> prog response -> Prop :=
| cf_ret seen r : calls_fresh seen (Ret r)
| cf_throw seen err : calls_fresh seen (Throw err)
| cf_await seen c k :
    ~ In c seen -> (forall r, calls_fresh (c :: seen) (k r)) ->
    calls_fresh seen (Await c k).

(** ** Sample data for the examples *)

Definition sample_env : env :=
  {| Date_now := 1700000000123;
     toISOString := "2023-11-14T22:13:20.123Z";
     Buffer_from := fun x =>
       match x with
       | Some (VStr _) => inr []
       | _ => inl (TypeError "The first argument must be of type string")
       end;
     getPublicUrl := fun bucket path =>
       "https://project.supabase.co/storage/v1/object/public/"
       ++ bucket ++ "/" ++ path |}.

Definition request_of (fields : list (string * option value)) : request :=
  {| query := ∅; body := object fields |}.

Definition empty_request : request := request_of [].

(** A habit with two entries, and an entry of another habit. *)
Definition sample_habits : Store.t :=
  Store.init
    (<["habits" := [object [("id", Some (VNum 7)); ("name", Some (VStr "run"))];
                    object [("id", Some (VNum 8)); ("name", Some (VStr "read"))] ] ]>
     (<["habit_entries" :=
          [object [("id", Some (VNum 1)); ("habit_id", Some (VNum 7))];
           object [("id", Some (VNum 2)); ("habit_id", Some (VNum 8))];
           object [("id", Some (VNum 3)); ("habit_id", Some (VNum 7))] ] ]> ∅)).

(** One todo, for the update example. *)
Definition sample_todos : Store.t :=
  Store.init
    (<["todos" := [object [("id", Some (VNum 5)); ("profile", Some (VStr "a"));
                           ("content", Some (VStr "old"))] ] ]> ∅).

(** The same upload request at a later millisecond. *)
Definition sample_upload : request :=
  request_of [("fileName", Some (VStr "cv.pdf"));
              ("fileBase64", Some (VStr "JVBERi0x"));
              ("profile", Some (VStr "piyush"))].

Definition sample_env_later : env :=
  {| Date_now := 1700000000124;
     toISOString := "2023-11-14T22:13:20.124Z";
     Buffer_from := Buffer_from sample_env;
     getPublicUrl := getPublicUrl sample_env |}.

(** Two ratings. *)
Definition sample_ratings : Store.t :=
  Store.init
    (<["cp_ratings" :=
         [object [("id", Some (VNum 1)); ("platform", Some (VStr "codeforces"));
                  ("rating", Some (VNum 1500))];
          object [("id", Some (VNum 2)); ("platform", Some (VStr "leetcode"));
                  ("rating", Some (VNum 1800))] ] ]> ∅).

(** A store whose next call fails with a permission error. *)
Definition permission_denied : Err :=
  {| err_code := "42501";
     err_message := "permission denied for table habit_entries" |}.

Definition sample_habits_failing : Store.t :=
  Store.set_faults sample_habits [Some permission_denied].

(** A store whose next call times out: the read of an upsert. *)
Definition timed_out : Err :=
  {| err_code := ""; err_message := "fetch failed" |}.

Definition sample_ratings_failing : Store.t :=
  Store.set_faults sample_ratings [Some timed_out].

Arguments Store.holds : simpl never.
Arguments Store.rows : simpl never.
Arguments Store.set_rows : simpl never.
Arguments envelope : simpl never.
Arguments object : simpl never.
Arguments res_ok : simpl never.
Arguments res_400 : simpl never.
Arguments catch_block : simpl never.
Arguments id_object : simpl never.


(** ** Definitions used by the further properties *)

(** Every call the program may issue satisfies [P]. *)
Inductive only_calls (P : call -> Prop) : prog response -> Prop :=
| oc_ret r : only_calls P (Ret r)
| oc_throw err : only_calls P (Throw err)
| oc_await c k :
    P c -> (forall r, only_calls P (k r)) -> only_calls P (Await c k).

(** Every response the program may give is a success envelope. *)
Inductive answers_ok : prog response -> Prop :=
| ao_ret d : answers_ok (Ret (res_ok d))
| ao_throw err : answers_ok (Throw err)
| ao_await c k : (forall r, answers_ok (k r)) -> answers_ok (Await c k).

(** The program issues at most [n] calls. *)
Inductive at_most : nat -> prog response -> Prop :=
| am_ret n r : at_most n (Ret r)
| am_throw n err : at_most n (Throw err)
| am_await n c k :
    (forall r, at_most n (k r)) -> at_most (Datatypes.S n) (Await c k).

(** The tables the handler of a route writes to. *)
Definition writes_to (e : route) : list string :=
  match e with
  | POST_todos | PUT_todos _ | DELETE_todos _ => ["todos"]
  | POST_habits | PUT_habits _ => ["habits"]
  | DELETE_habits _ => ["habit_entries"; "habits"]
  | POST_habit_entries | PUT_habit_entries _ => ["habit_entries"]
  | POST_daily_logs_piyush | PUT_daily_logs_piyush _
  | DELETE_daily_logs_piyush _ => ["daily_logs_piyush"]
  | POST_daily_logs_shruti | PUT_daily_logs_shruti _
  | DELETE_daily_logs_shruti _ => ["daily_logs_shruti"]
  | PUT_cp_ratings _ => ["cp_ratings"]
  | POST_contest_logs | PUT_contest_logs _
  | DELETE_contest_logs _ => ["contest_logs"]
  | GET_a2z_progress | PUT_a2z_progress => ["a2z_progress"]
  | POST_blind75 | PUT_blind75 _ | DELETE_blind75 _ => ["blind75"]
  | POST_courses | PUT_courses _ | DELETE_courses _ => ["courses"]
  | POST_certificates | DELETE_certificates _ => ["certificates"]
  | PUT_resume_sections _ => ["resume_sections"]
  | POST_projects | PUT_projects _ | DELETE_projects _ => ["projects"]
  | POST_skills | PUT_skills _ | DELETE_skills _ => ["skills"]
  | POST_case_studies | PUT_case_studies _
  | DELETE_case_studies _ => ["case_studies"]
  | POST_guesstimates | PUT_guesstimates _
  | DELETE_guesstimates _ => ["guesstimates"]
  | POST_case_competitions | PUT_case_competitions _
  | DELETE_case_competitions _ => ["case_competitions"]
  | _ => []
  end.

(** A call the handler of [e] may issue: any read, a write to one of its
    tables, an upload when it is an upload route. *)
Definition call_allowed (e : route) (c : call) : Prop :=
  match c with
  | QSelect _ _ _ _ _ => True
  | QInsert t _ | QUpdate t _ _ | QDelete t _ => In t (writes_to e)
  | QUpload _ _ _ _ _ => upload_route e <> None
  end.

(** The routes whose handler may issue two calls. *)
Definition two_step (e : route) : bool :=
  match e with
  | DELETE_habits _ | GET_habit_entries | PUT_cp_ratings _
  | GET_a2z_progress | PUT_a2z_progress => true
  | _ => false
  end.

(** The table of the six routes that list the rows of one profile. *)
Definition profile_list_route (e : route) : option string :=
  match e with
  | GET_todos => Some "todos"
  | GET_habits => Some "habits"
  | GET_courses => Some "courses"
  | GET_certificates => Some "certificates"
  | GET_projects => Some "projects"
  | GET_skills => Some "skills"
  | _ => None
  end.

(** The table of the nine routes that list all rows. *)
Definition full_list_route (e : route) : option string :=
  match e with
  | GET_daily_logs_piyush => Some "daily_logs_piyush"
  | GET_daily_logs_shruti => Some "daily_logs_shruti"
  | GET_cp_ratings => Some "cp_ratings"
  | GET_contest_logs => Some "contest_logs"
  | GET_blind75 => Some "blind75"
  | GET_resume_sections => Some "resume_sections"
  | GET_case_studies => Some "case_studies"
  | GET_guesstimates => Some "guesstimates"
  | GET_case_competitions => Some "case_competitions"
  | _ => None
  end.

(** The resources owned by a profile: create route, list route, table. *)
Definition profile_resources : list (route * route * string) :=
  [(POST_todos, GET_todos, "todos");
   (POST_habits, GET_habits, "habits");
   (POST_courses, GET_courses, "courses");
   (POST_certificates, GET_certificates, "certificates");
   (POST_projects, GET_projects, "projects");
   (POST_skills, GET_skills, "skills")].

(** The two daily-log resources: create route, fetch-by-date route. *)
Definition daily_log_resources : list (route * (string -> route) * string) :=
  [(POST_daily_logs_piyush, GET_daily_logs_piyush_date, "daily_logs_piyush");
   (POST_daily_logs_shruti, GET_daily_logs_shruti_date, "daily_logs_shruti")].

(** A request with a query string only. *)
Definition query_of (params : list (string * string)) : request :=
  {| query := list_to_map params; body := ∅ |}.

(** The condition [profile = p] of the per-profile lists. *)
Definition profile_is (p : string) : cond := c_eq "profile" (Some (VStr p)).

(** The condition [id = :id] of updates and deletes. *)
Definition id_is (id : string) : cond := c_eq "id" (Some (VStr id)).

(** The [a2z_progress] table holds at most one row. *)
Definition singleton (l : list obj) : Prop := (length l <= 1)%nat.

(** Is the entry one of a habit in [habits]?  The text of its [habit_id]
    is compared with the [id] of each habit, as [.in("habit_id", ids)]
    does. *)
Definition entry_of (habits : list obj) (entry : obj) : bool :=
  match Store.col_text entry "habit_id" with
  | Some x =>
      existsb (fun h => String.eqb x (to_str (h !! "id"))) habits
  | None => false
  end.

(** An environment whose [Buffer.from] throws. *)
Definition broken_decoder : env :=
  {| Date_now := 1700000000123;
     toISOString := "2023-11-14T22:13:20.123Z";
     Buffer_from := fun _ =>
       inl (TypeError "The first argument must be of type string");
     getPublicUrl := getPublicUrl sample_env |}.

(** The date bounds of the habit-entry list: a bound applies when its query
    parameter is a non-empty string. *)
Definition in_range (from to : option string) (entry : obj) : bool :=
  (if truthy_str from
   then Store.holds (c_gte "date" (VStr <$> from)) entry else true)
  && (if truthy_str to
      then Store.holds (c_lte "date" (VStr <$> to)) entry else true).

(** Two todos of profile "a" and one of profile "b". *)
Definition sample_todo_list : Store.t :=
  Store.init
    (<["todos" :=
         [object [("id", Some (VNum 1)); ("profile", Some (VStr "a"));
                  ("content", Some (VStr "x"))];
          object [("id", Some (VNum 2)); ("profile", Some (VStr "b"));
                  ("content", Some (VStr "y"))];
          object [("id", Some (VNum 3)); ("profile", Some (VStr "a"));
                  ("content", Some (VStr "z"))] ] ]> ∅).

(** The condition [date = d] of the fetch-by-date routes. *)
Definition date_is (d : string) : cond := c_eq "date" (Some (VStr d)).

(** A daily log of 2024-01-01. *)
Definition sample_logs : Store.t :=
  Store.init
    (<["daily_logs_piyush" :=
         [object [("id", Some (VNum 1)); ("date", Some (VStr "2024-01-01"));
                  ("dsa_questions_solved", Some (VNum 3))] ] ]> ∅).

(** Habits of two profiles with their entries. *)
Definition sample_entries : Store.t :=
  Store.init
    (<["habits" :=
         [object [("id", Some (VNum 7)); ("profile", Some (VStr "a"))];
          object [("id", Some (VNum 8)); ("profile", Some (VStr "b"))] ] ]>
     (<["habit_entries" :=
          [object [("id", Some (VNum 1)); ("habit_id", Some (VNum 7));
                   ("date", Some (VStr "2024-01-01"))];
           object [("id", Some (VNum 2)); ("habit_id", Some (VNum 8));
                   ("date", Some (VStr "2024-01-02"))];
           object [("id", Some (VNum 3)); ("habit_id", Some (VNum 7));
                   ("date", Some (VStr "2024-01-03"))] ] ]> ∅)).

(** One progress row. *)
Definition sample_progress : Store.t :=
  Store.init
    (<["a2z_progress" :=
         [object [("id", Some (VNum 1)); ("easy_total", Some (VNum 10));
                  ("easy_solved", Some (VNum 2))] ] ]> ∅).

(** The optional create fields a handler writes as [field || default], with
    the default: the other optional fields are forwarded as they came. *)
Definition defaults (e : route) : list (string * value) :=
  match e with
  | POST_habits => [("sort_order", VNum 0)]
  | POST_habit_entries => [("completed", VBool false)]
  | POST_daily_logs_piyush => [("dsa_questions_solved", VNum 0)]
  | POST_daily_logs_shruti =>
      [("python_questions_solved", VNum 0); ("sql_questions_solved", VNum 0)]
  | POST_contest_logs => [("problems_solved", VNum 0); ("total_problems", VNum 0)]
  | POST_blind75 => [("completed", VBool false)]
  | POST_courses => [("total_content", VNum 100); ("completed_content", VNum 0)]
  | _ => []
  end.

(** An empty store whose third call fails: the read of a second upsert. *)
Definition flaky_ratings : Store.t :=
  Store.set_faults (Store.init ∅) [None; None; Some timed_out].
(** ** Run equations *)

Section RunLemmas.
Context {S : Type} (backend : S -> call -> result * S).

Lemma try_catch_ret (r : response) (s : S) :
  try_catch backend (Ret r) s = (r, s, []).
Proof. reflexivity. Qed.

Lemma try_catch_throw (e : Err) (s : S) :
  try_catch backend (Throw e) s = (catch_block e, s, []).
Proof. reflexivity. Qed.

Lemma try_catch_await c k s r s1 :
  backend s c = (r, s1) ->
  try_catch backend (Await c k) s =
    (resp_of (try_catch backend (k r) s1),
     state_of (try_catch backend (k r) s1),
     (c, r) :: trace_of (try_catch backend (k r) s1)).
Proof.
  intros Hb. unfold try_catch, resp_of, state_of, trace_of.
  cbn [run]. rewrite Hb.
  destruct (run backend (k r) s1) as [[o s2] tr]. reflexivity.
Qed.

  (** A single call whose result goes to [throw_or_json]. *)
Lemma try_catch_single c s r s1 :
  backend s c = (r, s1) ->
  try_catch backend (Await c (fun x => throw_or_json x)) s =
    (match error r with
     | Some e => catch_block e
     | None => res_ok (data r)
     end, s1, [(c, r)]).
Proof.
  intros Hb. rewrite (try_catch_await _ _ _ _ _ Hb).
  unfold throw_or_json. destruct (error r); reflexivity.
Qed.

Lemma serve_delete_by_id table id s r s1 :
  backend s (QDelete table (c_eq "id" (Some (VStr id)))) = (r, s1) ->
  try_catch backend (delete_by_id table id) s =
    (match error r with
     | Some e => catch_block e
     | None => res_ok (id_object id)
     end, s1, [(QDelete table (c_eq "id" (Some (VStr id))), r)]).
Proof.
  intros Hb. unfold delete_by_id. rewrite (try_catch_await _ _ _ _ _ Hb).
  destruct (error r); reflexivity.
Qed.

Lemma serve_delete_habits id s r1 s1 r2 s2 :
  backend s (QDelete "habit_entries" (c_eq "habit_id" (Some (VStr id))))
    = (r1, s1) ->
  backend s1 (QDelete "habits" (c_eq "id" (Some (VStr id)))) = (r2, s2) ->
  try_catch backend (delete_habits_id id) s =
    (match error r2 with
     | Some e => catch_block e
     | None => res_ok (id_object id)
     end, s2,
     [(QDelete "habit_entries" (c_eq "habit_id" (Some (VStr id))), r1);
      (QDelete "habits" (c_eq "id" (Some (VStr id))), r2)]).
Proof.
  intros H1 H2. unfold delete_habits_id.
  rewrite (try_catch_await _ _ _ _ _ H1).
  rewrite (try_catch_await _ _ _ _ _ H2).
  destruct (error r2); reflexivity.
Qed.

Lemma serve_daily_log table date s r s1 :
  backend s (QSelect table "*" [c_eq "date" (Some (VStr date))] None true)
    = (r, s1) ->
  try_catch backend (get_daily_log_by_date table date) s =
    (match error r with
     | Some e =>
         if String.eqb (err_code e) "PGRST116" then res_ok VNull
         else catch_block e
     | None => res_ok (data r)
     end, s1,
     [(QSelect table "*" [c_eq "date" (Some (VStr date))] None true, r)]).
Proof.
  intros Hb. unfold get_daily_log_by_date.
  rewrite (try_catch_await _ _ _ _ _ Hb).
  destruct (error r) as [e|]; [|reflexivity].
  destruct (String.eqb (err_code e) "PGRST116"); reflexivity.
Qed.
End RunLemmas.

(** ** Facts about the reference store *)

Module StoreFacts.
Import Store.

Lemma step_no_faults (s : t) (c : call) :
  faults s = [] -> step s c = exec s c.
Proof. intros H. unfold step. rewrite H. reflexivity. Qed.

Lemma same_data_rows s0 s table :
  same_data s0 s -> rows s0 table = rows s table.
Proof. intros (Ht & _). unfold rows. rewrite Ht. reflexivity. Qed.

(** A call that resolved without an error was executed, on the data the
    store held. *)
Lemma step_ok_exec s c :
  error (step s c).1 = None ->
  exists s0, same_data s0 s /\ step s c = exec s0 c.
Proof.
  unfold step. destruct (faults s) as [|[e|] rest] eqn:Hf.
  - intros _. exists s. repeat split.
  - cbn. discriminate.
  - intros _. exists (set_faults s rest). repeat split.
Qed.

Lemma rows_set_rows_eq s table l : rows (set_rows s table l) table = l.
Proof. unfold rows, set_rows. cbn. rewrite lookup_insert_eq. reflexivity. Qed.

Lemma rows_set_rows_ne s table table' l :
  table <> table' -> rows (set_rows s table l) table' = rows s table'.
Proof.
  intros Hne. unfold rows, set_rows. cbn.
  rewrite lookup_insert_ne by exact Hne. reflexivity.
Qed.

Lemma exec_delete s table c :
  exec s (QDelete table c) =
    (ok VNull,
     set_rows s table (List.filter (fun x => negb (holds c x)) (rows s table))).
Proof. reflexivity. Qed.

Lemma filter_none_holds (c : cond) (l : list obj) :
  Forall (fun r => holds c r = false) (List.filter (fun x => negb (holds c x)) l).
Proof.
  apply Forall_forall. intros r Hin. apply list_elem_of_In in Hin.
  apply filter_In in Hin. destruct Hin as [_ H].
  destruct (holds c r); [discriminate | reflexivity].
Qed.

Lemma filter_all_kept (c : cond) (l : list obj) :
  Forall (fun r => holds c r = false) l ->
  List.filter (fun x => negb (holds c x)) l = l.
Proof.
  induction 1 as [|r l Hr _ IH]; [reflexivity|].
  cbn. rewrite Hr. cbn. f_equal. exact IH.
Qed.
End StoreFacts.

Module StoreSelect.
Import Store StoreFacts.

Lemma project_star (l : list obj) : map (project "*") l = l.
Proof. induction l as [|r l IH]; [reflexivity|]. cbn. f_equal. exact IH. Qed.

Lemma filter_holds_all_one (c : cond) (l : list obj) :
  List.filter (holds_all [c]) l = List.filter (holds c) l.
Proof.
  apply filter_ext. intros r. unfold holds_all. cbn.
  apply andb_true_r.
Qed.

Lemma filter_holds_all_nil (l : list obj) : List.filter (holds_all []) l = l.
Proof. induction l as [|r l IH]; [reflexivity|]. cbn. f_equal. exact IH. Qed.

(** A single-row read by one condition. *)
Lemma exec_select_single s table c :
  exec s (QSelect table "*" [c] None true) =
  (match List.filter (holds c) (rows s table) with
   | [r] => ok (VObj r)
   | _ => fail PGRST116
   end, s).
Proof.
  cbn [exec ordered]. rewrite project_star, filter_holds_all_one.
  destruct (List.filter (holds c) (rows s table)) as [|r [|r' l]]; reflexivity.
Qed.

(** A single-row read without a condition. *)
Lemma exec_select_the_row s table :
  exec s (QSelect table "*" [] None true) =
  (match rows s table with
   | [r] => ok (VObj r)
   | _ => fail PGRST116
   end, s).
Proof.
  cbn [exec ordered]. rewrite project_star, filter_holds_all_nil.
  destruct (rows s table) as [|r [|r' l]]; reflexivity.
Qed.

Lemma exec_insert s table payload :
  exec s (QInsert table payload) =
  (ok (VObj (new_row s payload)),
   {| tables := <[table := (rows s table ++ [new_row s payload])%list]>
                  (tables s);
      objects := objects s;
      next_id := next_id s + 1; clock := clock s + 1;
      faults := faults s |}).
Proof. reflexivity. Qed.

Lemma rows_after_insert s table payload :
  rows (exec s (QInsert table payload)).2 table =
  (rows s table ++ [new_row s payload])%list.
Proof. rewrite exec_insert. unfold rows at 1. cbn. rewrite lookup_insert_eq. reflexivity. Qed.

Lemma rows_after_insert_ne s table table' payload :
  table <> table' ->
  rows (exec s (QInsert table payload)).2 table' = rows s table'.
Proof.
  intros Hne. rewrite exec_insert. unfold rows at 1. cbn.
  rewrite lookup_insert_ne by exact Hne. reflexivity.
Qed.

Lemma new_row_payload s payload k v :
  payload !! k = Some v -> new_row s payload !! k = Some v.
Proof. intros H. unfold new_row. apply lookup_union_Some_l. exact H. Qed.
End StoreSelect.

(** ** Deleting by id *)

Section DeleteById.
Import Store StoreFacts.

Lemma delete_route_handler rt e req table id :
  delete_route e = Some (table, id) ->
  handler rt e req = delete_habits_id id /\ table = "habits"
  \/ handler rt e req = delete_by_id table id.
Proof.
  destruct e; cbn; intros H; inversion H; subst; auto.
Qed.

(** C8.  For each of the thirteen delete-by-id routes: whenever every call
    the handler issued resolved without an error, the response is the success
    envelope carrying [{id}], whatever the backend holds; in particular, on a
    store that meets no fault the response is that success envelope whether
    or not a row has that id, and when none has, the table is left as it
    was. *)
Theorem delete_missing_id_reports_success (e : route) (table id : string) :
  delete_route e = Some (table, id) ->
  (forall (S : Type) (backend : S -> call -> result * S) rt req s,
     all_succeeded (trace_of (serve backend rt e req s)) ->
     resp_of (serve backend rt e req s) = res_ok (id_object id))
  /\
  (forall rt req (s : Store.t),
     faults s = [] ->
     resp_of (serve step rt e req s) = res_ok (id_object id)
     /\ (Forall (fun r => holds (c_eq "id" (Some (VStr id))) r = false)
                (rows s table) ->
         rows (state_of (serve step rt e req s)) table = rows s table)).
Proof.
  intros He. split.
  - intros S backend rt req s. unfold serve.
    destruct (delete_route_handler rt e req table id He) as [[-> _] | ->].
    + destruct (backend s (QDelete "habit_entries"
                  (c_eq "habit_id" (Some (VStr id))))) as [r1 s1] eqn:H1.
      destruct (backend s1 (QDelete "habits" (c_eq "id" (Some (VStr id)))))
        as [r2 s2] eqn:H2.
      rewrite (serve_delete_habits backend id s r1 s1 r2 s2 H1 H2).
      unfold all_succeeded, trace_of, resp_of. cbn.
      intros Hall. inversion Hall as [|? ? _ Hrest]; subst.
      inversion Hrest as [|? ? Hr2 _]; subst. cbn in Hr2.
      rewrite Hr2. reflexivity.
    + destruct (backend s (QDelete table (c_eq "id" (Some (VStr id)))))
        as [r s1] eqn:H1.
      rewrite (serve_delete_by_id backend table id s r s1 H1).
      unfold all_succeeded, trace_of, resp_of. cbn.
      intros Hall. inversion Hall as [|? ? Hr _]; subst. cbn in Hr.
      rewrite Hr. reflexivity.
  - intros rt req s Hf. unfold serve.
    destruct (delete_route_handler rt e req table id He) as [[-> ->] | ->].
    + erewrite serve_delete_habits.
      2: { rewrite step_no_faults by exact Hf. apply exec_delete. }
      2: { rewrite step_no_faults by exact Hf. apply exec_delete. }
      unfold resp_of, state_of. cbn [fst snd error ok].
      split; [reflexivity|]. intros Hnone. rewrite rows_set_rows_eq.
      rewrite rows_set_rows_ne by discriminate.
      apply filter_all_kept. exact Hnone.
    + erewrite serve_delete_by_id.
      2: { rewrite step_no_faults by exact Hf. apply exec_delete. }
      unfold resp_of, state_of. cbn [fst snd error ok].
      split; [reflexivity|]. intros Hnone. rewrite rows_set_rows_eq.
      apply filter_all_kept. exact Hnone.
Qed.

(** Deleting todo 42 from a store without todos. *)
Lemma delete_missing_id_reports_success_witness :
  delete_route (DELETE_todos "42") = Some ("todos", "42")
  /\ faults (init ∅) = []
  /\ resp_of (serve step sample_env (DELETE_todos "42") empty_request (init ∅))
     = res_ok (id_object "42")
  /\ rows (state_of (serve step sample_env (DELETE_todos "42") empty_request
                       (init ∅))) "todos" = [].
Proof.
  split; [reflexivity|]. split; [reflexivity|].
  destruct (delete_missing_id_reports_success
              (DELETE_todos "42") "todos" "42" eq_refl) as [_ H].
  destruct (H sample_env empty_request (init ∅) eq_refl) as [Hresp Hrows].
  split; [exact Hresp|]. apply Hrows. constructor.
Defined.

(** C2.  [DELETE /habits/:id] issues exactly two delete calls, whatever the
    backend answers: first on [habit_entries] for [habit_id = id], then on
    [habits] for [id = id].  On the store, when both calls succeeded, no
    habit row with that id and no entry referencing it is left, the other
    entries (and the other habits) are exactly the ones held before, and the
    response is the success envelope carrying [{id}]. *)
Theorem delete_habit_cascades (id : string) :
  (forall (S : Type) (backend : S -> call -> result * S) rt req s,
     calls_of (serve backend rt (DELETE_habits id) req s) =
       [QDelete "habit_entries" (c_eq "habit_id" (Some (VStr id)));
        QDelete "habits" (c_eq "id" (Some (VStr id)))])
  /\
  (forall rt req (s : Store.t),
     let out := serve step rt (DELETE_habits id) req s in
     all_succeeded (trace_of out) ->
     Forall (fun r => holds (c_eq "id" (Some (VStr id))) r = false)
            (rows (state_of out) "habits")
     /\ Forall (fun r => holds (c_eq "habit_id" (Some (VStr id))) r = false)
               (rows (state_of out) "habit_entries")
     /\ rows (state_of out) "habit_entries" =
          List.filter
            (fun r => negb (holds (c_eq "habit_id" (Some (VStr id))) r))
            (rows s "habit_entries")
     /\ rows (state_of out) "habits" =
          List.filter (fun r => negb (holds (c_eq "id" (Some (VStr id))) r))
            (rows s "habits")
     /\ resp_of out = res_ok (id_object id)).
Proof.
  split.
  - intros S backend rt req s. unfold serve. cbn [handler].
    destruct (backend s (QDelete "habit_entries"
                (c_eq "habit_id" (Some (VStr id))))) as [r1 s1] eqn:H1.
    destruct (backend s1 (QDelete "habits" (c_eq "id" (Some (VStr id)))))
      as [r2 s2] eqn:H2.
    rewrite (serve_delete_habits backend id s r1 s1 r2 s2 H1 H2).
    reflexivity.
  - intros rt req s out. subst out. unfold serve. cbn [handler].
    set (c1 := QDelete "habit_entries" (c_eq "habit_id" (Some (VStr id)))).
    set (c2 := QDelete "habits" (c_eq "id" (Some (VStr id)))).
    destruct (step s c1) as [r1 s1] eqn:H1.
    destruct (step s1 c2) as [r2 s2] eqn:H2.
    rewrite (serve_delete_habits step id s r1 s1 r2 s2 H1 H2).
    unfold all_succeeded, trace_of, state_of, resp_of. cbn.
    intros Hall. inversion Hall as [|? ? Hr1 Hrest]; subst.
    inversion Hrest as [|? ? Hr2 _]; subst. cbn in Hr1, Hr2.
    destruct (step_ok_exec s c1) as (a & Ha & Ea); [rewrite H1; exact Hr1|].
    destruct (step_ok_exec s1 c2) as (b & Hb & Eb); [rewrite H2; exact Hr2|].
    rewrite H1 in Ea. rewrite H2 in Eb. unfold c1 in Ea. unfold c2 in Eb.
    rewrite exec_delete in Ea, Eb. inversion Ea; subst. inversion Eb; subst.
    cbn [fst snd error ok]. rewrite rows_set_rows_eq.
    rewrite rows_set_rows_ne by discriminate.
    rewrite (same_data_rows b _ "habits" Hb).
    rewrite (same_data_rows b _ "habit_entries" Hb).
    rewrite rows_set_rows_ne by discriminate.
    rewrite rows_set_rows_eq.
    rewrite (same_data_rows a s "habits" Ha).
    rewrite (same_data_rows a s "habit_entries" Ha).
    repeat split; try reflexivity; apply filter_none_holds.
Qed.

(** Deleting habit 7: its two entries go, the entry of habit 8 stays. *)
Lemma delete_habit_cascades_witness :
  let out := serve step sample_env (DELETE_habits "7") empty_request
               sample_habits in
  all_succeeded (trace_of out)
  /\ rows (state_of out) "habit_entries" =
       [object [("id", Some (VNum 2)); ("habit_id", Some (VNum 8))]]
  /\ rows (state_of out) "habits" =
       [object [("id", Some (VNum 8)); ("name", Some (VStr "read"))]]
  /\ resp_of out = res_ok (id_object "7").
Proof.
  intros out.
  assert (Hall : all_succeeded (trace_of out)).
  { repeat constructor. }
  split; [exact Hall|]. subst out.
  destruct (delete_habit_cascades "7") as [_ H].
  destruct (H sample_env empty_request sample_habits Hall)
    as (_ & _ & He & Hh & Hr).
  split; [|split]; [rewrite He; reflexivity | rewrite Hh; reflexivity | exact Hr].
Defined.
End DeleteById.

(** ** Single-row reads *)

Section SingleRowReads.
Import Store StoreFacts StoreSelect.

Lemma daily_log_route_handler rt e req table date :
  daily_log_route e = Some (table, date) ->
  handler rt e req = get_daily_log_by_date table date.
Proof. destruct e; cbn; intros H; inversion H; subst; reflexivity. Qed.

(** C4.  For both fetch-by-date routes: on the store, a date with no row
    gives status 200 with the envelope [{success: true, data: null, error:
    null}], and a date with one row gives that row; against any backend, an
    error whose code is not [PGRST116] gives the 500 failure envelope with
    the error's message. *)
Theorem daily_log_by_date_lookup (e : route) (table date : string) :
  daily_log_route e = Some (table, date) ->
  (forall rt req (s : Store.t),
     faults s = [] ->
     List.filter (holds (c_eq "date" (Some (VStr date)))) (rows s table) = [] ->
     resp_of (serve step rt e req s)
       = {| status := 200; json := envelope true VNull VNull |})
  /\
  (forall rt req (s : Store.t) (r : obj),
     faults s = [] ->
     List.filter (holds (c_eq "date" (Some (VStr date)))) (rows s table) = [r] ->
     resp_of (serve step rt e req s) = res_ok (VObj r))
  /\
  (forall (S : Type) (backend : S -> call -> result * S) rt req s c r err,
     In (c, r) (trace_of (serve backend rt e req s)) ->
     error r = Some err ->
     err_code err <> "PGRST116" ->
     resp_of (serve backend rt e req s)
       = {| status := 500;
            json := envelope false VNull (VStr (err_message err)) |}).
Proof.
  intros He. repeat split.
  - intros rt req s Hf Hnone. unfold serve.
    rewrite (daily_log_route_handler rt e req table date He).
    erewrite serve_daily_log.
    2: { rewrite step_no_faults by exact Hf. apply exec_select_single. }
    rewrite Hnone. reflexivity.
  - intros rt req s r Hf Hone. unfold serve.
    rewrite (daily_log_route_handler rt e req table date He).
    erewrite serve_daily_log.
    2: { rewrite step_no_faults by exact Hf. apply exec_select_single. }
    rewrite Hone. reflexivity.
  - intros S backend rt req s c r err Hin Herr Hcode. revert Hin.
    unfold serve. rewrite (daily_log_route_handler rt e req table date He).
    destruct (backend s (QSelect table "*"
                [c_eq "date" (Some (VStr date))] None true)) as [r0 s1] eqn:Hb.
    rewrite (serve_daily_log backend table date s r0 s1 Hb).
    unfold trace_of, resp_of. cbn [fst snd].
    intros [Heq | []]. inversion Heq; subst. rewrite Herr.
    destruct (String.eqb_spec (err_code err) "PGRST116") as [Hc | _];
      [contradiction | reflexivity].
Qed.

(** A date nobody logged, on a store without rows. *)
Lemma daily_log_by_date_lookup_witness :
  daily_log_route (GET_daily_logs_piyush_date "2024-01-01")
    = Some ("daily_logs_piyush", "2024-01-01")
  /\ faults (init ∅) = []
  /\ resp_of (serve step sample_env (GET_daily_logs_piyush_date "2024-01-01")
                empty_request (init ∅))
     = {| status := 200; json := envelope true VNull VNull |}.
Proof.
  split; [reflexivity|]. split; [reflexivity|].
  destruct (daily_log_by_date_lookup
              (GET_daily_logs_piyush_date "2024-01-01")
              "daily_logs_piyush" "2024-01-01" eq_refl) as [H _].
  apply H; reflexivity.
Defined.

Lemma serve_a2z_get {S : Type} (backend : S -> call -> result * S)
    s r s1 r2 s2 :
  backend s (QSelect "a2z_progress" "*" [] None true) = (r, s1) ->
  backend s1 (QInsert "a2z_progress" a2z_defaults) = (r2, s2) ->
  try_catch backend get_a2z_progress s =
    match error r with
    | None => (res_ok (data r), s1,
               [(QSelect "a2z_progress" "*" [] None true, r)])
    | Some e =>
        if String.eqb (err_code e) "PGRST116" then
          (match error r2 with
           | Some e2 => catch_block e2
           | None => res_ok (data r2)
           end, s2,
           [(QSelect "a2z_progress" "*" [] None true, r);
            (QInsert "a2z_progress" a2z_defaults, r2)])
        else (catch_block e, s1,
              [(QSelect "a2z_progress" "*" [] None true, r)])
    end.
Proof.
  intros H1 H2. unfold get_a2z_progress.
  rewrite (try_catch_await _ _ _ _ _ _ H1).
  destruct (error r) as [e|]; [|reflexivity].
  destruct (String.eqb (err_code e) "PGRST116"); [|reflexivity].
  rewrite (try_catch_await _ _ _ _ _ _ H2).
  destruct (error r2); reflexivity.
Qed.

Lemma success_flag_catch e :
  get_field (json (catch_block e)) "success" <> Some (VBool true).
Proof.
  unfold catch_block, envelope. cbn [json get_field].
  rewrite lookup_insert_eq. discriminate.
Qed.

(** C10.  [GET /a2z-progress] writes: on a store whose [a2z_progress] table
    is empty it reads, then inserts the row with the six counters at 0, and
    answers with the stored row; and whenever its response has [success:
    true], whatever the table held and whatever faults the store met, the
    table holds at least one row afterwards. *)
Theorem a2z_get_creates_missing_row :
  (forall rt req (s : Store.t),
     faults s = [] ->
     rows s "a2z_progress" = [] ->
     let out := serve step rt GET_a2z_progress req s in
     calls_of out = [QSelect "a2z_progress" "*" [] None true;
                     QInsert "a2z_progress" a2z_defaults]
     /\ rows (state_of out) "a2z_progress" = [new_row s a2z_defaults]
     /\ resp_of out = res_ok (VObj (new_row s a2z_defaults))
     /\ Forall (fun k => new_row s a2z_defaults !! k = Some (VNum 0))
          ["easy_total"; "easy_solved"; "medium_total"; "medium_solved";
           "hard_total"; "hard_solved"])
  /\
  (forall rt req (s : Store.t),
     let out := serve step rt GET_a2z_progress req s in
     get_field (json (resp_of out)) "success" = Some (VBool true) ->
     rows (state_of out) "a2z_progress" <> []).
Proof.
  split.
  - intros rt req s Hf Hempty out. subst out. unfold serve. cbn [handler].
    erewrite serve_a2z_get.
    2: { rewrite step_no_faults by exact Hf. apply exec_select_the_row. }
    2: { rewrite step_no_faults by exact Hf. apply exec_insert. }
    rewrite Hempty. cbn [error fail ok]. cbn [err_code PGRST116].
    change (String.eqb "PGRST116" "PGRST116") with true. cbv iota.
    unfold calls_of, trace_of, state_of, resp_of. cbn [fst snd map data].
    repeat split.
    + unfold rows at 1. cbn [tables]. rewrite lookup_insert_eq.
      reflexivity.
    + repeat constructor; apply new_row_payload; reflexivity.
  - intros rt req s out. subst out. unfold serve. cbn [handler].
    set (c1 := QSelect "a2z_progress" "*" [] None true).
    set (c2 := QInsert "a2z_progress" a2z_defaults).
    destruct (step s c1) as [r s1] eqn:H1.
    destruct (step s1 c2) as [r2 s2] eqn:H2.
    rewrite (serve_a2z_get step s r s1 r2 s2 H1 H2).
    destruct (error r) as [e|] eqn:Hr.
    + destruct (String.eqb (err_code e) "PGRST116").
      * destruct (error r2) as [e2|] eqn:Hr2.
        -- unfold resp_of. cbn [fst snd]. intros Hs.
           destruct (success_flag_catch e2 Hs).
        -- intros _. unfold state_of. cbn [fst snd].
           destruct (step_ok_exec s1 c2) as (b & Hb & Eb);
             [rewrite H2; exact Hr2|].
           rewrite H2 in Eb.
           assert (Hs2 : s2 = (exec b c2).2) by (rewrite <- Eb; reflexivity).
           rewrite Hs2. unfold c2. rewrite rows_after_insert.
           destruct (rows b "a2z_progress"); discriminate.
      * unfold resp_of. cbn [fst snd]. intros Hs.
        destruct (success_flag_catch e Hs).
    + intros _. unfold state_of. cbn [fst snd].
      destruct (step_ok_exec s c1) as (a & Ha & Ea); [rewrite H1; exact Hr|].
      rewrite H1 in Ea. unfold c1 in Ea. rewrite exec_select_the_row in Ea.
      inversion Ea as [[Hres Hst]]. subst s1.
      destruct (rows a "a2z_progress") as [|row [|row' l]] eqn:Hrows.
      * rewrite Hres in Hr. discriminate.
      * congruence.
      * rewrite Hres in Hr. discriminate.
Qed.

(** The first [GET /a2z-progress] on a store without rows. *)
Lemma a2z_get_creates_missing_row_witness :
  faults (init ∅) = []
  /\ rows (init ∅) "a2z_progress" = []
  /\ rows (state_of (serve step sample_env GET_a2z_progress empty_request
                       (init ∅))) "a2z_progress"
     = [new_row (init ∅) a2z_defaults].
Proof.
  split; [reflexivity|]. split; [reflexivity|].
  destruct a2z_get_creates_missing_row as [H _].
  apply (H sample_env empty_request (init ∅)); reflexivity.
Defined.
End SingleRowReads.

(** ** Updates *)

Section Updates.
Import Store StoreFacts StoreSelect.

Lemma update_route_handler rt e req table id :
  update_route e = Some (table, id) ->
  handler rt e req = update_by_id table id req.
Proof. destruct e; cbn; intros H; inversion H; subst; reflexivity. Qed.

Lemma exec_update s table payload c :
  exec s (QUpdate table payload c) =
    match List.filter (holds c) (rows s table) with
    | [r] =>
        (ok (VObj (payload ∪ r)),
         set_rows s table
           (map (fun x => if holds c x then payload ∪ x else x) (rows s table)))
    | _ => (fail PGRST116, s)
    end.
Proof.
  cbn [exec].
  destruct (List.filter (holds c) (rows s table)) as [|r [|r' l]]; reflexivity.
Qed.

(** C7.  For each of the fourteen [PUT /<resource>/:id] routes: whatever the
    body and the backend, the handler issues exactly one call, the update of
    the route's table under [id = :id] whose payload is the request body as
    it came; and on the store, when exactly one row has that id, the response
    carries that row with every supplied field set to the supplied value and
    every other field as it was, and in the table that row is replaced by it
    while the other rows stay. *)
Theorem update_forwards_body (e : route) (table id : string) :
  update_route e = Some (table, id) ->
  (forall (S : Type) (backend : S -> call -> result * S) rt req s,
     calls_of (serve backend rt e req s) =
       [QUpdate table (body req) (c_eq "id" (Some (VStr id)))])
  /\
  (forall rt req (s : Store.t) (r : obj),
     faults s = [] ->
     List.filter (holds (c_eq "id" (Some (VStr id)))) (rows s table) = [r] ->
     exists row' : obj,
       resp_of (serve step rt e req s) = res_ok (VObj row')
       /\ (forall f v, body req !! f = Some v -> row' !! f = Some v)
       /\ (forall f, body req !! f = None -> row' !! f = r !! f)
       /\ rows (state_of (serve step rt e req s)) table =
            map (fun x => if holds (c_eq "id" (Some (VStr id))) x
                          then row' else x)
                (rows s table)).
Proof.
  intros He. split.
  - intros S backend rt req s. unfold serve.
    rewrite (update_route_handler rt e req table id He). unfold update_by_id. cbv zeta.
    destruct (backend s (QUpdate table (body req)
                (c_eq "id" (Some (VStr id))))) as [r s1] eqn:Hb.
    rewrite (try_catch_single backend _ s r s1 Hb). reflexivity.
  - intros rt req s r Hf Hone. exists (body req ∪ r). unfold serve.
    rewrite (update_route_handler rt e req table id He). unfold update_by_id. cbv zeta.
    erewrite try_catch_single.
    2: { rewrite step_no_faults by exact Hf. rewrite exec_update, Hone.
         reflexivity. }
    unfold resp_of, state_of. cbn [fst snd error data ok].
    split; [reflexivity|]. split; [|split].
    + intros f v Hv. apply lookup_union_Some_l. exact Hv.
    + intros f Hnone. apply lookup_union_r. exact Hnone.
    + rewrite rows_set_rows_eq.
      assert (Hin : forall x, In x (rows s table) ->
                holds (c_eq "id" (Some (VStr id))) x = true -> x = r).
      { intros x Hx Hh.
        assert (Hx' : In x (List.filter (holds (c_eq "id" (Some (VStr id))))
                              (rows s table)))
          by (apply filter_In; split; assumption).
        rewrite Hone in Hx'. destruct Hx' as [<- | []]. reflexivity. }
      apply map_ext_in. intros x Hx.
      destruct (holds (c_eq "id" (Some (VStr id))) x) eqn:Hh; [|reflexivity].
      rewrite (Hin x Hx Hh). reflexivity.
Qed.

(** Updating the content of todo 5. *)
Lemma update_forwards_body_witness :
  update_route (PUT_todos "5") = Some ("todos", "5")
  /\ faults sample_todos = []
  /\ exists row' : obj,
       resp_of (serve step sample_env (PUT_todos "5")
                  (request_of [("content", Some (VStr "new"))]) sample_todos)
         = res_ok (VObj row')
       /\ row' !! "content" = Some (VStr "new")
       /\ row' !! "profile" = Some (VStr "a").
Proof.
  split; [reflexivity|]. split; [reflexivity|].
  destruct (update_forwards_body (PUT_todos "5") "todos" "5" eq_refl)
    as [_ H].
  destruct (H sample_env (request_of [("content", Some (VStr "new"))])
              sample_todos
              (object [("id", Some (VNum 5)); ("profile", Some (VStr "a"));
                       ("content", Some (VStr "old"))])
              eq_refl eq_refl) as (row' & Hr & Hset & Hkeep & _).
  exists row'. split; [exact Hr|]. split.
  - apply Hset. reflexivity.
  - rewrite Hkeep by reflexivity. reflexivity.
Defined.
End Updates.

(** ** Creates *)

Section Creates.
Import Store StoreFacts StoreSelect.

Lemma lookup_object (fields : list (string * option value)) (k : string) :
  object fields !! k = assoc k fields.
Proof.
  induction fields as [|[k' [v|]] rest IH]; cbn [assoc].
  - apply lookup_empty.
  - change (object ((k', Some v) :: rest)) with (<[k' := v]> (object rest)).
    destruct (String.eqb_spec k' k) as [-> | Hne].
    + apply lookup_insert_eq.
    + rewrite lookup_insert_ne by exact Hne. exact IH.
  - change (object ((k', None) :: rest)) with (object rest).
    destruct (String.eqb k' k); exact IH.
Qed.

Lemma js_or_truthy (x : option value) (v d : value) :
  x = Some v -> truthy (Some v) = true -> js_or x d = v.
Proof. intros -> Ht. unfold js_or. rewrite Ht. reflexivity. Qed.

Lemma js_or_falsy (x : option value) (d : value) :
  truthy x = false -> js_or x d = d.
Proof.
  intros Hf. unfold js_or. destruct x as [v|]; [|reflexivity].
  rewrite Hf. reflexivity.
Qed.

(** Every create handler: the presence check on the required fields, then
    one insert of an object literal built from the fields it reads. *)
Lemma create_shape (e : route) (table : string) rt req :
  create_route e = Some table ->
  exists msg fields,
    handler rt e req =
      (if existsb (fun f => negb (truthy (body req !! f))) (required_fields e)
       then Ret (res_400 msg)
       else Await (QInsert table (object fields)) (fun r => throw_or_json r))
    /\ (forall f v,
          In f (required_fields e ++ optional_fields e)%list ->
          body req !! f = Some v -> truthy (Some v) = true ->
          assoc f fields = Some v)
    /\ assoc "id" fields = None
    /\ assoc "created_at" fields = None.
Proof.
  destruct e; cbn [create_route]; intros H; inversion H; subst;
    do 2 eexists;
    (split;
     [ cbn [handler required_fields existsb];
       unfold post_todos, post_habits, post_habit_entries,
         post_daily_logs_piyush, post_daily_logs_shruti, post_contest_logs,
         post_blind75, post_courses, post_certificates, post_projects,
         post_skills, post_case_studies, post_guesstimates,
         post_case_competitions;
       cbv zeta;
       repeat match goal with
              | |- context [truthy (body req !! ?k)] =>
                  destruct (truthy (body req !! k))
              end; reflexivity
     | split;
       [ intros f v Hin Hb Ht; cbn in Hin;
         repeat (destruct Hin as [<- | Hin]); try contradiction;
         cbn [assoc String.eqb Ascii.eqb Bool.eqb andb];
         rewrite ?(js_or_truthy _ v _ Hb Ht), ?Hb; reflexivity
       | split; reflexivity ] ]).
Qed.

Lemma existsb_required_false (e : route) (req : request) :
  Forall (fun f => truthy (body req !! f) = true) (required_fields e) ->
  existsb (fun f => negb (truthy (body req !! f))) (required_fields e) = false.
Proof.
  induction 1 as [|f l Hf _ IH]; [reflexivity|].
  cbn. rewrite Hf, IH. reflexivity.
Qed.

Lemma existsb_required_true (e : route) (req : request) :
  Exists (fun f => truthy (body req !! f) = false) (required_fields e) ->
  existsb (fun f => negb (truthy (body req !! f))) (required_fields e) = true.
Proof.
  induction 1 as [f l Hf | f l _ IH]; cbn.
  - rewrite Hf. reflexivity.
  - rewrite IH. apply orb_true_r.
Qed.

Lemma assoc_in (k : string) (fields : list (string * option value)) v :
  assoc k fields = Some v -> In k (map fst fields).
Proof.
  induction fields as [|[k' o] rest IH]; cbn [assoc map fst]; [discriminate|].
  destruct (String.eqb_spec k' k) as [-> | _].
  - intros _. left. reflexivity.
  - intros H. right. apply IH. exact H.
Qed.

(** No create route reads [id] or [created_at] from the body. *)
Lemma route_fields_not_reserved (e : route) (f : string) :
  In f (required_fields e ++ optional_fields e)%list ->
  f <> "id" /\ f <> "created_at".
Proof.
  destruct e; cbn; intros H;
    repeat (destruct H as [<- | H]); try contradiction;
    split; discriminate.
Qed.

Lemma new_row_other (s : Store.t) (payload : obj) (f : string) :
  f <> "id" -> f <> "created_at" ->
  new_row s payload !! f = payload !! f.
Proof.
  intros Hid Hcreated. unfold new_row.
  destruct (payload !! f) as [v|] eqn:Hp.
  - apply lookup_union_Some_l. exact Hp.
  - rewrite lookup_union_r by exact Hp.
    rewrite lookup_insert_ne by (intros E; apply Hid; symmetry; exact E).
    rewrite lookup_insert_ne by (intros E; apply Hcreated; symmetry; exact E).
    apply lookup_empty.
Qed.

Lemma new_row_keys (s : Store.t) (payload : obj) (f : string) :
  is_Some (new_row s payload !! f) ->
  is_Some (payload !! f) \/ f = "id" \/ f = "created_at".
Proof.
  intros Hsome.
  destruct (String.eqb_spec f "id") as [-> | Hid]; [right; left; reflexivity|].
  destruct (String.eqb_spec f "created_at") as [-> | Hcreated];
    [right; right; reflexivity|].
  left. rewrite <- (new_row_other s payload f Hid Hcreated). exact Hsome.
Qed.

(** Every create handler, field by field: the object literal of its insert
    holds each required field and each optional field without a default as
    the body has it (absent when the body omits it), each optional field with
    a default as [field || default], and no other key. *)
Lemma create_exact (e : route) (table : string) rt req :
  create_route e = Some table ->
  exists msg fields,
    handler rt e req =
      (if existsb (fun f => negb (truthy (body req !! f))) (required_fields e)
       then Ret (res_400 msg)
       else Await (QInsert table (object fields)) (fun r => throw_or_json r))
    /\ (forall f v,
          In f (required_fields e ++ optional_fields e)%list ->
          body req !! f = Some v -> truthy (Some v) = true ->
          assoc f fields = Some v)
    /\ (forall f,
          In f (required_fields e ++ optional_fields e)%list ->
          ~ In f (map fst (defaults e)) ->
          assoc f fields = body req !! f)
    /\ (forall f d,
          In (f, d) (defaults e) ->
          truthy (body req !! f) = false ->
          assoc f fields = Some d)
    /\ incl (map fst fields) (required_fields e ++ optional_fields e)%list.
Proof.
  destruct e; cbn [create_route]; intros H; inversion H; subst;
    do 2 eexists;
    (split;
     [ cbn [handler required_fields existsb];
       unfold post_todos, post_habits, post_habit_entries,
         post_daily_logs_piyush, post_daily_logs_shruti, post_contest_logs,
         post_blind75, post_courses, post_certificates, post_projects,
         post_skills, post_case_studies, post_guesstimates,
         post_case_competitions;
       cbv zeta;
       repeat match goal with
              | |- context [truthy (body req !! ?k)] =>
                  destruct (truthy (body req !! k))
              end; reflexivity
     | split;
       [ intros f v Hin Hb Ht; cbn in Hin;
         repeat (destruct Hin as [<- | Hin]); try contradiction;
         cbn [assoc String.eqb Ascii.eqb Bool.eqb andb];
         rewrite ?(js_or_truthy _ v _ Hb Ht), ?Hb; reflexivity
       | split;
         [ intros f Hin Hnd; cbn in Hin, Hnd;
           repeat (destruct Hin as [<- | Hin]); try contradiction;
           try solve [exfalso; apply Hnd; tauto];
           cbn [assoc String.eqb Ascii.eqb Bool.eqb andb];
           destruct (body req !! _); reflexivity
         | split;
           [ intros f d Hin Hfalsy; cbn in Hin;
             repeat (destruct Hin as [Hin | Hin];
                     [inversion Hin; subst; clear Hin|]);
             try contradiction;
             cbn [assoc String.eqb Ascii.eqb Bool.eqb andb];
             rewrite (js_or_falsy _ _ Hfalsy); reflexivity
           | intros k Hk; cbn in Hk |- *; tauto ] ] ] ]).
Qed.

(** Both required fields of [POST /todos] are present in the body, [content]
    being the empty string, and the handler answers 400 without any
    insert. *)
Lemma present_but_empty_is_rejected :
  let req := request_of [("profile", Some (VStr "a"));
                         ("content", Some (VStr ""))] in
  Forall (fun f => is_Some (body req !! f)) (required_fields POST_todos)
  /\ serve step sample_env POST_todos req (init ∅)
     = (res_400 "Profile and content are required", init ∅, []).
Proof.
  split.
  - repeat constructor; eexists; reflexivity.
  - reflexivity.
Qed.

(** C5, as stated, fails on both of its halves.  With both required fields of
    [POST /todos] present in the body, [content] being the empty string, the
    handler answers 400 without any insert; and with the three required
    fields of [POST /courses] present and [total_content: 0] supplied, the
    returned row holds [total_content: 100], which the input does not. *)
Lemma create_differs_from_present_input :
  (let req := request_of [("profile", Some (VStr "a"));
                          ("content", Some (VStr ""))] in
   Forall (fun f => is_Some (body req !! f)) (required_fields POST_todos)
   /\ serve step sample_env POST_todos req (init ∅)
      = (res_400 "Profile and content are required", init ∅, []))
  /\
  (let req := request_of [("profile", Some (VStr "a"));
                          ("course_name", Some (VStr "Rocq"));
                          ("platform", Some (VStr "web"));
                          ("total_content", Some (VNum 0))] in
   Forall (fun f => is_Some (body req !! f)) (required_fields POST_courses)
   /\ body req !! "total_content" = Some (VNum 0)
   /\ exists row : obj,
        resp_of (serve step sample_env POST_courses req (init ∅))
          = res_ok (VObj row)
        /\ row !! "total_content" = Some (VNum 100)).
Proof.
  split; [exact present_but_empty_is_rejected|].
  split; [repeat constructor; eexists; reflexivity|].
  split; [reflexivity|].
  eexists. split; reflexivity.
Qed.

(** C5, amended.  For each of the fourteen create routes: when every required
    field is present with a truthy value, the handler issues exactly one
    call, an insert into the route's table, whose payload matches the
    supplied input field by field: each required field and each optional
    field without a default is in the payload exactly as the body has it
    (whatever its value, and absent when the body omits it), each optional
    field with a default is the supplied value when that is truthy and the
    default otherwise, and the payload has no other field.  On the store the
    response is the stored row, which is that payload, field for field, with
    the [id] and [created_at] the store assigned and nothing else, and the
    table gains that row.  When some required field is omitted or falsy, the
    response is a 400 failure envelope and no call is issued. *)
Theorem create_inserts_once (e : route) (table : string) rt req :
  create_route e = Some table ->
  (Forall (fun f => truthy (body req !! f) = true) (required_fields e) ->
   exists payload : obj,
     (forall (S : Type) (backend : S -> call -> result * S) s,
        calls_of (serve backend rt e req s) = [QInsert table payload])
     /\ (forall f v,
           In f (required_fields e ++ optional_fields e)%list ->
           body req !! f = Some v -> truthy (Some v) = true ->
           payload !! f = Some v)
     /\ (forall f,
           In f (required_fields e ++ optional_fields e)%list ->
           ~ In f (map fst (defaults e)) ->
           payload !! f = body req !! f)
     /\ (forall f d,
           In (f, d) (defaults e) ->
           In f (optional_fields e)
           /\ (truthy (body req !! f) = false -> payload !! f = Some d))
     /\ (forall f,
           is_Some (payload !! f) ->
           In f (required_fields e ++ optional_fields e)%list)
     /\ (forall s : Store.t,
           faults s = [] ->
           resp_of (serve step rt e req s) = res_ok (VObj (new_row s payload))
           /\ rows (state_of (serve step rt e req s)) table =
                (rows s table ++ [new_row s payload])%list
           /\ (forall f v, payload !! f = Some v ->
                 new_row s payload !! f = Some v)
           /\ new_row s payload !! "id" = Some (VNum (next_id s))
           /\ new_row s payload !! "created_at" = Some (VNum (clock s))
           /\ (forall f,
                 In f (required_fields e ++ optional_fields e)%list ->
                 new_row s payload !! f = payload !! f)
           /\ (forall f,
                 is_Some (new_row s payload !! f) ->
                 In f (required_fields e ++ optional_fields e)%list
                 \/ f = "id" \/ f = "created_at")))
  /\
  (Exists (fun f => truthy (body req !! f) = false) (required_fields e) ->
   forall (S : Type) (backend : S -> call -> result * S) s,
   exists msg,
     serve backend rt e req s =
       ({| status := 400; json := envelope false VNull (VStr msg) |}, s, [])).
Proof.
  intros He.
  destruct (create_exact e table rt req He)
    as (msg & fields & Hshape & Hfields & Hexact & Hdefault & Hkeys).
  assert (Hin : forall f, is_Some (object fields !! f) ->
                  In f (required_fields e ++ optional_fields e)%list).
  { intros f [v Hv]. rewrite lookup_object in Hv.
    apply Hkeys. apply (assoc_in f fields v Hv). }
  assert (Hnone : forall f, f = "id" \/ f = "created_at" ->
                    object fields !! f = None).
  { intros f Hf. destruct (object fields !! f) as [v|] eqn:Hv; [|reflexivity].
    exfalso.
    destruct (route_fields_not_reserved e f (Hin f (ex_intro _ v Hv)))
      as [Hid Hcreated].
    destruct Hf; contradiction. }
  split.
  - intros Hreq. exists (object fields).
    rewrite (existsb_required_false e req Hreq) in Hshape.
    split; [|split; [|split; [|split; [|split]]]].
    + intros S backend s. unfold serve. rewrite Hshape.
      destruct (backend s (QInsert table (object fields))) as [r s1] eqn:Hb.
      rewrite (try_catch_single backend _ s r s1 Hb). reflexivity.
    + intros f v Hf Hb Ht. rewrite lookup_object. eauto.
    + intros f Hf Hnd. rewrite lookup_object. apply Hexact; assumption.
    + intros f d Hd. split.
      * clear -He Hd. destruct e; cbn in He, Hd |- *; try discriminate;
          repeat (destruct Hd as [Hd | Hd];
                  [inversion Hd; subst; clear Hd; tauto|]);
          contradiction.
      * intros Hfalsy. rewrite lookup_object. apply Hdefault; assumption.
    + exact Hin.
    + intros s Hf. unfold serve. rewrite Hshape.
      erewrite try_catch_single.
      2: { rewrite step_no_faults by exact Hf. apply exec_insert. }
      unfold resp_of, state_of. cbn [fst snd error data ok].
      split; [reflexivity|]. split; [|split; [|split; [|split; [|split]]]].
      * unfold rows at 1. cbn [tables]. rewrite lookup_insert_eq. reflexivity.
      * intros f v Hv. apply new_row_payload. exact Hv.
      * unfold new_row. rewrite lookup_union_r
          by (apply Hnone; left; reflexivity).
        apply lookup_insert_eq.
      * unfold new_row. rewrite lookup_union_r
          by (apply Hnone; right; reflexivity).
        rewrite lookup_insert_ne by discriminate. apply lookup_insert_eq.
      * intros f Hfin.
        destruct (route_fields_not_reserved e f Hfin) as [Hid Hcreated].
        apply new_row_other; assumption.
      * intros f Hsome.
        destruct (new_row_keys s (object fields) f Hsome) as [Hp | Hr];
          [left; apply Hin; exact Hp | right; exact Hr].
  - intros Hmiss S backend s. exists msg. unfold serve.
    rewrite Hshape, (existsb_required_true e req Hmiss). reflexivity.
Qed.

(** The end-to-end example of the specification: [POST /todos {profile: "a",
    content: "x"}]. *)
Lemma create_inserts_once_witness :
  let req := request_of [("profile", Some (VStr "a"));
                         ("content", Some (VStr "x"))] in
  create_route POST_todos = Some "todos"
  /\ Forall (fun f => truthy (body req !! f) = true) (required_fields POST_todos)
  /\ exists payload : obj,
       calls_of (serve step sample_env POST_todos req (init ∅))
         = [QInsert "todos" payload]
       /\ payload !! "profile" = Some (VStr "a")
       /\ payload !! "content" = Some (VStr "x").
Proof.
  intros req.
  assert (Hreq : Forall (fun f => truthy (body req !! f) = true)
                   (required_fields POST_todos)) by (repeat constructor).
  split; [reflexivity|]. split; [exact Hreq|].
  destruct (create_inserts_once POST_todos "todos" sample_env req eq_refl)
    as [H _].
  destruct (H Hreq) as (payload & Hcalls & Hfields & _).
  exists payload. split; [apply Hcalls|]. split.
  - apply Hfields; [cbn; auto | reflexivity | reflexivity].
  - apply Hfields; [cbn; auto | reflexivity | reflexivity].
Defined.
End Creates.

(** ** Defaults of optional create fields *)

Section Defaults.
Import Store.

(** C6, as stated, fails: [POST /courses] with [total_content: 0] supplied
    inserts [total_content: 100], not the supplied value. *)
Lemma supplied_zero_total_is_replaced :
  let req := request_of [("profile", Some (VStr "a"));
                         ("course_name", Some (VStr "algorithms"));
                         ("platform", Some (VStr "mooc"));
                         ("total_content", Some (VNum 0))] in
  body req !! "total_content" = Some (VNum 0)
  /\ exists payload : obj,
       calls_of (serve step sample_env POST_courses req (init ∅))
         = [QInsert "courses" payload]
       /\ payload !! "total_content" = Some (VNum 100)
       /\ payload !! "total_content" <> body req !! "total_content".
Proof.
  split; [reflexivity|].
  eexists. split; [reflexivity|]. split; [reflexivity|].
  vm_compute. discriminate.
Qed.

(** C6, amended.  For [completed] of [POST /habit-entries], [sort_order] of
    [POST /habits], and [total_content] and [completed_content] of
    [POST /courses], with the required fields truthy: the one insert carries
    the documented default ([false], [0], [100], [0]) when the field is
    omitted or supplied with a falsy value ([null], [false], [0], the empty
    string), and carries the supplied value when that value is truthy. *)
Theorem create_defaults_on_falsy (e : route) (table f : string) (d : value)
    rt req :
  In (e, table, f, d) documented_defaults ->
  Forall (fun k => truthy (body req !! k) = true) (required_fields e) ->
  exists payload : obj,
    (forall (S : Type) (backend : S -> call -> result * S) s,
       calls_of (serve backend rt e req s) = [QInsert table payload])
    /\ (body req !! f = None -> payload !! f = Some d)
    /\ (truthy (body req !! f) = false -> payload !! f = Some d)
    /\ (forall v, body req !! f = Some v -> truthy (Some v) = true ->
          payload !! f = Some v).
Proof.
  intros Hin Hreq.
  assert (Hserve : forall payload,
            existsb (fun k => negb (truthy (body req !! k))) (required_fields e)
              = false ->
            handler rt e req =
              (if existsb (fun k => negb (truthy (body req !! k)))
                    (required_fields e)
               then Ret (res_400 "")
               else Await (QInsert table payload) (fun r => throw_or_json r)) ->
            forall (S : Type) (backend : S -> call -> result * S) s,
              calls_of (serve backend rt e req s) = [QInsert table payload]).
  { intros payload Hex Hshape S backend s. unfold serve.
    rewrite Hshape, Hex.
    destruct (backend s (QInsert table payload)) as [r s1] eqn:Hb.
    rewrite (try_catch_single backend _ s r s1 Hb). reflexivity. }
  pose proof (existsb_required_false e req Hreq) as Hex.
  cbn in Hin.
  destruct Hin as [Heq | [Heq | [Heq | [Heq | []]]]]; inversion Heq; subst;
    eexists;
    (split;
     [ apply Hserve; [exact Hex|];
       cbn [handler required_fields existsb] in *;
       unfold post_habit_entries, post_habits, post_courses; cbv zeta;
       repeat match goal with
              | |- context [truthy (body req !! ?k)] =>
                  destruct (truthy (body req !! k))
              end; try discriminate Hex; reflexivity
     | rewrite lookup_object;
       cbn [assoc String.eqb Ascii.eqb Bool.eqb andb];
       split; [|split];
       [ intros Hnone; rewrite Hnone; reflexivity
       | intros Hfalsy; rewrite (js_or_falsy _ _ Hfalsy); reflexivity
       | intros v Hv Ht; rewrite (js_or_truthy _ v _ Hv Ht); reflexivity ] ]).
Qed.

(** A course created without content totals gets 100 and 0. *)
Lemma create_defaults_on_falsy_witness :
  let req := request_of [("profile", Some (VStr "a"));
                         ("course_name", Some (VStr "algorithms"));
                         ("platform", Some (VStr "mooc"))] in
  In (POST_courses, "courses", "total_content", VNum 100) documented_defaults
  /\ Forall (fun k => truthy (body req !! k) = true)
            (required_fields POST_courses)
  /\ exists payload : obj,
       calls_of (serve step sample_env POST_courses req (init ∅))
         = [QInsert "courses" payload]
       /\ payload !! "total_content" = Some (VNum 100).
Proof.
  intros req.
  assert (Hin : In (POST_courses, "courses", "total_content", VNum 100)
                  documented_defaults) by (cbn; auto).
  assert (Hreq : Forall (fun k => truthy (body req !! k) = true)
                   (required_fields POST_courses)) by (repeat constructor).
  split; [exact Hin|]. split; [exact Hreq|].
  destruct (create_defaults_on_falsy POST_courses "courses" "total_content"
              (VNum 100) sample_env req Hin Hreq)
    as (payload & Hcalls & Hnone & _).
  exists payload. split; [apply Hcalls | apply Hnone; reflexivity].
Defined.
End Defaults.

(** ** Strings and decimal rendering *)

Section StringFacts.

Lemma append_cons (c : ascii) (a b : string) :
  String c a ++ b = String c (a ++ b).
Proof. reflexivity. Qed.

Lemma append_nil (b : string) : "" ++ b = b.
Proof. reflexivity. Qed.

Lemma length_append' (a b : string) :
  String.length (a ++ b) = (String.length a + String.length b)%nat.
Proof.
  induction a as [|x a IH]; [reflexivity|].
  rewrite append_cons. cbn [String.length]. rewrite IH. reflexivity.
Qed.

Lemma append_inj_r (b x y : string) : x ++ b = y ++ b -> x = y.
Proof.
  revert y. induction x as [|c x IH]; intros [|c' y] H;
    rewrite ?append_cons, ?append_nil in H.
  - reflexivity.
  - apply (f_equal String.length) in H. cbn [String.length] in H.
    rewrite length_append' in H. lia.
  - apply (f_equal String.length) in H. cbn [String.length] in H.
    rewrite length_append' in H. lia.
  - inversion H; subst. f_equal. apply IH. assumption.
Qed.

Lemma no_slash_append_slash (x y : string) :
  no_slash (x ++ String "/" y) = false.
Proof.
  induction x as [|c x IH]; [reflexivity|].
  rewrite append_cons. cbn [no_slash]. rewrite IH. apply andb_false_r.
Qed.

(** What follows the last ['/'] of a string is determined by the string. *)
Lemma after_last_slash (a a' d d' : string) :
  no_slash d = true -> no_slash d' = true ->
  a ++ String "/" d = a' ++ String "/" d' -> d = d'.
Proof.
  intros Hd Hd'. revert a'.
  induction a as [|c a IH]; intros [|c' a'] H;
    rewrite ?append_cons, ?append_nil in H.
  - inversion H. reflexivity.
  - inversion H; subst. rewrite no_slash_append_slash in Hd. discriminate.
  - inversion H; subst. rewrite no_slash_append_slash in Hd'. discriminate.
  - inversion H; subst. eapply IH. eassumption.
Qed.

Lemma no_slash_uint (d : Decimal.uint) :
  no_slash (NilEmpty.string_of_uint d) = true.
Proof. induction d; cbn; auto. Qed.

Lemma no_slash_string_of_Z (z : Z) : no_slash (string_of_Z z) = true.
Proof.
  unfold string_of_Z. destruct (Z.to_int z) as [d|d]; cbn.
  - destruct d; try reflexivity; apply (no_slash_uint (_ _)).
  - destruct d; try reflexivity; apply (no_slash_uint (_ _)).
Qed.

Lemma to_int_not_nil (z : Z) :
  Z.to_int z <> Decimal.Pos Decimal.Nil /\ Z.to_int z <> Decimal.Neg Decimal.Nil.
Proof.
  assert (Hn : Z.to_int z = Decimal.norm (Z.to_int z)).
  { rewrite <- (DecimalZ.to_of (Z.to_int z)). rewrite DecimalZ.of_to.
    reflexivity. }
  rewrite Hn. destruct (Z.to_int z) as [d|d]; cbn.
  - split; [|discriminate]. intros H. inversion H as [H0].
    exact (DecimalFacts.unorm_nonnil d H0).
  - destruct (Decimal.nzhead d); split; discriminate.
Qed.

Lemma string_of_Z_inj (a b : Z) : string_of_Z a = string_of_Z b -> a = b.
Proof.
  unfold string_of_Z. intros H.
  apply (f_equal NilZero.int_of_string) in H.
  destruct (to_int_not_nil a) as [Ha1 Ha2].
  destruct (to_int_not_nil b) as [Hb1 Hb2].
  rewrite !NilZero.isi in H by assumption.
  inversion H as [H0]. apply DecimalZ.to_int_inj. exact H0.
Qed.
End StringFacts.

(** ** Uploads *)

Section Uploads.
Import Store StoreFacts.

Lemma append_assoc' (a b c : string) : (a ++ b) ++ c = a ++ (b ++ c).
Proof.
  induction a as [|x a IH]; [reflexivity|].
  rewrite !append_cons, IH. reflexivity.
Qed.

Lemma upload_prefix_slash (e : route) (req : request) :
  exists a, upload_prefix e req = a ++ "/".
Proof.
  destruct e;
    try (exists "case-competitions"; reflexivity).
  exists (to_str (body req !! "profile") ++ "/certificates").
  cbn [upload_prefix]. rewrite append_assoc'. reflexivity.
Qed.

(** Distinct milliseconds give distinct paths for the same file name,
    whatever the profiles. *)
Lemma upload_path_differs (e : route) rt1 rt2 req1 req2 :
  body req1 !! "fileName" = body req2 !! "fileName" ->
  Date_now rt1 <> Date_now rt2 ->
  upload_path e rt1 req1 <> upload_path e rt2 req2.
Proof.
  intros Hname Hms Heq. apply Hms. apply string_of_Z_inj.
  unfold upload_path in Heq. rewrite Hname in Heq.
  rewrite <- !append_assoc' in Heq.
  apply append_inj_r in Heq. apply append_inj_r in Heq.
  destruct (upload_prefix_slash e req1) as [a1 H1].
  destruct (upload_prefix_slash e req2) as [a2 H2].
  rewrite H1, H2 in Heq. rewrite !append_assoc' in Heq.
  eapply after_last_slash; [| | exact Heq]; apply no_slash_string_of_Z.
Qed.

Lemma upload_shape (e : route) (bucket : string) rt req bytes :
  upload_route e = Some bucket ->
  Forall (fun f => truthy (body req !! f) = true) (required_fields e) ->
  Buffer_from rt (body req !! "fileBase64") = inr bytes ->
  handler rt e req =
    Await (QUpload bucket (upload_path e rt req) bytes "application/pdf" false)
          (fun r => upload_response rt bucket (upload_path e rt req) r).
Proof.
  intros He Hreq Hbuf.
  destruct e; cbn [upload_route] in He; inversion He; subst;
    cbn [required_fields] in Hreq;
    repeat match goal with
           | H : Forall _ (_ :: _) |- _ =>
               let Hx := fresh "Hx" in
               inversion H as [|? ? Hx ?]; subst; clear H
           end;
    cbn [handler];
    unfold post_upload_certificate, post_upload_case_competition_doc,
      upload_path; cbv zeta;
    repeat match goal with
           | H : truthy _ = true |- _ => rewrite H; clear H
           end;
    cbn [negb orb]; rewrite Hbuf; cbn [upload_prefix];
    rewrite ?append_assoc'; reflexivity.
Qed.

Lemma exec_upload_free s bucket path bytes ct :
  stored s bucket path = None ->
  (exec s (QUpload bucket path bytes ct false)).1
    = ok (VObj (object [("path", Some (VStr path))]))
  /\ stored (exec s (QUpload bucket path bytes ct false)).2 bucket path
     = Some bytes.
Proof.
  unfold stored. intros Hfree. cbn [exec].
  assert (H : default ∅ (objects s !! bucket) !! path = None).
  { destruct (objects s !! bucket) as [b|]; [exact Hfree | apply lookup_empty]. }
  rewrite H. cbn [fst snd objects]. split; [reflexivity|].
  rewrite lookup_insert_eq. cbn. apply lookup_insert_eq.
Qed.

Lemma exec_upload_taken s bucket path bytes ct old :
  stored s bucket path = Some old ->
  exec s (QUpload bucket path bytes ct false) = (fail already_exists, s).
Proof.
  unfold stored. intros Htaken. cbn [exec].
  destruct (objects s !! bucket) as [b|]; [|discriminate].
  cbn in Htaken |- *. rewrite Htaken. reflexivity.
Qed.

(** C9.  For each upload route, with the required fields truthy and the
    payload decoded to [bytes]: the handler issues exactly one call, the
    upload of [bytes] to the route's bucket at the path made of the namespace
    prefix, the millisecond timestamp, a hyphen and the file name, as PDF and
    with [upsert: false]; on the store, a free path gets the bytes and the
    response is the success envelope carrying the public URL of that path and
    the path, while a taken path gives the 500 failure envelope and leaves
    the stored object as it was.  Two uploads of the same file name at
    distinct milliseconds go to distinct paths, and to distinct public URLs
    when the URL determines the path. *)
Theorem upload_path_and_collision (e : route) (bucket : string) :
  upload_route e = Some bucket ->
  (forall rt req bytes,
     Forall (fun f => truthy (body req !! f) = true) (required_fields e) ->
     Buffer_from rt (body req !! "fileBase64") = inr bytes ->
     let path := upload_path e rt req in
     (forall (S : Type) (backend : S -> call -> result * S) s,
        calls_of (serve backend rt e req s) =
          [QUpload bucket path bytes "application/pdf" false])
     /\ (forall s : Store.t,
           faults s = [] -> stored s bucket path = None ->
           resp_of (serve step rt e req s) =
             res_ok (VObj (object
               [("file_url", Some (VStr (getPublicUrl rt bucket path)));
                ("path", Some (VStr path))]))
           /\ stored (state_of (serve step rt e req s)) bucket path
              = Some bytes)
     /\ (forall (s : Store.t) old,
           faults s = [] -> stored s bucket path = Some old ->
           resp_of (serve step rt e req s) = catch_block already_exists
           /\ state_of (serve step rt e req s) = s))
  /\
  (forall rt1 rt2 req1 req2,
     body req1 !! "fileName" = body req2 !! "fileName" ->
     Date_now rt1 <> Date_now rt2 ->
     upload_path e rt1 req1 <> upload_path e rt2 req2
     /\ ((forall p q, getPublicUrl rt1 bucket p = getPublicUrl rt2 bucket q ->
                      p = q) ->
         getPublicUrl rt1 bucket (upload_path e rt1 req1)
         <> getPublicUrl rt2 bucket (upload_path e rt2 req2))).
Proof.
  intros He. split.
  - intros rt req bytes Hreq Hbuf path.
    pose proof (upload_shape e bucket rt req bytes He Hreq Hbuf) as Hshape.
    fold path in Hshape. split; [|split].
    + intros S backend s. unfold serve. rewrite Hshape.
      destruct (backend s (QUpload bucket path bytes "application/pdf" false))
        as [r s1] eqn:Hb.
      rewrite (try_catch_await backend _ _ s r s1 Hb).
      unfold calls_of, trace_of. cbn [snd map fst]. f_equal.
      unfold upload_response.
      destruct (error r); [reflexivity|]. destruct (data r); reflexivity.
    + intros s Hf Hfree. unfold serve. rewrite Hshape.
      destruct (exec_upload_free s bucket path bytes "application/pdf" Hfree)
        as [Hres Hst].
      destruct (exec s (QUpload bucket path bytes "application/pdf" false))
        as [r s1] eqn:Hx. cbn [fst snd] in Hres, Hst. subst r.
      erewrite try_catch_await
        by (rewrite step_no_faults by exact Hf; exact Hx).
      unfold resp_of, state_of. cbn [fst snd]. split; [|exact Hst].
      reflexivity.
    + intros s old Hf Htaken. unfold serve. rewrite Hshape.
      erewrite try_catch_await
        by (rewrite step_no_faults by exact Hf;
            apply (exec_upload_taken s bucket path bytes _ old Htaken)).
      unfold resp_of, state_of. cbn [fst snd]. split; reflexivity.
  - intros rt1 rt2 req1 req2 Hname Hms.
    pose proof (upload_path_differs e rt1 rt2 req1 req2 Hname Hms) as Hpath.
    split; [exact Hpath|]. intros Hinj Hurl. apply Hpath. apply Hinj.
    exact Hurl.
Qed.

(** The same certificate uploaded at two consecutive milliseconds. *)
Lemma upload_path_and_collision_witness :
  upload_route POST_upload_certificate = Some "certificates"
  /\ Forall (fun f => truthy (body sample_upload !! f) = true)
            (required_fields POST_upload_certificate)
  /\ Date_now sample_env <> Date_now sample_env_later
  /\ calls_of (serve step sample_env POST_upload_certificate sample_upload
                 (init ∅))
     = [QUpload "certificates" "piyush/certificates/1700000000123-cv.pdf" []
          "application/pdf" false]
  /\ upload_path POST_upload_certificate sample_env sample_upload
     <> upload_path POST_upload_certificate sample_env_later sample_upload
  /\ getPublicUrl sample_env "certificates"
       (upload_path POST_upload_certificate sample_env sample_upload)
     <> getPublicUrl sample_env_later "certificates"
          (upload_path POST_upload_certificate sample_env_later sample_upload).
Proof.
  assert (Hreq : Forall (fun f => truthy (body sample_upload !! f) = true)
                   (required_fields POST_upload_certificate))
    by (repeat constructor).
  assert (Hms : Date_now sample_env <> Date_now sample_env_later)
    by discriminate.
  split; [reflexivity|]. split; [exact Hreq|]. split; [exact Hms|].
  destruct (upload_path_and_collision POST_upload_certificate "certificates"
              eq_refl) as [Hone Htwo].
  destruct (Htwo sample_env sample_env_later sample_upload sample_upload
              eq_refl Hms) as [Hpath Hurl].
  split; [|split].
  - destruct (Hone sample_env sample_upload [] Hreq eq_refl) as [Hcalls _].
    apply Hcalls.
  - exact Hpath.
  - apply Hurl. intros p q Hpq. cbn [getPublicUrl sample_env sample_env_later]
      in Hpq.
    repeat apply (inj (String.append _)) in Hpq. exact Hpq.
Defined.
End Uploads.

(** ** The rating upsert *)

Section RatingUpsert.
Import Store StoreFacts StoreSelect.

Lemma exec_spares_rows table s c :
  call_spares table c -> rows (exec s c).2 table = rows s table.
Proof.
  destruct c; cbn [call_spares]; intros Hne.
  - cbn [exec]. destruct single; [|reflexivity].
    destruct (map _ _) as [|r [|r' l]]; reflexivity.
  - apply rows_after_insert_ne. exact Hne.
  - rewrite exec_update.
    destruct (List.filter _ _) as [|r [|r' l]]; try reflexivity.
    cbn [snd]. apply rows_set_rows_ne. exact Hne.
  - rewrite exec_delete. cbn [snd]. apply rows_set_rows_ne. exact Hne.
  - cbn [exec]. destruct (default ∅ (objects s !! bucket) !! path);
      [destruct upsert|]; reflexivity.
Qed.

Lemma exec_keeps_faults s c : faults (exec s c).2 = faults s.
Proof.
  destruct c; cbn [exec].
  - destruct single; [|reflexivity].
    destruct (map _ _) as [|r [|r' l]]; reflexivity.
  - reflexivity.
  - destruct (List.filter _ _) as [|r [|r' l]]; reflexivity.
  - reflexivity.
  - destruct (default ∅ (objects s !! bucket) !! path);
      [destruct upsert|]; reflexivity.
Qed.

(** A program that spares a table leaves its rows, on a store that meets no
    fault. *)
Lemma run_spares table (p : prog response) :
  spares table p ->
  forall s, faults s = [] ->
    rows (run step p s).1.2 table = rows s table
    /\ faults (run step p s).1.2 = [].
Proof.
  induction 1 as [r | e | c k Hc _ IH]; intros s Hf; cbn [run].
  - split; [reflexivity | exact Hf].
  - split; [reflexivity | exact Hf].
  - rewrite step_no_faults by exact Hf.
    destruct (exec s c) as [r s1] eqn:Hx.
    assert (Hr : rows s1 table = rows s table).
    { change s1 with (r, s1).2. rewrite <- Hx. apply exec_spares_rows, Hc. }
    assert (Hf1 : faults s1 = []).
    { change s1 with (r, s1).2. rewrite <- Hx. rewrite exec_keeps_faults.
      exact Hf. }
    destruct (IH r s1 Hf1) as [IHr IHf].
    destruct (run step (k r) s1) as [[o s2] tr]. cbn [fst snd] in *.
    split; [congruence | exact IHf].
Qed.

Lemma state_of_try_catch (p : prog response) (s : Store.t) :
  state_of (try_catch step p s) = (run step p s).1.2.
Proof.
  unfold try_catch, state_of. destruct (run step p s) as [[o s'] tr].
  reflexivity.
Qed.

Ltac spares_tac :=
  repeat first
    [ apply spares_ret
    | apply spares_throw
    | apply spares_await; [cbn; first [exact I | discriminate] | intros ?]
    | match goal with
      | |- spares _ (if ?b then _ else _) => destruct b
      | |- spares _ (match ?x with _ => _ end) => destruct x
      end ].

(** Every handler but the rating upsert spares [cp_ratings]. *)
Lemma handler_spares_ratings rt e req :
  (forall platform, e <> PUT_cp_ratings platform) ->
  spares "cp_ratings" (handler rt e req).
Proof.
  intros Hne.
  destruct e; try (exfalso; eapply Hne; reflexivity); cbn [handler];
    unfold get_health, list_by_profile, list_all, update_by_id, delete_by_id,
      post_todos, post_habits, delete_habits_id, get_habit_entries,
      post_habit_entries, get_daily_log_by_date, post_daily_logs_piyush,
      post_daily_logs_shruti, post_contest_logs, get_a2z_progress,
      put_a2z_progress, post_blind75, post_courses, post_certificates,
      post_projects, post_skills, post_case_studies, post_guesstimates,
      post_case_competitions, post_upload_certificate,
      post_upload_case_competition_doc, upload_response, throw_or_json;
    cbv zeta; spares_tac.
Qed.

Lemma holds_platform_union (payload x : obj) p :
  payload !! "platform" = None ->
  holds (platform_is p) (payload ∪ x) = holds (platform_is p) x.
Proof.
  intros Hnone. unfold holds, platform_is, col_text.
  rewrite lookup_union_r by exact Hnone. reflexivity.
Qed.

Lemma filter_map_same (P : obj -> bool) (f : obj -> obj) (l : list obj) :
  (forall x, P (f x) = P x) ->
  length (List.filter P (map f l)) = length (List.filter P l).
Proof.
  intros Hf. induction l as [|x l IH]; [reflexivity|].
  cbn. rewrite Hf. destruct (P x); cbn; rewrite IH; reflexivity.
Qed.

Lemma holds_platform_new_row s platform rating p :
  holds (platform_is p)
        (new_row s (object [("platform", Some (VStr platform));
                            ("rating", Some rating)]))
  = String.eqb platform p.
Proof.
  unfold holds, platform_is, col_text, new_row.
  erewrite lookup_union_Some_l
    by (etransitivity; [apply lookup_object | reflexivity]).
  reflexivity.
Qed.

(** The stored rows after one rating upsert on a store that meets no
    fault. *)
Lemma put_cp_ratings_rows rt platform req rating s :
  faults s = [] ->
  body req !! "rating" = Some rating ->
  let out := serve step rt (PUT_cp_ratings platform) req s in
  let ins := object [("platform", Some (VStr platform));
                     ("rating", Some rating)] in
  let upd := object [("rating", Some rating);
                     ("updated_at", Some (VStr (toISOString rt)))] in
  faults (state_of out) = []
  /\ match List.filter (holds (platform_is platform)) (rows s "cp_ratings") with
     | [r] =>
         rows (state_of out) "cp_ratings" =
           map (fun x => if holds (platform_is platform) x then upd ∪ x else x)
               (rows s "cp_ratings")
         /\ resp_of out = res_ok (VObj (upd ∪ r))
     | _ =>
         rows (state_of out) "cp_ratings" =
           (rows s "cp_ratings" ++ [new_row s ins])%list
         /\ resp_of out = res_ok (VObj (new_row s ins))
     end.
Proof.
  intros Hf Hrating out ins upd. subst out. unfold serve. cbn [handler].
  unfold put_cp_ratings_platform. cbv zeta. rewrite Hrating.
  cbn [is_undefined].
  erewrite try_catch_await.
  2: { rewrite step_no_faults by exact Hf. apply exec_select_single. }
  fold (platform_is platform).
  destruct (List.filter (holds (platform_is platform)) (rows s "cp_ratings"))
    as [|r [|r' l]] eqn:Hfilter; cbn [data ok fail truthy].
  - erewrite try_catch_single
      by (rewrite step_no_faults by exact Hf; apply exec_insert).
    unfold resp_of, state_of. cbn [fst snd error data ok faults].
    split; [exact Hf|]. split; [|reflexivity].
    unfold rows at 1. cbn [tables]. rewrite lookup_insert_eq. reflexivity.
  - erewrite try_catch_single.
    2: { rewrite step_no_faults by exact Hf. rewrite exec_update.
         fold (platform_is platform). rewrite Hfilter. reflexivity. }
    unfold resp_of, state_of. cbn [fst snd error data ok].
    split; [exact Hf|]. split; [|reflexivity].
    apply rows_set_rows_eq.
  - erewrite try_catch_single
      by (rewrite step_no_faults by exact Hf; apply exec_insert).
    unfold resp_of, state_of. cbn [fst snd error data ok faults].
    split; [exact Hf|]. split; [|reflexivity].
    unfold rows at 1. cbn [tables]. rewrite lookup_insert_eq. reflexivity.
Qed.

Lemma filter_app_length (P : obj -> bool) (l : list obj) (x : obj) :
  length (List.filter P (l ++ [x])%list) =
    (length (List.filter P l) + (if P x then 1 else 0))%nat.
Proof.
  rewrite List.filter_app, List.length_app. cbn.
  destruct (P x); reflexivity.
Qed.

(** One served request keeps the platforms unique. *)
Lemma serve_keeps_unique rt e req s :
  faults s = [] ->
  unique_platforms (rows s "cp_ratings") ->
  faults (state_of (serve step rt e req s)) = []
  /\ unique_platforms (rows (state_of (serve step rt e req s)) "cp_ratings").
Proof.
  intros Hf Huniq.
  assert (Hcase : (exists platform, e = PUT_cp_ratings platform)
                  \/ (forall platform, e <> PUT_cp_ratings platform)).
  { destruct e; try (right; intros p; discriminate). left. eauto. }
  destruct Hcase as [[platform ->] | Hother].
  - destruct (body req !! "rating") as [rating|] eqn:Hrating.
    + destruct (put_cp_ratings_rows rt platform req rating s Hf Hrating)
        as [Hf' Hrows].
      split; [exact Hf'|]. intros p.
      destruct (List.filter (holds (platform_is platform))
                  (rows s "cp_ratings")) as [|r [|r' l]] eqn:Hfilter.
      * destruct Hrows as [-> _]. rewrite filter_app_length.
        rewrite holds_platform_new_row.
        destruct (String.eqb_spec platform p) as [<- | _].
        -- rewrite Hfilter. cbn. lia.
        -- specialize (Huniq p). lia.
      * destruct Hrows as [-> _].
        rewrite filter_map_same; [apply Huniq|].
        intros x. destruct (holds (platform_is platform) x); [|reflexivity].
        apply holds_platform_union.
        etransitivity; [apply lookup_object | reflexivity].
      * specialize (Huniq platform). rewrite Hfilter in Huniq.
        cbn in Huniq. lia.
    + unfold serve. cbn [handler]. unfold put_cp_ratings_platform.
      cbv zeta. rewrite Hrating. cbn [is_undefined].
      rewrite try_catch_ret. unfold state_of. cbn [fst snd].
      split; assumption.
  - unfold serve. rewrite state_of_try_catch.
    destruct (run_spares "cp_ratings" (handler rt e req)
                (handler_spares_ratings rt e req Hother) s Hf) as [Hr Hf'].
    split; [exact Hf'|]. rewrite Hr. exact Huniq.
Qed.

(** X17.  On a store that meets no fault and whose [cp_ratings] table holds at
    most one row per platform, [PUT /cp-ratings/:platform] with a rating in
    the body appends the row [{platform, rating}] (with the [id] and
    [created_at] the store assigns) when no row has that platform, and
    otherwise sets [rating] and [updated_at] in the row of that platform,
    leaving the other rows and the number of rows as they were; and after
    any sequence of requests, to any routes, served one after the other, the
    table still holds at most one row per platform. *)
Theorem rating_upsert_keeps_platforms_unique :
  (forall rt platform req rating (s : Store.t),
     faults s = [] ->
     body req !! "rating" = Some rating ->
     unique_platforms (rows s "cp_ratings") ->
     let out := serve step rt (PUT_cp_ratings platform) req s in
     let ins := object [("platform", Some (VStr platform));
                        ("rating", Some rating)] in
     let upd := object [("rating", Some rating);
                        ("updated_at", Some (VStr (toISOString rt)))] in
     (List.filter (holds (platform_is platform)) (rows s "cp_ratings") = [] ->
      rows (state_of out) "cp_ratings" =
        (rows s "cp_ratings" ++ [new_row s ins])%list
      /\ resp_of out = res_ok (VObj (new_row s ins)))
     /\ (forall r,
           In r (rows s "cp_ratings") ->
           holds (platform_is platform) r = true ->
           rows (state_of out) "cp_ratings" =
             map (fun x => if holds (platform_is platform) x
                           then upd ∪ x else x)
                 (rows s "cp_ratings")
           /\ length (rows (state_of out) "cp_ratings")
              = length (rows s "cp_ratings")
           /\ resp_of out = res_ok (VObj (upd ∪ r))
           /\ (upd ∪ r) !! "rating" = Some rating
           /\ (upd ∪ r) !! "updated_at" = Some (VStr (toISOString rt)))
     /\ unique_platforms (rows (state_of out) "cp_ratings"))
  /\
  (forall (reqs : list (env * route * request)) (s : Store.t),
     faults s = [] ->
     unique_platforms (rows s "cp_ratings") ->
     unique_platforms (rows (serve_all reqs s) "cp_ratings")).
Proof.
  split.
  - intros rt platform req rating s Hf Hrating Huniq out ins upd.
    destruct (put_cp_ratings_rows rt platform req rating s Hf Hrating)
      as [_ Hrows]. fold out ins upd in Hrows.
    split; [|split].
    + intros Hnone. rewrite Hnone in Hrows. exact Hrows.
    + intros r Hin Hholds.
      assert (Hr : In r (List.filter (holds (platform_is platform))
                           (rows s "cp_ratings")))
        by (apply filter_In; split; assumption).
      destruct (List.filter (holds (platform_is platform))
                  (rows s "cp_ratings")) as [|r0 [|r' l]] eqn:Hfilter.
      * destruct Hr.
      * destruct Hr as [<- | []]. destruct Hrows as [Hrows Hresp].
        split; [exact Hrows|]. split; [rewrite Hrows; apply length_map|].
        split; [exact Hresp|]. split.
        -- apply lookup_union_Some_l.
           etransitivity; [apply lookup_object | reflexivity].
        -- apply lookup_union_Some_l.
           etransitivity; [apply lookup_object | reflexivity].
      * specialize (Huniq platform). rewrite Hfilter in Huniq.
        cbn in Huniq. lia.
    + apply (serve_keeps_unique rt (PUT_cp_ratings platform) req s Hf Huniq).
  - intros reqs. induction reqs as [|[[rt e] req] rest IH]; intros s Hf Huniq.
    + exact Huniq.
    + cbn [serve_all].
      destruct (serve_keeps_unique rt e req s Hf Huniq) as [Hf' Huniq'].
      apply IH; assumption.
Qed.

(** Two PUTs for a new platform on a table with two ratings: one row is
    added, and the platforms stay unique. *)
Lemma rating_upsert_keeps_platforms_unique_witness :
  let put n := (sample_env, PUT_cp_ratings "codechef",
                request_of [("rating", Some (VNum n))]) in
  faults sample_ratings = []
  /\ unique_platforms (rows sample_ratings "cp_ratings")
  /\ unique_platforms
       (rows (serve_all [put 1600; put 1700] sample_ratings) "cp_ratings")
  /\ length (rows (serve_all [put 1600; put 1700] sample_ratings) "cp_ratings")
     = 3%nat.
Proof.
  intros put.
  assert (Huniq : unique_platforms (rows sample_ratings "cp_ratings")).
  { intros p. change (rows sample_ratings "cp_ratings") with
      [object [("id", Some (VNum 1)); ("platform", Some (VStr "codeforces"));
               ("rating", Some (VNum 1500))];
       object [("id", Some (VNum 2)); ("platform", Some (VStr "leetcode"));
               ("rating", Some (VNum 1800))]].
    cbn [List.filter].
    change (holds (platform_is p) (object [("id", Some (VNum 1));
              ("platform", Some (VStr "codeforces"));
              ("rating", Some (VNum 1500))]))
      with (String.eqb "codeforces" p).
    change (holds (platform_is p) (object [("id", Some (VNum 2));
              ("platform", Some (VStr "leetcode"));
              ("rating", Some (VNum 1800))]))
      with (String.eqb "leetcode" p).
    destruct (String.eqb_spec "codeforces" p) as [Hp | _];
      destruct (String.eqb_spec "leetcode" p) as [Hq | _];
      try (rewrite <- Hp in Hq; discriminate Hq); cbn; lia. }
  split; [reflexivity|]. split; [exact Huniq|]. split.
  - destruct rating_upsert_keeps_platforms_unique as [_ H].
    apply H; [reflexivity | exact Huniq].
  - reflexivity.
Defined.

(** C1.  The code fails the claim where the read of the upsert fails.  One
    writer sends [PUT /cp-ratings/leetcode] twice to an empty table, with
    ratings 1800 and 1900.  The first request reads, finds no row and
    inserts, leaving one row for the platform.  The read of the second
    request fails with ["fetch failed"]; the handler never looks at the
    error of that read, takes the platform for new, inserts a second row and
    answers 200: the table holds two rows for [leetcode], the first with its
    rating still 1800. *)
Lemma second_put_after_failed_read_duplicates :
  let put n := request_of [("rating", Some (VNum n))] in
  let first := serve step sample_env (PUT_cp_ratings "leetcode") (put 1800)
                 flaky_ratings in
  let second := serve step sample_env_later (PUT_cp_ratings "leetcode")
                  (put 1900) (state_of first) in
  rows flaky_ratings "cp_ratings" = []
  /\ status (resp_of first) = 200
  /\ map (fun r => (r !! "platform", r !! "rating"))
       (rows (state_of first) "cp_ratings")
     = [(Some (VStr "leetcode"), Some (VNum 1800))]
  /\ trace_of second =
       [(QSelect "cp_ratings" "*" [platform_is "leetcode"] None true,
         {| data := VNull; error := Some timed_out |});
        (QInsert "cp_ratings" (object [("platform", Some (VStr "leetcode"));
                                       ("rating", Some (VNum 1900))]),
         {| data := VObj (new_row (state_of first)
                            (object [("platform", Some (VStr "leetcode"));
                                     ("rating", Some (VNum 1900))]));
            error := None |})]
  /\ status (resp_of second) = 200
  /\ get_field (json (resp_of second)) "success" = Some (VBool true)
  /\ map (fun r => (r !! "platform", r !! "rating"))
       (rows (state_of second) "cp_ratings")
     = [(Some (VStr "leetcode"), Some (VNum 1800));
        (Some (VStr "leetcode"), Some (VNum 1900))]
  /\ ~ unique_platforms (rows (state_of second) "cp_ratings").
Proof.
  repeat split.
  intros Huniq. specialize (Huniq "leetcode"). vm_compute in Huniq. lia.
Qed.
End RatingUpsert.

(** ** Error translation *)

Section ErrorTranslation.
Import Store StoreFacts.

(** C3, as stated, fails: the read of [GET /daily-logs/piyush/:date] on a
    store without a row for the date resolves to an error (code [PGRST116]),
    and the response is 200 with [success: true], not a 500. *)
Lemma no_row_error_answers_200 :
  let out := serve step sample_env (GET_daily_logs_piyush_date "2024-01-01")
               empty_request (init ∅) in
  (exists c r, trace_of out = [(c, r)] /\ error r = Some PGRST116)
  /\ status (resp_of out) = 200
  /\ json (resp_of out) = envelope true VNull VNull.
Proof.
  split; [|split]; [|reflexivity|reflexivity].
  do 2 eexists. split; reflexivity.
Qed.

(** The error of the first delete of [DELETE /habits/:id] is dropped: the
    response is a success although the entries of the habit are still
    stored. *)
Lemma entries_delete_error_is_dropped :
  let out := serve step sample_env (DELETE_habits "7") empty_request
               sample_habits_failing in
  (exists r, nth_error (trace_of out) 0
             = Some (QDelete "habit_entries" (c_eq "habit_id" (Some (VStr "7"))), r)
             /\ error r = Some permission_denied)
  /\ resp_of out = res_ok (id_object "7")
  /\ rows (state_of out) "habit_entries" = rows sample_habits "habit_entries"
  /\ rows (state_of out) "habits"
     = [object [("id", Some (VNum 8)); ("name", Some (VStr "read"))]].
Proof.
  split; [|split; [|split]]; try reflexivity.
  eexists. split; reflexivity.
Qed.

(** The error of the initial read of [PUT /cp-ratings/:platform] is dropped
    as well: a read that fails is taken for "no row", and the upsert inserts
    although the platform has a row. *)
Lemma failed_read_makes_upsert_insert :
  let out := serve step sample_env (PUT_cp_ratings "leetcode")
               (request_of [("rating", Some (VNum 1900))])
               sample_ratings_failing in
  calls_of out =
    [QSelect "cp_ratings" "*" [c_eq "platform" (Some (VStr "leetcode"))]
       None true;
     QInsert "cp_ratings" (object [("platform", Some (VStr "leetcode"));
                                   ("rating", Some (VNum 1900))])]
  /\ status (resp_of out) = 200
  /\ length (List.filter (holds (platform_is "leetcode"))
                (rows (state_of out) "cp_ratings")) = 2%nat.
Proof. repeat split. Qed.

Section AnyBackend.
Context {S : Type} (backend : S -> call -> result * S).

Lemma trace_of_await c k s :
  trace_of (try_catch backend (Await c k) s) =
    (c, (backend s c).1)
      :: trace_of (try_catch backend (k (backend s c).1) (backend s c).2).
Proof.
  destruct (backend s c) as [r s1] eqn:Hb.
  rewrite (try_catch_await backend c k s r s1 Hb). reflexivity.
Qed.

Lemma resp_of_await c k s :
  resp_of (try_catch backend (Await c k) s) =
    resp_of (try_catch backend (k (backend s c).1) (backend s c).2).
Proof.
  destruct (backend s c) as [r s1] eqn:Hb.
  rewrite (try_catch_await backend c k s r s1 Hb). reflexivity.
Qed.

(** A fatal error ends the calls and decides the response. *)
Lemma checks_errors_sound e (p : prog response) :
  checks_errors e p ->
  forall s pre c r post err,
    trace_of (try_catch backend p s) = (pre ++ (c, r) :: post)%list ->
    error r = Some err -> fatal e c err ->
    post = [] /\ resp_of (try_catch backend p s) = catch_block err.
Proof.
  induction 1 as [r0 | e0 | c0 k _ IH Hthrow];
    intros s pre c r post err Htr Herr Hfatal.
  - destruct pre; discriminate Htr.
  - destruct pre; discriminate Htr.
  - rewrite trace_of_await in Htr. rewrite resp_of_await.
    destruct pre as [|x pre]; cbn [app] in Htr.
    + inversion Htr as [[Hc Hr Hpost]]. subst c.
      rewrite Hr in *. rewrite (Hthrow r err Herr Hfatal) in *.
      split; reflexivity.
    + inversion Htr as [[Hx Hrest]]. eapply IH; eassumption.
Qed.

Lemma calls_fresh_sound seen (p : prog response) :
  calls_fresh seen p ->
  forall s, NoDup (calls_of (try_catch backend p s))
            /\ forall c, In c (calls_of (try_catch backend p s)) -> ~ In c seen.
Proof.
  induction 1 as [seen r0 | seen e0 | seen c0 k Hnew _ IH]; intros s.
  - split; [constructor | intros c []].
  - split; [constructor | intros c []].
  - unfold calls_of. rewrite trace_of_await. cbn [map fst].
    destruct (IH (backend s c0).1 (backend s c0).2) as [Hnd Hseen].
    unfold calls_of in Hnd, Hseen. split.
    + apply NoDup_cons. split; [|exact Hnd].
      rewrite list_elem_of_In.
      intros Hin. apply (Hseen c0 Hin). left. reflexivity.
    + intros c [<- | Hin]; [exact Hnew|].
      intros Hs. apply (Hseen c Hin). right. exact Hs.
Qed.
End AnyBackend.

Ltac unfold_handlers :=
  cbn [handler];
  unfold get_health, list_by_profile, list_all, update_by_id, delete_by_id,
    post_todos, post_habits, delete_habits_id, get_habit_entries,
    post_habit_entries, get_daily_log_by_date, post_daily_logs_piyush,
    post_daily_logs_shruti, post_contest_logs, put_cp_ratings_platform,
    get_a2z_progress, put_a2z_progress, post_blind75, post_courses,
    post_certificates, post_projects, post_skills, post_case_studies,
    post_guesstimates, post_case_competitions, post_upload_certificate,
    post_upload_case_competition_doc;
  cbv zeta.

Ltac case_program :=
  match goal with
  | |- _ _ (if ?b then _ else _) => destruct b
  | |- _ _ (match ?x with _ => _ end) => destruct x eqn:?
  | |- _ _ (throw_or_json _) => unfold throw_or_json
  | |- _ _ (upload_response _ _ _ _) => unfold upload_response
  end.

Ltac fatal_thrown :=
  let r := fresh "r" in
  let err := fresh "err" in
  let Herr := fresh "Herr" in
  let Hign := fresh "Hign" in
  let Htr := fresh "Htr" in
  intros r err Herr [Hign Htr];
  cbn in Hign;
  first
    [ discriminate Hign
    | cbv beta; unfold throw_or_json, upload_response; rewrite Herr;
      first
        [ reflexivity
        | destruct (String.eqb_spec (err_code err) "PGRST116") as [Hc | Hc];
          [ exfalso; exact (Htr eq_refl Hc) | reflexivity ] ] ].

Lemma handler_checks_errors rt e req : checks_errors e (handler rt e req).
Proof.
  destruct e; unfold_handlers;
    repeat first
      [ apply ce_ret
      | apply ce_throw
      | apply ce_await; [intros ? | fatal_thrown]
      | case_program ].
Qed.

Ltac not_seen :=
  cbn [In]; intros Hseen;
  repeat match goal with
         | H : _ \/ _ |- _ => destruct H as [H | H]
         end;
  first [ contradiction | discriminate ].

Lemma handler_calls_fresh rt e req : calls_fresh [] (handler rt e req).
Proof.
  destruct e; unfold_handlers;
    repeat first
      [ apply cf_ret
      | apply cf_throw
      | apply cf_await; [not_seen | intros ?]
      | case_program ].
Qed.

Lemma validation_fails_400 {S : Type} (backend : S -> call -> result * S)
    rt e req s :
  validation_fails e req = true ->
  exists msg, serve backend rt e req s = (res_400 msg, s, []).
Proof.
  unfold serve.
  destruct e;
    cbn [validation_fails needs_profile required_fields existsb];
    try discriminate; unfold_handlers;
    repeat match goal with
           | |- context [truthy (body req !! ?k)] =>
               destruct (truthy (body req !! k))
           end;
    cbn [negb orb]; try discriminate; intros H; try rewrite H;
    eexists; reflexivity.
Qed.

(** C3, amended.  For every route and every backend: when a call resolves to
    an error, and it is a call whose error the handler looks at (every call
    but the first delete of the habit deletion and the initial read of the
    two upserts), and the error is not the "no row" code [PGRST116] on the
    single-row read of the two fetch-by-date routes or of
    [GET /a2z-progress], then no further call is issued and the response is
    HTTP 500 with [success: false], [data: null] and the error's message;
    on the two fetch-by-date routes a [PGRST116] error gives the success
    envelope with [data: null], and on [GET /a2z-progress] it is followed by
    the insert of the default row; a request that fails validation gets HTTP
    400 with [success: false] and [data: null], without any call; and no
    call is issued twice. *)
Theorem inspected_errors_become_500 :
  forall (S : Type) (backend : S -> call -> result * S) rt e req s,
    let out := serve backend rt e req s in
    (forall pre c r post err,
       trace_of out = (pre ++ (c, r) :: post)%list ->
       error r = Some err ->
       error_ignored e c = false ->
       (no_row_translated e c = true -> err_code err <> "PGRST116") ->
       post = []
       /\ resp_of out =
            {| status := 500;
               json := envelope false VNull (VStr (err_message err)) |})
    /\ (forall c r err,
          daily_log_route e <> None ->
          In (c, r) (trace_of out) ->
          error r = Some err -> err_code err = "PGRST116" ->
          resp_of out = {| status := 200; json := envelope true VNull VNull |})
    /\ (forall c r err post,
          e = GET_a2z_progress ->
          trace_of out = (c, r) :: post ->
          error r = Some err -> err_code err = "PGRST116" ->
          map fst post = [QInsert "a2z_progress" a2z_defaults])
    /\ (validation_fails e req = true ->
        exists msg,
          out = ({| status := 400; json := envelope false VNull (VStr msg) |},
                 s, []))
    /\ NoDup (calls_of out).
Proof.
  intros S backend rt e req s out. subst out.
  split; [|split; [|split; [|split]]].
  - intros pre c r post err Htr Herr Hign Hno.
    apply (checks_errors_sound backend e (handler rt e req)
             (handler_checks_errors rt e req) s pre c r post err Htr Herr).
    split; assumption.
  - intros c r err Hroute Hin Herr Hcode.
    destruct (daily_log_route e) as [[table date]|] eqn:He;
      [|contradiction].
    revert Hin. unfold serve.
    rewrite (daily_log_route_handler rt e req table date He).
    destruct (backend s (QSelect table "*"
                [c_eq "date" (Some (VStr date))] None true)) as [r0 s1] eqn:Hb.
    rewrite (serve_daily_log backend table date s r0 s1 Hb).
    unfold trace_of, resp_of. cbn [fst snd].
    intros [Heq | []]. inversion Heq; subst. rewrite Herr, Hcode.
    reflexivity.
  - intros c r err post -> . unfold serve. cbn [handler].
    destruct (backend s (QSelect "a2z_progress" "*" [] None true))
      as [r1 s1] eqn:H1.
    destruct (backend s1 (QInsert "a2z_progress" a2z_defaults))
      as [r2 s2] eqn:H2.
    rewrite (serve_a2z_get backend s r1 s1 r2 s2 H1 H2).
    destruct (error r1) as [e1|] eqn:He1.
    + destruct (String.eqb_spec (err_code e1) "PGRST116") as [_ | Hne];
        unfold trace_of; cbn [snd]; intros Htr Herr Hcode;
        inversion Htr; subst.
      * reflexivity.
      * rewrite He1 in Herr. inversion Herr; subst. contradiction.
    + unfold trace_of. cbn [snd]. intros Htr Herr. inversion Htr; subst.
      rewrite He1 in Herr. discriminate.
  - apply validation_fails_400.
  - apply (calls_fresh_sound backend [] (handler rt e req)
             (handler_calls_fresh rt e req) s).
Qed.
End ErrorTranslation.

(** ** What every handler does and never does *)

Ltac open_handlers :=
  cbn [handler];
  unfold get_health, list_by_profile, list_all, update_by_id, delete_by_id,
    post_todos, post_habits, delete_habits_id, get_habit_entries,
    post_habit_entries, get_daily_log_by_date, post_daily_logs_piyush,
    post_daily_logs_shruti, post_contest_logs, put_cp_ratings_platform,
    get_a2z_progress, put_a2z_progress, post_blind75, post_courses,
    post_certificates, post_projects, post_skills, post_case_studies,
    post_guesstimates, post_case_competitions, post_upload_certificate,
    post_upload_case_competition_doc;
  cbv zeta.

Ltac split_program :=
  match goal with
  | |- _ (if ?b then _ else _) => destruct b
  | |- _ (match ?x with _ => _ end) => destruct x eqn:?
  | |- _ (throw_or_json _) => unfold throw_or_json
  | |- _ (upload_response _ _ _ _) => unfold upload_response
  end.

Ltac decide_checks req :=
  repeat match goal with
         | H : context [truthy (body req !! ?k)] |- _ =>
             destruct (truthy (body req !! k))
         | |- context [truthy (body req !! ?k)] =>
             destruct (truthy (body req !! k))
         end.

Section Shapes.
Import Store StoreFacts.

Section AnyBackend.
Context {S : Type} (backend : S -> call -> result * S).

Lemma state_of_await c k s :
  state_of (try_catch backend (Await c k) s) =
    state_of (try_catch backend (k (backend s c).1) (backend s c).2).
Proof.
  destruct (backend s c) as [r s1] eqn:Hb.
  rewrite (try_catch_await backend c k s r s1 Hb). reflexivity.
Qed.

Lemma only_calls_sound (P : call -> Prop) (p : prog response) :
  only_calls P p ->
  forall s, Forall (fun cr => P cr.1) (trace_of (try_catch backend p s)).
Proof.
  induction 1 as [r | err | c k Hc _ IH]; intros s.
  - constructor.
  - constructor.
  - rewrite trace_of_await. constructor; [exact Hc | apply IH].
Qed.

Lemma answers_ok_sound (p : prog response) :
  answers_ok p ->
  forall s, (exists d, resp_of (try_catch backend p s) = res_ok d)
            \/ (exists err, resp_of (try_catch backend p s) = catch_block err).
Proof.
  induction 1 as [d | err | c k _ IH]; intros s.
  - left. exists d. reflexivity.
  - right. exists err. reflexivity.
  - rewrite resp_of_await. apply IH.
Qed.

Lemma at_most_sound n (p : prog response) :
  at_most n p ->
  forall s, (length (trace_of (try_catch backend p s)) <= n)%nat.
Proof.
  induction 1 as [n r | n err | n c k _ IH]; intros s.
  - cbn. lia.
  - cbn. lia.
  - rewrite trace_of_await. cbn [length]. specialize (IH (backend s c).1
      (backend s c).2). lia.
Qed.
End AnyBackend.

(** A request that passes validation is answered by a success envelope or
    through the [catch] block. *)
Lemma handler_answers_ok rt e req :
  e <> GET_root ->
  validation_fails e req = false ->
  answers_ok (handler rt e req).
Proof.
  intros Hroot.
  destruct e; try (exfalso; apply Hroot; reflexivity);
    cbn [validation_fails needs_profile required_fields existsb];
    open_handlers; intros Hv; decide_checks req;
    cbn [negb orb] in Hv |- *; try discriminate Hv; try rewrite Hv;
    repeat first
      [ apply ao_ret
      | apply ao_throw
      | apply ao_await; intros ?
      | split_program ].
Qed.



(** X1.  Every response, of every route but the health check, is one of the
    three envelopes: status 200 with [success: true] and [error: null],
    status 400 with [success: false], [data: null] and a message, or status
    500 with [success: false], [data: null] and a message. *)
Theorem response_is_an_envelope :
  forall (S : Type) (backend : S -> call -> result * S) rt e req s,
    e <> GET_root ->
    let r := resp_of (serve backend rt e req s) in
    (exists d, r = {| status := 200; json := envelope true d VNull |})
    \/ (exists msg,
          r = {| status := 400; json := envelope false VNull (VStr msg) |})
    \/ (exists msg,
          r = {| status := 500; json := envelope false VNull (VStr msg) |}).
Proof.
  intros S backend rt e req s Hroot r. subst r.
  destruct (validation_fails e req) eqn:Hv.
  - destruct (validation_fails_400 backend rt e req s Hv) as [msg ->].
    right. left. exists msg. reflexivity.
  - destruct (answers_ok_sound backend (handler rt e req)
                (handler_answers_ok rt e req Hroot Hv) s) as [[d Hd] | [err He]].
    + left. exists d. exact Hd.
    + right. right. exists (err_message err). exact He.
Qed.

Lemma response_is_an_envelope_witness :
  POST_todos <> GET_root
  /\ exists msg,
       resp_of (serve step sample_env POST_todos empty_request (init ∅))
       = {| status := 400; json := envelope false VNull (VStr msg) |}.
Proof.
  assert (Hne : POST_todos <> GET_root) by discriminate.
  split; [exact Hne|].
  destruct (response_is_an_envelope Store.t step sample_env POST_todos
              empty_request (init ∅) Hne) as [[d Hd] | [Hm | [msg Hm]]].
  - discriminate Hd.
  - exact Hm.
  - discriminate Hm.
Defined.

(** X2.  A response has status 400 exactly when the request fails
    validation, and then no call was issued and the backend is in the state
    it was in. *)
Theorem status_400_iff_validation_fails :
  forall (S : Type) (backend : S -> call -> result * S) rt e req s,
    let out := serve backend rt e req s in
    (status (resp_of out) = 400 <-> validation_fails e req = true)
    /\ (status (resp_of out) = 400 ->
        trace_of out = [] /\ state_of out = s).
Proof.
  intros S backend rt e req s out. subst out.
  destruct (validation_fails e req) eqn:Hv.
  - destruct (validation_fails_400 backend rt e req s Hv) as [msg ->].
    split; [split; reflexivity|]. intros _. split; reflexivity.
  - assert (Hne : status (resp_of (serve backend rt e req s)) <> 400).
    { assert (Hcase : e = GET_root \/ e <> GET_root)
        by (destruct e; first [left; reflexivity | right; discriminate]).
      destruct Hcase as [-> | Hroot]; [discriminate|].
      destruct (answers_ok_sound backend (handler rt e req)
                  (handler_answers_ok rt e req Hroot Hv) s)
        as [[d Hd] | [err He]]; unfold serve;
        [rewrite Hd | rewrite He]; discriminate. }
    split; [split; [intros H; destruct (Hne H) | discriminate]|].
    intros H. destruct (Hne H).
Qed.

Lemma handler_at_most_two rt e req : at_most 2 (handler rt e req).
Proof.
  destruct e; open_handlers;
    repeat first
      [ apply am_ret
      | apply am_throw
      | apply am_await; intros ?
      | split_program ].
Qed.

Lemma handler_at_most_one rt e req :
  two_step e = false -> at_most 1 (handler rt e req).
Proof.
  destruct e; cbn [two_step]; try discriminate; intros _; open_handlers;
    repeat first
      [ apply am_ret
      | apply am_throw
      | apply am_await; intros ?
      | split_program ].
Qed.

(** X3.  No request makes its handler issue more than two calls, and only
    the habit deletion, the habit-entry list, the rating upsert and the two
    [a2z-progress] routes ever issue a second one. *)
Theorem at_most_two_calls :
  forall (S : Type) (backend : S -> call -> result * S) rt e req s,
    (length (trace_of (serve backend rt e req s)) <= 2)%nat
    /\ (two_step e = false ->
        (length (trace_of (serve backend rt e req s)) <= 1)%nat).
Proof.
  intros S backend rt e req s. split.
  - apply (at_most_sound backend 2 _ (handler_at_most_two rt e req)).
  - intros H. apply (at_most_sound backend 1 _ (handler_at_most_one rt e req H)).
Qed.

Lemma handler_only_allowed rt e req :
  only_calls (call_allowed e) (handler rt e req).
Proof.
  destruct e; open_handlers;
    repeat first
      [ apply oc_ret
      | apply oc_throw
      | apply oc_await;
        [ cbn; first [exact I | discriminate | tauto] | intros ? ]
      | split_program ].
Qed.

Lemma step_rows_spared table s c :
  call_spares table c -> rows (step s c).2 table = rows s table.
Proof.
  intros Hc. unfold step. destruct (faults s) as [|[e|] rest].
  - apply exec_spares_rows. exact Hc.
  - reflexivity.
  - rewrite exec_spares_rows by exact Hc. reflexivity.
Qed.

Lemma exec_objects_kept s c :
  (forall b p bytes ct u, c <> QUpload b p bytes ct u) ->
  objects (exec s c).2 = objects s.
Proof.
  intros Hc. destruct c; cbn [exec].
  - destruct single; [|reflexivity].
    destruct (map _ _) as [|r [|r' l]]; reflexivity.
  - reflexivity.
  - destruct (List.filter _ _) as [|r [|r' l]]; reflexivity.
  - reflexivity.
  - exfalso. eapply Hc. reflexivity.
Qed.

Lemma step_objects_kept s c :
  (forall b p bytes ct u, c <> QUpload b p bytes ct u) ->
  objects (step s c).2 = objects s.
Proof.
  intros Hc. unfold step. destruct (faults s) as [|[e|] rest].
  - apply exec_objects_kept. exact Hc.
  - reflexivity.
  - rewrite exec_objects_kept by exact Hc. reflexivity.
Qed.

(** A run whose calls all leave an observation of the store alone leaves it
    alone. *)
Lemma run_keeps {A : Type} (obs : Store.t -> A) (P : call -> Prop)
    (p : prog response) :
  (forall s c, P c -> obs (step s c).2 = obs s) ->
  only_calls P p ->
  forall s, obs (state_of (try_catch step p s)) = obs s.
Proof.
  intros Hstep. induction 1 as [r | err | c k Hc _ IH]; intros s.
  - reflexivity.
  - reflexivity.
  - rewrite state_of_await, IH. apply Hstep. exact Hc.
Qed.

Lemma only_calls_weaken (P Q : call -> Prop) (p : prog response) :
  (forall c, P c -> Q c) -> only_calls P p -> only_calls Q p.
Proof.
  intros HPQ. induction 1; constructor; auto.
Qed.

(** X4.  A request only reads, writes to the tables of its route, or, on an
    upload route, uploads.  So, on the store and whatever faults it meets,
    a request leaves every table outside [writes_to] as it was (every table
    at all for the list, fetch and upload routes) and, unless it is an
    upload, leaves the stored objects as they were. *)
Theorem requests_write_only_their_tables :
  forall rt e req,
    (forall (S : Type) (backend : S -> call -> result * S) s,
       Forall (fun cr => call_allowed e cr.1)
              (trace_of (serve backend rt e req s)))
    /\ (forall (s : Store.t) table,
          ~ In table (writes_to e) ->
          rows (state_of (serve step rt e req s)) table = rows s table)
    /\ (forall s : Store.t,
          upload_route e = None ->
          objects (state_of (serve step rt e req s)) = objects s).
Proof.
  intros rt e req. split; [|split].
  - intros S backend s.
    apply (only_calls_sound backend _ _ (handler_only_allowed rt e req)).
  - intros s table Hout. unfold serve.
    apply (run_keeps (fun s => rows s table) (call_spares table)).
    + intros s0 c Hc. apply step_rows_spared. exact Hc.
    + apply (only_calls_weaken (call_allowed e)); [|apply handler_only_allowed].
      intros c Hc. destruct c; cbn in Hc |- *; try exact I;
        intros ->; contradiction.
  - intros s Hup. unfold serve.
    apply (run_keeps objects
             (fun c => forall b p bytes ct u, c <> QUpload b p bytes ct u)).
    + intros s0 c Hc. apply step_objects_kept. exact Hc.
    + apply (only_calls_weaken (call_allowed e)); [|apply handler_only_allowed].
      intros c Hc. destruct c; cbn in Hc |- *; try discriminate.
      contradiction.
Qed.

(** Deleting a todo leaves the habits alone. *)
Lemma requests_write_only_their_tables_witness :
  ~ In "habits" (writes_to (DELETE_todos "1"))
  /\ rows (state_of (serve step sample_env (DELETE_todos "1") empty_request
                       sample_habits)) "habits"
     = rows sample_habits "habits".
Proof.
  assert (Hout : ~ In "habits" (writes_to (DELETE_todos "1"))).
  { cbn. intros [H | []]. discriminate H. }
  split; [exact Hout|].
  destruct (requests_write_only_their_tables sample_env (DELETE_todos "1")
              empty_request) as (_ & H & _).
  apply H. exact Hout.
Defined.
End Shapes.

(** ** Lists, and what a create or a delete does to them *)

Section Lists.
Import Store StoreFacts StoreSelect.

Lemma insert_sorted_perm (leb : obj -> obj -> bool) (x : obj) (l : list obj) :
  insert_sorted leb x l ≡ₚ x :: l.
Proof.
  induction l as [|y l IH]; cbn [insert_sorted]; [reflexivity|].
  destruct (leb x y); [reflexivity|].
  rewrite IH. apply perm_swap.
Qed.

Lemma sort_perm (leb : obj -> obj -> bool) (l : list obj) : sort leb l ≡ₚ l.
Proof.
  induction l as [|x l IH]; [reflexivity|].
  unfold sort in *. cbn [foldr]. rewrite insert_sorted_perm, IH. reflexivity.
Qed.

Lemma ordered_perm order (l : list obj) : ordered order l ≡ₚ l.
Proof.
  destruct order as [[col [|]]|]; cbn [ordered];
    [apply sort_perm | apply sort_perm | reflexivity].
Qed.

(** A read of whole rows without [.single()]. *)
Lemma exec_select_rows s table conds order :
  exec s (QSelect table "*" conds order false) =
    (ok (VArr (map VObj
                 (ordered order
                    (List.filter (holds_all conds) (rows s table))))), s).
Proof. cbn [exec]. rewrite project_star. reflexivity. Qed.

Lemma In_VObj (row : obj) (l : list obj) :
  In (VObj row) (map VObj l) <-> In row l.
Proof.
  rewrite in_map_iff. split.
  - intros (x & Hx & Hin). inversion Hx; subst. exact Hin.
  - intros Hin. exists row. split; [reflexivity | exact Hin].
Qed.

Lemma perm_In (x : obj) (l l' : list obj) : l ≡ₚ l' -> In x l -> In x l'.
Proof. intros Hp. apply Permutation_in. exact Hp. Qed.

Lemma profile_list_route_handler rt e req table :
  profile_list_route e = Some table ->
  exists col asc, handler rt e req = list_by_profile table col asc req.
Proof.
  destruct e; cbn; intros H; inversion H; subst; do 2 eexists; reflexivity.
Qed.

Lemma full_list_route_handler rt e req table :
  full_list_route e = Some table ->
  exists col asc, handler rt e req = list_all table col asc.
Proof.
  destruct e; cbn; intros H; inversion H; subst; do 2 eexists; reflexivity.
Qed.

(** The list of one profile, on a store that meets no fault. *)
Lemma serve_profile_list rt e req table (s : Store.t) p :
  profile_list_route e = Some table ->
  faults s = [] ->
  query req !! "profile" = Some p -> p <> "" ->
  exists l,
    resp_of (serve step rt e req s) = res_ok (VArr (map VObj l))
    /\ state_of (serve step rt e req s) = s
    /\ l ≡ₚ List.filter (holds (profile_is p)) (rows s table).
Proof.
  intros He Hf Hq Hp.
  destruct (profile_list_route_handler rt e req table He) as (col & asc & Hh).
  unfold serve. rewrite Hh. unfold list_by_profile. cbv zeta. rewrite Hq.
  cbn [truthy_str fmap option_fmap option_map].
  destruct (String.eqb_spec p "") as [Hp' | _]; [contradiction|].
  cbn [negb].
  erewrite try_catch_single
    by (rewrite step_no_faults by exact Hf; apply exec_select_rows).
  eexists. split; [reflexivity|]. split; [reflexivity|].
  rewrite ordered_perm, filter_holds_all_one. reflexivity.
Qed.

(** The list of a whole table, on a store that meets no fault. *)
Lemma serve_full_list rt e req table (s : Store.t) :
  full_list_route e = Some table ->
  faults s = [] ->
  exists l,
    resp_of (serve step rt e req s) = res_ok (VArr (map VObj l))
    /\ state_of (serve step rt e req s) = s
    /\ l ≡ₚ rows s table.
Proof.
  intros He Hf.
  destruct (full_list_route_handler rt e req table He) as (col & asc & Hh).
  unfold serve. rewrite Hh. unfold list_all.
  erewrite try_catch_single
    by (rewrite step_no_faults by exact Hf; apply exec_select_rows).
  eexists. split; [reflexivity|]. split; [reflexivity|].
  rewrite ordered_perm, filter_holds_all_nil. reflexivity.
Qed.

(** X5.  On a store that meets no fault, each of the six per-profile lists,
    asked with a non-empty [profile], answers with the rows of its table
    whose profile is the one asked for, all of them and each once, and each
    of the nine whole-table lists answers with all rows of its table; the
    store is left as it was. *)
Theorem lists_return_the_matching_rows :
  (forall rt e req table (s : Store.t) p,
     profile_list_route e = Some table ->
     faults s = [] ->
     query req !! "profile" = Some p -> p <> "" ->
     exists l,
       resp_of (serve step rt e req s) = res_ok (VArr (map VObj l))
       /\ state_of (serve step rt e req s) = s
       /\ l ≡ₚ List.filter (holds (profile_is p)) (rows s table))
  /\
  (forall rt e req table (s : Store.t),
     full_list_route e = Some table ->
     faults s = [] ->
     exists l,
       resp_of (serve step rt e req s) = res_ok (VArr (map VObj l))
       /\ state_of (serve step rt e req s) = s
       /\ l ≡ₚ rows s table).
Proof.
  split.
  - intros rt e req table s p. apply serve_profile_list.
  - intros rt e req table s. apply serve_full_list.
Qed.

(** The todos of profile "a" among three todos. *)
Lemma lists_return_the_matching_rows_witness :
  profile_list_route GET_todos = Some "todos"
  /\ faults sample_todo_list = []
  /\ exists l,
       resp_of (serve step sample_env GET_todos (query_of [("profile", "a")])
                  sample_todo_list) = res_ok (VArr (map VObj l))
       /\ length l = 2%nat.
Proof.
  split; [reflexivity|]. split; [reflexivity|].
  destruct lists_return_the_matching_rows as [H _].
  destruct (H sample_env GET_todos (query_of [("profile", "a")]) "todos"
              sample_todo_list "a" eq_refl eq_refl eq_refl)
    as (l & Hresp & _ & Hperm); [discriminate|].
  exists l. split; [exact Hresp|].
  rewrite (Permutation_length Hperm). reflexivity.
Defined.
End Lists.

(** ** Create, delete and update against later reads *)

Section RoundTrips.
Import Store StoreFacts StoreSelect.

(** The fields a create handler puts in its insert are fields it reads. *)
Lemma create_keys (e : route) (table : string) rt req :
  create_route e = Some table ->
  exists msg fields,
    handler rt e req =
      (if existsb (fun f => negb (truthy (body req !! f))) (required_fields e)
       then Ret (res_400 msg)
       else Await (QInsert table (object fields)) (fun r => throw_or_json r))
    /\ incl (map fst fields) (required_fields e ++ optional_fields e)%list.
Proof.
  destruct e; cbn [create_route]; intros H; inversion H; subst;
    do 2 eexists;
    (split;
     [ cbn [handler required_fields existsb];
       unfold post_todos, post_habits, post_habit_entries,
         post_daily_logs_piyush, post_daily_logs_shruti, post_contest_logs,
         post_blind75, post_courses, post_certificates, post_projects,
         post_skills, post_case_studies, post_guesstimates,
         post_case_competitions;
       cbv zeta; decide_checks req; reflexivity
     | intros k Hk; cbn in Hk |- *; tauto ]).
Qed.

(** X6.  A create handler forwards nothing but the fields it reads: every
    call of a create route is an insert into its table whose payload has no
    field outside the required and optional fields of the route, so a
    caller cannot set [id], [created_at] or any other column through a
    create. *)
Theorem create_forwards_only_known_fields (e : route) (table : string) :
  create_route e = Some table ->
  forall (S : Type) (backend : S -> call -> result * S) rt req s c,
    In c (calls_of (serve backend rt e req s)) ->
    exists payload : obj,
      c = QInsert table payload
      /\ (forall k, is_Some (payload !! k) ->
            In k (required_fields e ++ optional_fields e)%list)
      /\ payload !! "id" = None
      /\ payload !! "created_at" = None.
Proof.
  intros He S backend rt req s c.
  destruct (create_keys e table rt req He) as (msg & fields & Hshape & Hincl).
  assert (Hkeys : forall k, is_Some (object fields !! k) ->
            In k (required_fields e ++ optional_fields e)%list).
  { intros k [v Hv]. apply Hincl.
    apply (assoc_in k fields v). rewrite <- lookup_object. exact Hv. }
  unfold serve. rewrite Hshape.
  destruct (existsb _ (required_fields e)).
  - intros [].
  - destruct (backend s (QInsert table (object fields))) as [r s1] eqn:Hb.
    rewrite (try_catch_single backend _ s r s1 Hb).
    unfold calls_of, trace_of. cbn [snd map fst].
    intros [<- | []]. exists (object fields).
    split; [reflexivity|]. split; [exact Hkeys|].
    split.
    + destruct (object fields !! "id") eqn:Hid; [|reflexivity].
      exfalso. specialize (Hkeys "id" (ex_intro _ _ Hid)).
      clear -He Hkeys. destruct e; cbn in He, Hkeys; try discriminate He;
        repeat (destruct Hkeys as [Hkeys | Hkeys]; try discriminate Hkeys);
        contradiction.
    + destruct (object fields !! "created_at") eqn:Hid; [|reflexivity].
      exfalso. specialize (Hkeys "created_at" (ex_intro _ _ Hid)).
      clear -He Hkeys. destruct e; cbn in He, Hkeys; try discriminate He;
        repeat (destruct Hkeys as [Hkeys | Hkeys]; try discriminate Hkeys);
        contradiction.
Qed.

(** A todo posted with an [id] and a [completed] flag: neither is
    forwarded. *)
Lemma create_forwards_only_known_fields_witness :
  let req := request_of [("profile", Some (VStr "a"));
                         ("content", Some (VStr "x"));
                         ("id", Some (VNum 99));
                         ("completed", Some (VBool true))] in
  create_route POST_todos = Some "todos"
  /\ exists payload : obj,
       calls_of (serve step sample_env POST_todos req (init ∅))
         = [QInsert "todos" payload]
       /\ payload !! "id" = None
       /\ payload !! "completed" = None.
Proof.
  intros req. split; [reflexivity|].
  destruct (create_forwards_only_known_fields POST_todos "todos" eq_refl
              Store.t step sample_env req (init ∅)
              (QInsert "todos" (object [("profile", Some (VStr "a"));
                                        ("content", Some (VStr "x"))])))
    as (payload & Hc & Hkeys & Hid & _); [left; reflexivity|].
  exists payload. split; [rewrite <- Hc; reflexivity|]. split; [exact Hid|].
  destruct (payload !! "completed") eqn:Hcompleted; [|reflexivity].
  exfalso. specialize (Hkeys "completed" (ex_intro _ _ Hcompleted)).
  cbn in Hkeys. destruct Hkeys as [H | [H | []]]; discriminate H.
Defined.

Lemma truthy_VStr_nonempty p : truthy (Some (VStr p)) = true -> p <> "".
Proof. intros H ->. discriminate H. Qed.

Lemma holds_eq_text col (r : obj) x :
  r !! col = Some (VStr x) -> holds (c_eq col (Some (VStr x))) r = true.
Proof.
  intros H. unfold holds, col_text. rewrite H. cbn.
  apply String.eqb_refl.
Qed.

(** A create on a store that meets no fault: the response, the state. *)
Lemma serve_create (e : route) (table : string) rt req (s : Store.t) :
  create_route e = Some table ->
  faults s = [] ->
  Forall (fun f => truthy (body req !! f) = true) (required_fields e) ->
  exists payload : obj,
    resp_of (serve step rt e req s) = res_ok (VObj (new_row s payload))
    /\ faults (state_of (serve step rt e req s)) = []
    /\ (forall t, rows (state_of (serve step rt e req s)) t =
                  if String.eqb table t
                  then (rows s t ++ [new_row s payload])%list
                  else rows s t)
    /\ (forall f v,
          In f (required_fields e ++ optional_fields e)%list ->
          body req !! f = Some v -> truthy (Some v) = true ->
          new_row s payload !! f = Some v).
Proof.
  intros He Hf Hreq.
  destruct (create_shape e table rt req He)
    as (msg & fields & Hshape & Hfields & _ & _).
  rewrite (existsb_required_false e req Hreq) in Hshape.
  exists (object fields). unfold serve. rewrite Hshape.
  erewrite try_catch_single
    by (rewrite step_no_faults by exact Hf; apply exec_insert).
  unfold resp_of, state_of. cbn [fst snd error data ok faults].
  split; [reflexivity|]. split; [exact Hf|]. split.
  - intros t. unfold rows at 1. cbn [tables].
    destruct (String.eqb_spec table t) as [<- | Hne].
    + rewrite lookup_insert_eq. reflexivity.
    + rewrite lookup_insert_ne by exact Hne. reflexivity.
  - intros f v Hin Hb Ht. apply new_row_payload. rewrite lookup_object.
    eauto.
Qed.

(** X7.  For the six resources owned by a profile (todos, habits, courses,
    certificates, projects, skills), on a store that meets no fault: a
    create whose [profile] is the string [p] answers with the stored row,
    and every later list of that resource for profile [p] contains that
    row. *)
Theorem created_row_is_listed (post get : route) (table : string) :
  In (post, get, table) profile_resources ->
  forall rt req (s : Store.t) p,
    faults s = [] ->
    body req !! "profile" = Some (VStr p) ->
    Forall (fun f => truthy (body req !! f) = true) (required_fields post) ->
    exists row : obj,
      resp_of (serve step rt post req s) = res_ok (VObj row)
      /\ row !! "profile" = Some (VStr p)
      /\ forall rt' q,
           query q !! "profile" = Some p ->
           exists l,
             resp_of (serve step rt' get q
                        (state_of (serve step rt post req s)))
               = res_ok (VArr l)
             /\ In (VObj row) l.
Proof.
  intros Hin rt req s p Hf Hprofile Hreq.
  assert (Hroutes : create_route post = Some table
                    /\ profile_list_route get = Some table
                    /\ In "profile" (required_fields post)).
  { cbn in Hin.
    repeat (destruct Hin as [Hin | Hin];
            [inversion Hin; subst; cbn; auto|]).
    destruct Hin. }
  destruct Hroutes as (Hpost & Hget & Hrequired).
  assert (Htruthy : truthy (Some (VStr p)) = true).
  { rewrite <- Hprofile.
    rewrite Forall_forall in Hreq. apply Hreq.
    apply list_elem_of_In. exact Hrequired. }
  destruct (serve_create post table rt req s Hpost Hf Hreq)
    as (payload & Hresp & Hf' & Hrows & Hfields).
  exists (new_row s payload).
  assert (Hrow : new_row s payload !! "profile" = Some (VStr p)).
  { apply Hfields; [apply in_or_app; left; exact Hrequired | exact Hprofile
                   | exact Htruthy]. }
  split; [exact Hresp|]. split; [exact Hrow|].
  intros rt' q Hq.
  destruct (serve_profile_list rt' get q table _ p Hget Hf' Hq
              (truthy_VStr_nonempty p Htruthy)) as (l & Hl & _ & Hperm).
  exists (map VObj l). split; [exact Hl|].
  apply In_VObj. apply (perm_In _ _ _ (symmetry Hperm)).
  apply filter_In. split.
  - rewrite Hrows, String.eqb_refl. apply in_or_app. right. left. reflexivity.
  - apply holds_eq_text. exact Hrow.
Qed.

(** The end-to-end example: [POST /todos {profile: "a", content: "x"}], then
    [GET /todos?profile=a]. *)
Lemma created_row_is_listed_witness :
  let req := request_of [("profile", Some (VStr "a"));
                         ("content", Some (VStr "x"))] in
  In (POST_todos, GET_todos, "todos") profile_resources
  /\ faults (init ∅) = []
  /\ Forall (fun f => truthy (body req !! f) = true) (required_fields POST_todos)
  /\ exists row l,
       resp_of (serve step sample_env POST_todos req (init ∅))
         = res_ok (VObj row)
       /\ row !! "profile" = Some (VStr "a")
       /\ resp_of (serve step sample_env GET_todos (query_of [("profile", "a")])
                     (state_of (serve step sample_env POST_todos req (init ∅))))
          = res_ok (VArr l)
       /\ In (VObj row) l.
Proof.
  intros req.
  assert (Hin : In (POST_todos, GET_todos, "todos") profile_resources)
    by (left; reflexivity).
  assert (Hreq : Forall (fun f => truthy (body req !! f) = true)
                   (required_fields POST_todos)) by (repeat constructor).
  split; [exact Hin|]. split; [reflexivity|]. split; [exact Hreq|].
  destruct (created_row_is_listed POST_todos GET_todos "todos" Hin
              sample_env req (init ∅) "a" eq_refl eq_refl Hreq)
    as (row & Hresp & Hprofile & Hlist).
  destruct (Hlist sample_env (query_of [("profile", "a")]) eq_refl)
    as (l & Hl & Hinl).
  exists row, l. repeat split; assumption.
Defined.
End RoundTrips.

(** ** Deletes, updates of a missing row, daily logs, failed decoding *)

Section AfterWrites.
Import Store StoreFacts StoreSelect.

Lemma res_ok_inj (d d' : value) : res_ok d = res_ok d' -> d = d'.
Proof.
  intros H. apply (f_equal (fun r => get_field (json r) "data")) in H.
  unfold res_ok, envelope in H. cbn [json get_field] in H.
  rewrite !(lookup_insert_ne _ "success" "data") in H by discriminate.
  rewrite !lookup_insert_eq in H. inversion H. reflexivity.
Qed.

(** A delete on a store that meets no fault. *)
Lemma serve_delete_rows (e : route) (table id : string) rt req (s : Store.t) :
  delete_route e = Some (table, id) ->
  faults s = [] ->
  faults (state_of (serve step rt e req s)) = []
  /\ rows (state_of (serve step rt e req s)) table =
       List.filter (fun r => negb (holds (id_is id) r)) (rows s table).
Proof.
  intros He Hf. unfold serve, id_is.
  destruct (delete_route_handler rt e req table id He) as [[-> ->] | ->].
  - erewrite serve_delete_habits.
    2: { rewrite step_no_faults by exact Hf. apply exec_delete. }
    2: { rewrite step_no_faults by exact Hf. apply exec_delete. }
    unfold state_of. cbn [fst snd]. split; [exact Hf|].
    rewrite rows_set_rows_eq. rewrite rows_set_rows_ne by discriminate.
    reflexivity.
  - erewrite serve_delete_by_id.
    2: { rewrite step_no_faults by exact Hf. apply exec_delete. }
    unfold state_of. cbn [fst snd]. split; [exact Hf|].
    apply rows_set_rows_eq.
Qed.

Lemma profile_list_needs_profile e table :
  profile_list_route e = Some table -> needs_profile e = true.
Proof. destruct e; cbn; intros H; inversion H; reflexivity. Qed.

(** The rows a list answers with are rows of its table. *)
Lemma listed_rows_are_stored rt get q table (s : Store.t) l row :
  profile_list_route get = Some table \/ full_list_route get = Some table ->
  faults s = [] ->
  resp_of (serve step rt get q s) = res_ok (VArr l) ->
  In (VObj row) l -> In row (rows s table).
Proof.
  intros [Hget | Hget] Hf Hresp Hin.
  - destruct (query q !! "profile") as [p|] eqn:Hq.
    + destruct (String.eqb_spec p "") as [-> | Hp].
      * destruct (validation_fails_400 step rt get q s) as [msg Hm].
        { unfold validation_fails.
          rewrite (profile_list_needs_profile get table Hget), Hq.
          reflexivity. }
        rewrite Hm in Hresp. discriminate Hresp.
      * destruct (serve_profile_list rt get q table s p Hget Hf Hq Hp)
          as (l' & Hl' & _ & Hperm).
        rewrite Hl' in Hresp. apply res_ok_inj in Hresp.
        inversion Hresp; subst. apply In_VObj in Hin.
        apply (perm_In _ _ _ Hperm) in Hin. apply filter_In in Hin.
        apply Hin.
    + destruct (validation_fails_400 step rt get q s) as [msg Hm].
      { unfold validation_fails.
        rewrite (profile_list_needs_profile get table Hget), Hq.
        reflexivity. }
      rewrite Hm in Hresp. discriminate Hresp.
  - destruct (serve_full_list rt get q table s Hget Hf)
      as (l' & Hl' & _ & Hperm).
    rewrite Hl' in Hresp. apply res_ok_inj in Hresp.
    inversion Hresp; subst. apply In_VObj in Hin.
    apply (perm_In _ _ _ Hperm). exact Hin.
Qed.

(** X8.  On a store that meets no fault, each of the thirteen delete routes
    removes from its table every row whose [id] is the one given and keeps
    the other rows, in their order; and no later list of that table answers
    with a row of that id. *)
Theorem deleted_row_is_gone (e : route) (table id : string) :
  delete_route e = Some (table, id) ->
  forall rt req (s : Store.t),
    faults s = [] ->
    let s' := state_of (serve step rt e req s) in
    rows s' table = List.filter (fun r => negb (holds (id_is id) r)) (rows s table)
    /\ (forall get rt' q l row,
          profile_list_route get = Some table
          \/ full_list_route get = Some table ->
          resp_of (serve step rt' get q s') = res_ok (VArr l) ->
          In (VObj row) l ->
          holds (id_is id) row = false).
Proof.
  intros He rt req s Hf s'. subst s'.
  destruct (serve_delete_rows e table id rt req s He Hf) as [Hf' Hrows].
  split; [exact Hrows|].
  intros get rt' q l row Hget Hresp Hin.
  pose proof (listed_rows_are_stored rt' get q table _ l row Hget Hf' Hresp Hin)
    as Hstored.
  rewrite Hrows in Hstored. apply filter_In in Hstored.
  destruct Hstored as [_ H]. destruct (holds (id_is id) row);
    [discriminate H | reflexivity].
Qed.

(** Deleting todo 1 of three todos. *)
Lemma deleted_row_is_gone_witness :
  delete_route (DELETE_todos "1") = Some ("todos", "1")
  /\ faults sample_todo_list = []
  /\ length (rows (state_of (serve step sample_env (DELETE_todos "1")
                               empty_request sample_todo_list)) "todos")
     = 2%nat.
Proof.
  split; [reflexivity|]. split; [reflexivity|].
  destruct (deleted_row_is_gone (DELETE_todos "1") "todos" "1" eq_refl
              sample_env empty_request sample_todo_list eq_refl) as [H _].
  rewrite H. reflexivity.
Defined.

(** X9.  On a store that meets no fault, a [PUT /<resource>/:id] for an id
    no row has is answered with status 500 and the store's "no row"
    message, and changes nothing: an update of a missing row is an error,
    unlike a delete. *)
Theorem update_of_missing_row_fails (e : route) (table id : string) :
  update_route e = Some (table, id) ->
  forall rt req (s : Store.t),
    faults s = [] ->
    List.filter (holds (id_is id)) (rows s table) = [] ->
    resp_of (serve step rt e req s) =
      {| status := 500;
         json := envelope false VNull (VStr (err_message PGRST116)) |}
    /\ state_of (serve step rt e req s) = s.
Proof.
  intros He rt req s Hf Hnone. unfold serve.
  rewrite (update_route_handler rt e req table id He). unfold update_by_id.
  cbv zeta.
  erewrite try_catch_single.
  2: { rewrite step_no_faults by exact Hf. rewrite exec_update.
       fold (id_is id). rewrite Hnone. reflexivity. }
  split; reflexivity.
Qed.

Lemma update_of_missing_row_fails_witness :
  update_route (PUT_todos "42") = Some ("todos", "42")
  /\ faults sample_todos = []
  /\ List.filter (holds (id_is "42")) (rows sample_todos "todos") = []
  /\ status (resp_of (serve step sample_env (PUT_todos "42")
                        (request_of [("content", Some (VStr "new"))])
                        sample_todos)) = 500.
Proof.
  split; [reflexivity|]. split; [reflexivity|]. split; [reflexivity|].
  destruct (update_of_missing_row_fails (PUT_todos "42") "todos" "42" eq_refl
              sample_env (request_of [("content", Some (VStr "new"))])
              sample_todos eq_refl eq_refl) as [H _].
  rewrite H. reflexivity.
Defined.

(** X10.  When [Buffer.from] throws on the payload of an upload whose
    required fields are truthy, the response is status 500 with the
    exception's message, and no call is issued: nothing is uploaded. *)
Theorem failed_decoding_uploads_nothing (e : route) (bucket : string) :
  upload_route e = Some bucket ->
  forall (S : Type) (backend : S -> call -> result * S) rt req s err,
    Forall (fun f => truthy (body req !! f) = true) (required_fields e) ->
    Buffer_from rt (body req !! "fileBase64") = inl err ->
    serve backend rt e req s =
      ({| status := 500;
          json := envelope false VNull (VStr (err_message err)) |}, s, []).
Proof.
  intros He S backend rt req s err Hreq Hbuf.
  destruct e; cbn [upload_route] in He; inversion He; subst;
    cbn [required_fields] in Hreq;
    repeat match goal with
           | H : Forall _ (_ :: _) |- _ =>
               let Hx := fresh "Hx" in
               inversion H as [|? ? Hx ?]; subst; clear H
           end;
    unfold serve; cbn [handler];
    unfold post_upload_certificate, post_upload_case_competition_doc;
    cbv zeta;
    repeat match goal with
           | H : truthy _ = true |- _ => rewrite H; clear H
           end;
    cbn [negb orb]; rewrite Hbuf; reflexivity.
Qed.

(** A number where the base64 string should be. *)
Lemma failed_decoding_uploads_nothing_witness :
  let req := request_of [("fileName", Some (VStr "cv.pdf"));
                         ("fileBase64", Some (VNum 7));
                         ("profile", Some (VStr "piyush"))] in
  upload_route POST_upload_certificate = Some "certificates"
  /\ Forall (fun f => truthy (body req !! f) = true)
            (required_fields POST_upload_certificate)
  /\ trace_of (serve step sample_env POST_upload_certificate req (init ∅)) = []
  /\ status (resp_of (serve step sample_env POST_upload_certificate req
                        (init ∅))) = 500.
Proof.
  intros req.
  assert (Hreq : Forall (fun f => truthy (body req !! f) = true)
                   (required_fields POST_upload_certificate))
    by (repeat constructor).
  split; [reflexivity|]. split; [exact Hreq|].
  rewrite (failed_decoding_uploads_nothing POST_upload_certificate
             "certificates" eq_refl Store.t step sample_env req (init ∅)
             (TypeError "The first argument must be of type string")
             Hreq eq_refl).
  split; reflexivity.
Defined.

Lemma daily_log_resource_routes post get table :
  In (post, get, table) daily_log_resources ->
  create_route post = Some table
  /\ In "date" (required_fields post)
  /\ forall d, daily_log_route (get d) = Some (table, d).
Proof.
  cbn. intros [H | [H | []]]; inversion H; subst; cbn; auto.
Qed.

Lemma filter_app_one (P : obj -> bool) (l : list obj) (x : obj) :
  P x = true ->
  List.filter P (l ++ [x])%list = (List.filter P l ++ [x])%list.
Proof. intros H. rewrite List.filter_app. cbn. rewrite H. reflexivity. Qed.

(** The fetch by date after a create, on a store that meets no fault. *)
Lemma fetch_after_create post get table rt req (s : Store.t) d rt' q :
  In (post, get, table) daily_log_resources ->
  faults s = [] ->
  body req !! "date" = Some (VStr d) ->
  Forall (fun f => truthy (body req !! f) = true) (required_fields post) ->
  exists row : obj,
    resp_of (serve step rt post req s) = res_ok (VObj row)
    /\ row !! "date" = Some (VStr d)
    /\ rows (state_of (serve step rt post req s)) table
       = (rows s table ++ [row])%list
    /\ resp_of (serve step rt' (get d) q (state_of (serve step rt post req s)))
       = match List.filter (holds (date_is d)) (rows s table) with
         | [] => res_ok (VObj row)
         | _ => res_ok VNull
         end.
Proof.
  intros Hin Hf Hdate Hreq.
  destruct (daily_log_resource_routes post get table Hin)
    as (Hpost & Hrequired & Hget).
  assert (Htruthy : truthy (Some (VStr d)) = true).
  { rewrite <- Hdate. rewrite Forall_forall in Hreq. apply Hreq.
    apply list_elem_of_In. exact Hrequired. }
  destruct (serve_create post table rt req s Hpost Hf Hreq)
    as (payload & Hresp & Hf' & Hrows & Hfields).
  exists (new_row s payload).
  assert (Hrow : new_row s payload !! "date" = Some (VStr d)).
  { apply Hfields; [apply in_or_app; left; exact Hrequired | exact Hdate
                   | exact Htruthy]. }
  assert (Hrows' : rows (state_of (serve step rt post req s)) table
                   = (rows s table ++ [new_row s payload])%list).
  { rewrite Hrows, String.eqb_refl. reflexivity. }
  split; [exact Hresp|]. split; [exact Hrow|]. split; [exact Hrows'|].
  unfold serve at 1.
  rewrite (daily_log_route_handler rt' (get d) q table d (Hget d)).
  erewrite serve_daily_log.
  2: { rewrite step_no_faults by exact Hf'. apply exec_select_single. }
  fold (date_is d). fold (serve step rt post req s). rewrite Hrows'.
  rewrite filter_app_one by (apply holds_eq_text; exact Hrow).
  unfold resp_of at 1. cbn [fst].
  destruct (List.filter (holds (date_is d)) (rows s table)) as [|r0 l];
    [reflexivity|].
  destruct l; reflexivity.
Qed.

(** X11.  For both daily-log tables, on a store that meets no fault and has
    no row of the date: the create of a log whose [date] is the string [d]
    answers with the stored row, and a later fetch by date [d] answers with
    that same row. *)
Theorem created_log_is_fetched_by_date post get table :
  In (post, get, table) daily_log_resources ->
  forall rt req (s : Store.t) d rt' q,
    faults s = [] ->
    body req !! "date" = Some (VStr d) ->
    Forall (fun f => truthy (body req !! f) = true) (required_fields post) ->
    List.filter (holds (date_is d)) (rows s table) = [] ->
    exists row : obj,
      resp_of (serve step rt post req s) = res_ok (VObj row)
      /\ row !! "date" = Some (VStr d)
      /\ resp_of (serve step rt' (get d) q
                    (state_of (serve step rt post req s)))
         = res_ok (VObj row).
Proof.
  intros Hin rt req s d rt' q Hf Hdate Hreq Hnone.
  destruct (fetch_after_create post get table rt req s d rt' q Hin Hf Hdate
              Hreq) as (row & Hresp & Hrow & _ & Hget).
  exists row. rewrite Hnone in Hget. auto.
Qed.

Lemma created_log_is_fetched_by_date_witness :
  let req := request_of [("date", Some (VStr "2024-02-02"))] in
  In (POST_daily_logs_piyush, GET_daily_logs_piyush_date, "daily_logs_piyush")
     daily_log_resources
  /\ faults sample_logs = []
  /\ exists row : obj,
       row !! "date" = Some (VStr "2024-02-02")
       /\ resp_of (serve step sample_env
                     (GET_daily_logs_piyush_date "2024-02-02") empty_request
                     (state_of (serve step sample_env POST_daily_logs_piyush
                                  req sample_logs)))
          = res_ok (VObj row).
Proof.
  intros req.
  assert (Hin : In (POST_daily_logs_piyush, GET_daily_logs_piyush_date,
                    "daily_logs_piyush") daily_log_resources)
    by (left; reflexivity).
  split; [exact Hin|]. split; [reflexivity|].
  destruct (created_log_is_fetched_by_date _ _ _ Hin sample_env req
              sample_logs "2024-02-02" sample_env empty_request eq_refl
              eq_refl ltac:(repeat constructor) eq_refl)
    as (row & _ & Hrow & Hget).
  exists row. split; assumption.
Defined.

(** X12.  The create of a daily log does not look for a row of the same
    date: on a store that meets no fault and already has a row of date [d],
    it stores a second one, and a later fetch by date [d] answers success
    with [data: null], as for a date without a log. *)
Theorem second_log_of_a_date_hides_both post get table :
  In (post, get, table) daily_log_resources ->
  forall rt req (s : Store.t) d rt' q r0 l,
    faults s = [] ->
    body req !! "date" = Some (VStr d) ->
    Forall (fun f => truthy (body req !! f) = true) (required_fields post) ->
    List.filter (holds (date_is d)) (rows s table) = r0 :: l ->
    let s' := state_of (serve step rt post req s) in
    status (resp_of (serve step rt post req s)) = 200
    /\ length (rows s' table) = Datatypes.S (length (rows s table))
    /\ resp_of (serve step rt' (get d) q s') = res_ok VNull.
Proof.
  intros Hin rt req s d rt' q r0 l Hf Hdate Hreq Hsome s'. subst s'.
  destruct (fetch_after_create post get table rt req s d rt' q Hin Hf Hdate
              Hreq) as (row & Hresp & _ & Hrows & Hget).
  rewrite Hsome in Hget. rewrite Hresp, Hrows, length_app. cbn.
  split; [reflexivity|]. split; [lia | exact Hget].
Qed.

Lemma second_log_of_a_date_hides_both_witness :
  let req := request_of [("date", Some (VStr "2024-01-01"))] in
  In (POST_daily_logs_piyush, GET_daily_logs_piyush_date, "daily_logs_piyush")
     daily_log_resources
  /\ faults sample_logs = []
  /\ resp_of (serve step sample_env (GET_daily_logs_piyush_date "2024-01-01")
                empty_request sample_logs)
     <> res_ok VNull
  /\ resp_of (serve step sample_env (GET_daily_logs_piyush_date "2024-01-01")
                empty_request
                (state_of (serve step sample_env POST_daily_logs_piyush req
                             sample_logs)))
     = res_ok VNull.
Proof.
  intros req.
  assert (Hin : In (POST_daily_logs_piyush, GET_daily_logs_piyush_date,
                    "daily_logs_piyush") daily_log_resources)
    by (left; reflexivity).
  split; [exact Hin|]. split; [reflexivity|]. split.
  - intros H. apply res_ok_inj in H. discriminate H.
  - destruct (second_log_of_a_date_hides_both _ _ _ Hin sample_env req
                sample_logs "2024-01-01" sample_env empty_request _ _
                eq_refl eq_refl ltac:(repeat constructor) eq_refl)
      as (_ & _ & H).
    exact H.
Defined.
End AfterWrites.

(** ** The habit-entry list and the progress singleton *)

Section EntriesAndProgress.
Import Store StoreFacts StoreSelect.

Lemma map_id_objects (l : list obj) :
  map_id (VArr (map VObj l)) = inr (map (fun o : obj => o !! "id") l).
Proof.
  cbn [map_id]. induction l as [|o l IH]; [reflexivity|].
  cbn [map]. rewrite IH. reflexivity.
Qed.

Lemma project_id_lookup (h : obj) : project "id" h !! "id" = h !! "id".
Proof.
  unfold project. cbn [String.eqb Ascii.eqb Bool.eqb andb].
  destruct (h !! "id") as [v|] eqn:Hv.
  - apply lookup_singleton_eq.
  - apply lookup_empty.
Qed.

Lemma holds_in_entry_of (habits : list obj) (entry : obj) :
  holds (c_in "habit_id" (map (fun h : obj => h !! "id") habits)) entry
  = entry_of habits entry.
Proof.
  unfold holds, entry_of. destruct (col_text entry "habit_id") as [x|];
    [|reflexivity].
  induction habits as [|h l IH]; [reflexivity|].
  cbn [map existsb]. rewrite IH. reflexivity.
Qed.

Lemma entry_of_nil (entry : obj) : entry_of [] entry = false.
Proof. unfold entry_of. destruct (col_text entry "habit_id"); reflexivity. Qed.

Lemma filter_false (l : list obj) (P : obj -> bool) :
  (forall x, P x = false) -> List.filter P l = [].
Proof.
  intros H. induction l as [|x l IH]; [reflexivity|].
  cbn. rewrite H. exact IH.
Qed.

(** X13.  On a store that meets no fault, [GET /habit-entries] with a
    non-empty [profile] answers with the entries whose [habit_id] is the
    [id] of a habit of that profile and whose [date] lies within the bounds
    given, all of them and each once; an empty or absent [from] or [to] sets
    no bound; the store is left as it was; and when the profile has no
    habit the answer is the empty list after a single read. *)
Theorem habit_entries_of_a_profile :
  forall rt req (s : Store.t) p,
    faults s = [] ->
    query req !! "profile" = Some p -> p <> "" ->
    let habits := List.filter (holds (profile_is p)) (rows s "habits") in
    let out := serve step rt GET_habit_entries req s in
    exists l,
      resp_of out = res_ok (VArr (map VObj l))
      /\ l ≡ₚ List.filter
                (fun entry =>
                   entry_of habits entry
                   && in_range (query req !! "from") (query req !! "to") entry)
                (rows s "habit_entries")
      /\ state_of out = s
      /\ (habits = [] -> l = [] /\ length (trace_of out) = 1%nat).
Proof.
  intros rt req s p Hf Hq Hp habits out. subst out.
  unfold serve. cbn [handler]. unfold get_habit_entries. cbv zeta.
  rewrite Hq. cbn [truthy_str fmap option_fmap option_map].
  destruct (String.eqb_spec p "") as [Hp' | _]; [contradiction|].
  cbn [negb].
  erewrite try_catch_await
    by (rewrite step_no_faults by exact Hf; reflexivity).
  cbn [exec ordered error data ok]. rewrite filter_holds_all_one.
  fold (profile_is p). fold habits.
  rewrite map_id_objects, map_map.
  rewrite (map_ext _ (fun h : obj => h !! "id") project_id_lookup).
  rewrite length_map.
  destruct habits as [|h hs] eqn:Hhabits.
  - cbn [length Nat.eqb]. exists []. split; [reflexivity|].
    split; [|split; [reflexivity | intros _; split; reflexivity]].
    rewrite filter_false; [reflexivity|].
    intros x. rewrite entry_of_nil. reflexivity.
  - cbn [length Nat.eqb]. rewrite <- Hhabits.
    erewrite try_catch_single
      by (rewrite step_no_faults by exact Hf; apply exec_select_rows).
    unfold resp_of, state_of. cbn [fst snd error data ok].
    eexists. split; [reflexivity|]. split; [|split; [reflexivity|]].
    + rewrite ordered_perm. erewrite filter_ext; [reflexivity|].
      intros entry. unfold holds_all, in_range.
      destruct (truthy_str (query req !! "from")),
        (truthy_str (query req !! "to"));
        cbn [app forallb]; rewrite holds_in_entry_of;
        repeat match goal with
               | |- context [holds ?c ?x] => destruct (holds c x)
               end;
        destruct (entry_of habits entry); reflexivity.
    + rewrite Hhabits. discriminate.
Qed.

(** The entries of profile "a" from 2024-01-02 on. *)
Lemma habit_entries_of_a_profile_witness :
  let req := query_of [("profile", "a"); ("from", "2024-01-02")] in
  faults sample_entries = []
  /\ exists l,
       resp_of (serve step sample_env GET_habit_entries req sample_entries)
         = res_ok (VArr (map VObj l))
       /\ length l = 1%nat.
Proof.
  intros req. split; [reflexivity|].
  destruct (habit_entries_of_a_profile sample_env req sample_entries "a"
              eq_refl eq_refl) as (l & Hresp & Hperm & _); [discriminate|].
  exists l. split; [exact Hresp|].
  rewrite (Permutation_length Hperm). reflexivity.
Defined.

Lemma text_of_ToString (v : value) x : text_of v = Some x -> ToString v = x.
Proof.
  destruct v as [| [|] | n | s0 | l | o]; cbn; intros H; inversion H;
    reflexivity.
Qed.

Lemma holds_own_id (r : obj) :
  holds (c_eq "id" (r !! "id")) r = true <-> is_Some (col_text r "id").
Proof.
  unfold holds. destruct (col_text r "id") as [x|] eqn:Hx.
  - split; [eauto|]. intros _. unfold col_text in Hx.
    destruct (r !! "id") as [v|]; [|discriminate Hx]. cbn in Hx.
    cbn [to_str]. rewrite (text_of_ToString v x Hx). apply String.eqb_refl.
  - split; [discriminate | intros [? H]; discriminate H].
Qed.

(** [PUT /a2z-progress] on a store that meets no fault. *)
Lemma serve_put_a2z rt req (s : Store.t) :
  faults s = [] ->
  let out := serve step rt PUT_a2z_progress req s in
  faults (state_of out) = []
  /\ match rows s "a2z_progress" with
     | [] =>
         resp_of out = res_ok (VObj (new_row s (body req)))
         /\ rows (state_of out) "a2z_progress" = [new_row s (body req)]
     | [r] =>
         if holds (c_eq "id" (r !! "id")) r then
           resp_of out = res_ok (VObj (body req ∪ r))
           /\ rows (state_of out) "a2z_progress" = [body req ∪ r]
         else
           resp_of out = catch_block PGRST116 /\ state_of out = s
     | _ :: _ :: _ =>
         rows (state_of out) "a2z_progress" =
           (rows s "a2z_progress" ++ [new_row s (body req)])%list
     end.
Proof.
  intros Hf out. subst out. unfold serve. cbn [handler].
  unfold put_a2z_progress. cbv zeta.
  erewrite try_catch_await
    by (rewrite step_no_faults by exact Hf; apply exec_select_the_row).
  destruct (rows s "a2z_progress") as [|r [|r' l]] eqn:Hrows;
    cbn [data ok fail truthy negb get_field].
  - erewrite try_catch_single
      by (rewrite step_no_faults by exact Hf; apply exec_insert).
    unfold resp_of, state_of. cbn [fst snd error data ok faults].
    split; [exact Hf|]. split; [reflexivity|].
    unfold rows at 1. cbn [tables]. rewrite lookup_insert_eq, Hrows.
    reflexivity.
  - destruct (holds (c_eq "id" (r !! "id")) r) eqn:Hh.
    + erewrite try_catch_single.
      2: { rewrite step_no_faults by exact Hf. rewrite exec_update, Hrows.
           cbn [List.filter]. rewrite Hh. reflexivity. }
      unfold resp_of, state_of. cbn [fst snd error data ok].
      split; [exact Hf|]. split; [reflexivity|].
      rewrite rows_set_rows_eq. cbn [map]. rewrite Hh. reflexivity.
    + erewrite try_catch_single.
      2: { rewrite step_no_faults by exact Hf. rewrite exec_update, Hrows.
           cbn [List.filter]. rewrite Hh. reflexivity. }
      unfold resp_of, state_of. cbn [fst snd error data fail].
      split; [exact Hf|]. split; reflexivity.
  - erewrite try_catch_single
      by (rewrite step_no_faults by exact Hf; apply exec_insert).
    unfold state_of. cbn [fst snd faults].
    split; [exact Hf|].
    unfold rows at 1. cbn [tables]. rewrite lookup_insert_eq, Hrows.
    reflexivity.
Qed.

(** [GET /a2z-progress] on a store that meets no fault. *)
Lemma serve_get_a2z rt req (s : Store.t) :
  faults s = [] ->
  let out := serve step rt GET_a2z_progress req s in
  faults (state_of out) = []
  /\ match rows s "a2z_progress" with
     | [] =>
         resp_of out = res_ok (VObj (new_row s a2z_defaults))
         /\ rows (state_of out) "a2z_progress" = [new_row s a2z_defaults]
     | [r] =>
         resp_of out = res_ok (VObj r) /\ state_of out = s
         /\ calls_of out = [QSelect "a2z_progress" "*" [] None true]
     | _ :: _ :: _ =>
         rows (state_of out) "a2z_progress" =
           (rows s "a2z_progress" ++ [new_row s a2z_defaults])%list
     end.
Proof.
  intros Hf out. subst out. unfold serve. cbn [handler].
  erewrite serve_a2z_get.
  2: { rewrite step_no_faults by exact Hf. apply exec_select_the_row. }
  2: { rewrite step_no_faults by exact Hf. apply exec_insert. }
  destruct (rows s "a2z_progress") as [|r [|r' l]] eqn:Hrows;
    cbn [error data ok fail err_code PGRST116];
    try change (String.eqb "PGRST116" "PGRST116") with true; cbv iota;
    unfold resp_of, state_of, calls_of, trace_of;
    cbn [fst snd faults map]; (split; [exact Hf|]).
  - split; [reflexivity|].
    unfold rows at 1. cbn [tables]. rewrite lookup_insert_eq.
    reflexivity.
  - repeat split.
  - unfold rows at 1. cbn [tables]. rewrite lookup_insert_eq.
    reflexivity.
Qed.

Lemma only_calls_spares table (p : prog response) :
  only_calls (call_spares table) p -> spares table p.
Proof. induction 1; constructor; auto. Qed.

Lemma handler_spares_progress rt e req :
  e <> GET_a2z_progress -> e <> PUT_a2z_progress ->
  spares "a2z_progress" (handler rt e req).
Proof.
  intros Hget Hput. apply only_calls_spares.
  apply (only_calls_weaken (call_allowed e)); [|apply handler_only_allowed].
  intros c Hc. destruct c; cbn in Hc |- *; try exact I; intros ->;
    destruct e; cbn in Hc; try contradiction;
    repeat (destruct Hc as [Hc | Hc]; try discriminate Hc); try contradiction.
Qed.

(** One served request keeps the progress table a singleton. *)
Lemma serve_keeps_singleton rt e req (s : Store.t) :
  faults s = [] ->
  singleton (rows s "a2z_progress") ->
  faults (state_of (serve step rt e req s)) = []
  /\ singleton (rows (state_of (serve step rt e req s)) "a2z_progress").
Proof.
  intros Hf Hone. unfold singleton in *.
  assert (Hcase : e = GET_a2z_progress \/ e = PUT_a2z_progress
                  \/ (e <> GET_a2z_progress /\ e <> PUT_a2z_progress)).
  { destruct e; first [ left; reflexivity | right; left; reflexivity
                      | right; right; split; discriminate ]. }
  destruct Hcase as [-> | [-> | [Hget Hput]]].
  - destruct (serve_get_a2z rt req s Hf) as [Hf' Hrows].
    split; [exact Hf'|].
    destruct (rows s "a2z_progress") as [|r [|r' l]] eqn:Hr.
    + destruct Hrows as [_ ->]. cbn. lia.
    + destruct Hrows as (_ & -> & _). rewrite Hr. cbn. lia.
    + cbn in Hone. lia.
  - destruct (serve_put_a2z rt req s Hf) as [Hf' Hrows].
    split; [exact Hf'|].
    destruct (rows s "a2z_progress") as [|r [|r' l]] eqn:Hr.
    + destruct Hrows as [_ ->]. cbn. lia.
    + destruct (holds (c_eq "id" (r !! "id")) r).
      * destruct Hrows as [_ ->]. cbn. lia.
      * destruct Hrows as [_ ->]. rewrite Hr. cbn. lia.
    + cbn in Hone. lia.
  - unfold serve. rewrite state_of_try_catch.
    destruct (run_spares "a2z_progress" (handler rt e req)
                (handler_spares_progress rt e req Hget Hput) s Hf) as [Hr Hf'].
    split; [exact Hf'|]. rewrite Hr. exact Hone.
Qed.

(** X14.  On a store that meets no fault and whose [a2z_progress] table
    holds at most one row, the table holds at most one row after any
    sequence of requests, to any routes, served one after the other; and
    after a [GET /a2z-progress] it holds exactly one. *)
Theorem progress_stays_a_singleton :
  (forall (reqs : list (env * route * request)) (s : Store.t),
     faults s = [] ->
     singleton (rows s "a2z_progress") ->
     singleton (rows (serve_all reqs s) "a2z_progress"))
  /\
  (forall rt req (s : Store.t),
     faults s = [] ->
     singleton (rows s "a2z_progress") ->
     length (rows (state_of (serve step rt GET_a2z_progress req s))
               "a2z_progress") = 1%nat).
Proof.
  split.
  - intros reqs. induction reqs as [|[[rt e] req] rest IH]; intros s Hf Hone.
    + exact Hone.
    + cbn [serve_all].
      destruct (serve_keeps_singleton rt e req s Hf Hone) as [Hf' Hone'].
      apply IH; assumption.
  - intros rt req s Hf Hone. unfold singleton in Hone.
    destruct (serve_get_a2z rt req s Hf) as [_ Hrows].
    destruct (rows s "a2z_progress") as [|r [|r' l]] eqn:Hr.
    + destruct Hrows as [_ ->]. reflexivity.
    + destruct Hrows as (_ & -> & _). rewrite Hr. reflexivity.
    + cbn in Hone. lia.
Qed.

(** A read, an update and a read again on an empty store. *)
Lemma progress_stays_a_singleton_witness :
  let reqs := [(sample_env, GET_a2z_progress, empty_request);
               (sample_env, PUT_a2z_progress,
                request_of [("easy_solved", Some (VNum 4))]);
               (sample_env, GET_a2z_progress, empty_request)] in
  faults (init ∅) = []
  /\ singleton (rows (init ∅) "a2z_progress")
  /\ singleton (rows (serve_all reqs (init ∅)) "a2z_progress")
  /\ length (rows (serve_all reqs (init ∅)) "a2z_progress") = 1%nat.
Proof.
  intros reqs.
  assert (Hone : singleton (rows (init ∅) "a2z_progress"))
    by (unfold singleton; vm_compute; lia).
  split; [reflexivity|]. split; [exact Hone|]. split.
  - destruct progress_stays_a_singleton as [H _].
    apply H; [reflexivity | exact Hone].
  - reflexivity.
Defined.

(** X15.  On a store that meets no fault, [PUT /a2z-progress] inserts the
    request body as it came when the table is empty, and answers with the
    stored row; when the table holds one row with a scalar [id], it sets in
    that row every field of the body, keeps its other fields, and answers
    with the row. *)
Theorem progress_put_inserts_or_updates :
  forall rt req (s : Store.t),
    faults s = [] ->
    let out := serve step rt PUT_a2z_progress req s in
    (rows s "a2z_progress" = [] ->
     resp_of out = res_ok (VObj (new_row s (body req)))
     /\ rows (state_of out) "a2z_progress" = [new_row s (body req)]
     /\ (forall f v, body req !! f = Some v ->
           new_row s (body req) !! f = Some v))
    /\ (forall r,
          rows s "a2z_progress" = [r] ->
          is_Some (col_text r "id") ->
          exists row' : obj,
            resp_of out = res_ok (VObj row')
            /\ rows (state_of out) "a2z_progress" = [row']
            /\ (forall f v, body req !! f = Some v -> row' !! f = Some v)
            /\ (forall f, body req !! f = None -> row' !! f = r !! f)).
Proof.
  intros rt req s Hf out.
  destruct (serve_put_a2z rt req s Hf) as [_ Hrows]. fold out in Hrows.
  split.
  - intros Hempty. rewrite Hempty in Hrows. destruct Hrows as [Hresp Hst].
    split; [exact Hresp|]. split; [exact Hst|].
    intros f v Hv. apply new_row_payload. exact Hv.
  - intros r Hone Hid. rewrite Hone in Hrows.
    apply holds_own_id in Hid. rewrite Hid in Hrows.
    destruct Hrows as [Hresp Hst].
    exists (body req ∪ r). split; [exact Hresp|]. split; [exact Hst|].
    split.
    + intros f v Hv. apply lookup_union_Some_l. exact Hv.
    + intros f Hnone. apply lookup_union_r. exact Hnone.
Qed.

Lemma progress_put_inserts_or_updates_witness :
  let req := request_of [("easy_solved", Some (VNum 4))] in
  faults sample_progress = []
  /\ exists row' : obj,
       resp_of (serve step sample_env PUT_a2z_progress req sample_progress)
         = res_ok (VObj row')
       /\ row' !! "easy_solved" = Some (VNum 4)
       /\ row' !! "easy_total" = Some (VNum 10).
Proof.
  intros req. split; [reflexivity|].
  destruct (progress_put_inserts_or_updates sample_env req sample_progress
              eq_refl) as [_ H].
  destruct (H _ eq_refl) as (row' & Hresp & _ & Hset & Hkeep).
  { eexists. reflexivity. }
  exists row'. split; [exact Hresp|]. split.
  - apply Hset. reflexivity.
  - rewrite Hkeep by reflexivity. reflexivity.
Defined.

(** X16.  On a store that meets no fault and whose [a2z_progress] table
    holds at most one row, a second [GET /a2z-progress] answers as the
    first did, with a single read and without changing the store: only the
    first read of an empty table writes. *)
Theorem progress_get_is_idempotent :
  forall rt1 req1 rt2 req2 (s : Store.t),
    faults s = [] ->
    singleton (rows s "a2z_progress") ->
    let first := serve step rt1 GET_a2z_progress req1 s in
    let second := serve step rt2 GET_a2z_progress req2 (state_of first) in
    resp_of second = resp_of first
    /\ state_of second = state_of first
    /\ calls_of second = [QSelect "a2z_progress" "*" [] None true].
Proof.
  intros rt1 req1 rt2 req2 s Hf Hone first second.
  destruct (serve_get_a2z rt1 req1 s Hf) as [Hf1 H1]. fold first in Hf1, H1.
  destruct (serve_get_a2z rt2 req2 (state_of first) Hf1) as [_ H2].
  fold second in H2. unfold singleton in Hone.
  destruct (rows s "a2z_progress") as [|r [|r' l]] eqn:Hr.
  - destruct H1 as [Hresp Hrows]. rewrite Hrows in H2.
    destruct H2 as (H2a & H2b & H2c). rewrite Hresp. auto.
  - destruct H1 as (Hresp & Hst & _).
    assert (Hrows : rows (state_of first) "a2z_progress" = [r])
      by (rewrite Hst; exact Hr).
    rewrite Hrows in H2. destruct H2 as (H2a & H2b & H2c).
    rewrite Hresp. auto.
  - cbn in Hone. lia.
Qed.

Lemma progress_get_is_idempotent_witness :
  let first := serve step sample_env GET_a2z_progress empty_request (init ∅) in
  let second := serve step sample_env_later GET_a2z_progress empty_request
                  (state_of first) in
  faults (init ∅) = []
  /\ singleton (rows (init ∅) "a2z_progress")
  /\ resp_of second = resp_of first
  /\ state_of second = state_of first.
Proof.
  intros first second.
  assert (Hone : singleton (rows (init ∅) "a2z_progress"))
    by (unfold singleton; vm_compute; lia).
  split; [reflexivity|]. split; [exact Hone|].
  destruct (progress_get_is_idempotent sample_env empty_request
              sample_env_later empty_request (init ∅) eq_refl Hone)
    as (Hresp & Hst & _).
  split; assumption.
Defined.
End EntriesAndProgress.
